(** * SmartBite: a shallow embedding of the data-access functions, the
      application state containers and the policies of the store.

    Sources embedded here:
    - [src/services/supabase-api.ts]  (authService, restaurantService,
      menuService, orderService, reviewService);
    - [src/contexts/OrderContext.tsx], [RestaurantContext.tsx],
      [MenuContext.tsx], [AuthContext.tsx]  (the React state containers);
    - [supabase/migrations/20251005022227_create_initial_schema.sql]
      (the tables [reviews], [orders] and [users], their constraints and
      policies).

    Conventions.
    - A finite JavaScript number is the rational it stands for, beside
      [NaN] and the two infinities; the negative zero is identified with
      zero (every operation of the code treats them alike).  Sums and
      quotients are rounded to the nearest binary64 number.  A [numeric]
      column holds the number as the client reads it: the store keeps
      the decimal text of the number it was sent, which reads back as
      the same number.
    - An [async] function is a computation over the world (remote store,
      request log, container state) that either returns or throws; a
      throw keeps the state changes made before it, as in JavaScript.
      A [useState] setter takes effect at once.
    - The hosted database is an external collaborator.  A request it
      refuses is answered with an error and changes nothing.  A request
      it answers is carried out on the rows it reaches: a row-level
      policy that does not hold for a row keeps the row out of a SELECT,
      an UPDATE or a DELETE, and the answer does not tell.  Which
      requests are refused ([rejects]) and which rows are kept from a
      request ([hides]) is left to the environment: both depend on the
      key and the session the client connects with, which the code
      takes from its deployment.
    - [console.log] / [console.error] have no effect on the world. *)

From Stdlib Require Import String Ascii List ZArith QArith Bool Lia Lqa.
From Stdlib Require Import Qround Qreduction Qabs Permutation.
Import ListNotations.
Local Open Scope string_scope.

(* ================================================================== *)
(** ** JavaScript values *)
(* ================================================================== *)

Module Js.

#[local] Set Warnings "-register-all".

Inductive number : Type :=
| NaN
| Infinity (negative : bool)
| Fin (q : Q).

Inductive value : Type :=
| Undefined
| Null
| Boolean (b : bool)
| Number (n : number)
| String (s : string)
| Array (elems : list value)
| Object (props : list (string * value)).

(** A plain object as the list of its properties.  The first binding of
    a key is the property's value, so consing a binding sets the
    property; lookup [o.key] / [o[key]] yields [undefined] for an absent
    key. *)
Definition object : Type := list (string * value).

Fixpoint get (o : object) (key : string) : value :=
  match o with
  | [] => Undefined
  | (k, v) :: rest => if String.eqb k key then v else get rest key
  end.

Definition zero : number := Fin 0.

(** ToBoolean *)
Definition truthy (v : value) : bool :=
  match v with
  | Undefined | Null => false
  | Boolean b => b
  | Number NaN => false
  | Number (Infinity _) => true
  | Number (Fin q) => negb (Qeq_bool q 0)
  | String s => negb (String.eqb s "")
  | Array _ | Object _ => true
  end.

(** [a || b] *)
Definition or_else (a b : value) : value := if truthy a then a else b.

Definition isNaN (n : number) : bool :=
  match n with NaN => true | _ => false end.

(** [a < b] on numbers *)
Definition lt (a b : number) : bool :=
  match a, b with
  | NaN, _ | _, NaN => false
  | Infinity true, Infinity true => false
  | Infinity true, _ => true
  | Infinity false, _ => false
  | Fin _, Infinity negative => negb negative
  | Fin x, Fin y => negb (Qle_bool y x)
  end.

(** [a <= b] on numbers *)
Definition le (a b : number) : bool :=
  match a, b with
  | NaN, _ | _, NaN => false
  | Infinity true, _ => true
  | Infinity false, Infinity false => true
  | Infinity false, _ => false
  | Fin _, Infinity negative => negb negative
  | Fin x, Fin y => Qle_bool x y
  end.

(** *** Rounding

    The finite numbers of JavaScript are the rationals [m * 2^e] with
    [|m| < 2^53] and [-1074 <= e <= 971].  An arithmetic operation
    yields the one nearest to the exact result, on a tie the one whose
    [m] is even, and an infinity when the result rounds to [2^1024] or
    beyond. *)

(** The integer nearest to [n / d], the even one on a tie
    ([0 <= n], [0 < d]). *)
Definition nearest_even (n d : Z) : Z :=
  let q := (n / d)%Z in
  match (2 * (n mod d) ?= d)%Z with
  | Lt => q
  | Gt => (q + 1)%Z
  | Eq => if Z.even q then q else (q + 1)%Z
  end.

(** [floor (log2 (n / d))]: the difference of the two logarithms, or
    one less. *)
Definition floor_log2 (n d : positive) : Z :=
  let k := (Z.log2 (Zpos n) - Z.log2 (Zpos d))%Z in
  let below :=
    if (0 <=? k)%Z then (Zpos n <? Zpos d * 2 ^ k)%Z
    else (Zpos n * 2 ^ (- k) <? Zpos d)%Z in
  if below then (k - 1)%Z else k.

(** The exponent [e] of the numbers [m * 2^e] around [n / d]: 52 below
    that of [n / d], and -1074 among the subnormal numbers. *)
Definition exponent (n d : positive) : Z :=
  Z.max (floor_log2 n d - 52) (-1074).

(** [2^e] *)
Definition pow2 (e : Z) : Q :=
  if (0 <=? e)%Z then inject_Z (2 ^ e) else 1 # Z.to_pos (2 ^ (- e)).

Definition round_positive (n d : positive) : number :=
  let e := exponent n d in
  let m :=
    if (0 <=? e)%Z then nearest_even (Zpos n) (Zpos d * 2 ^ e)
    else nearest_even (Zpos n * 2 ^ (- e)) (Zpos d) in
  if (0 <=? e)%Z && (2 ^ 1024 <=? m * 2 ^ e)%Z then Infinity false
  else Fin (Qred (inject_Z m * pow2 e)).

Definition opposite (a : number) : number :=
  match a with
  | NaN => NaN
  | Infinity s => Infinity (negb s)
  | Fin x => Fin (- x)
  end.

(** The number a rational result is rounded to. *)
Definition round (q : Q) : number :=
  match Qnum q with
  | Z0 => Fin 0
  | Zpos n => round_positive n (Qden q)
  | Zneg n => opposite (round_positive n (Qden q))
  end.

(** [a + b] on numbers *)
Definition add (a b : number) : number :=
  match a, b with
  | NaN, _ | _, NaN => NaN
  | Infinity s, Infinity t => if Bool.eqb s t then Infinity s else NaN
  | Infinity s, Fin _ | Fin _, Infinity s => Infinity s
  | Fin x, Fin y => round (x + y)
  end.

Definition negativeQ (q : Q) : bool := negb (Qle_bool 0 q).

(** [a / b] on numbers *)
Definition div (a b : number) : number :=
  match a, b with
  | NaN, _ | _, NaN => NaN
  | Infinity _, Infinity _ => NaN
  | Infinity s, Fin y => Infinity (xorb s (negativeQ y))
  | Fin _, Infinity _ => Fin 0
  | Fin x, Fin y =>
      if Qeq_bool y 0
      then (if Qeq_bool x 0 then NaN else Infinity (negativeQ x))
      else round (x / y)
  end.

(** The number read from a JSON integer.  The integers the code reads
    are values of an [integer] column and lengths of arrays, below
    [2^32] in size: they are numbers as they stand. *)
Definition ofZ (z : Z) : number := Fin (inject_Z z).
Definition ofNat (n : nat) : number := ofZ (Z.of_nat n).

Definition isArray (v : value) : bool :=
  match v with Array _ => true | _ => false end.

(** Structural comparison of two values, used for PostgREST [eq]
    filters on columns whose content the client supplied. *)
Definition number_eqb (a b : number) : bool :=
  match a, b with
  | NaN, NaN => true
  | Infinity s, Infinity t => Bool.eqb s t
  | Fin x, Fin y => Qeq_bool x y
  | _, _ => false
  end.

Fixpoint eqb (a b : value) {struct a} : bool :=
  match a, b with
  | Undefined, Undefined | Null, Null => true
  | Boolean x, Boolean y => Bool.eqb x y
  | Number x, Number y => number_eqb x y
  | String x, String y => String.eqb x y
  | Array xs, Array ys =>
      (fix go (l : list value) (r : list value) : bool :=
         match l, r with
         | [], [] => true
         | x :: l', y :: r' => eqb x y && go l' r'
         | _, _ => false
         end) xs ys
  | Object xs, Object ys =>
      (fix go (l r : list (string * value)) : bool :=
         match l, r with
         | [], [] => true
         | (k, x) :: l', (k', y) :: r' =>
             String.eqb k k' && eqb x y && go l' r'
         | _, _ => false
         end) xs ys
  | _, _ => false
  end.

(** [String.prototype.replace(from, to)] with a one-character pattern:
    only the first occurrence is replaced. *)
Fixpoint replace_first (from to : ascii) (s : string) : string :=
  match s with
  | EmptyString => EmptyString
  | String.String c rest =>
      if Ascii.eqb c from then String.String to rest
      else String.String c (replace_first from to rest)
  end.

(** [Array.prototype.join] on strings *)
Definition join (sep : string) (parts : list string) : string :=
  String.concat sep parts.

(** What the code reads of an [Error] or of a PostgREST error object. *)
Record error : Type := Error { message : string }.

End Js.

(* ================================================================== *)
(** ** The remote store as the client sees it *)
(* ================================================================== *)

(** Rows travel as JSON documents.  A column the client fills from an
    [any]-typed object holds the value it was sent; a column the server
    fills (ids, timestamps, defaults) has the type the TypeScript
    interfaces declare. *)

Definition uuid : Type := string.
Definition timestamp : Type := string.

(** [interface User] *)
Module User.
Record t : Type := Build {
  id : uuid;
  name : string;
  email : string;
  role : string;
  phone : option string;
  town : option string }.
End User.

Module UserRow.
Record t : Type := Build {
  id : uuid;
  email : string;
  password_hash : string;
  name : string;
  phone : option string;
  town : option string;
  role : string;
  created_at : timestamp;
  updated_at : timestamp }.
End UserRow.

Module RestaurantRow.
Record t : Type := Build {
  id : uuid;
  user_id : uuid;
  name : Js.value;
  description : Js.value;
  image : Js.value;
  town : Js.value;
  address : Js.value;
  phone : Js.value;
  rating : Js.number;
  delivery_time : Js.value;
  delivery_fee : Js.number;
  min_order : Js.number;
  categories : Js.value;
  is_active : bool;
  created_at : timestamp;
  updated_at : timestamp }.

Definition with_rating (x : Js.number) (now : timestamp) (r : t) : t :=
  Build (id r) (user_id r) (name r) (description r) (image r) (town r)
        (address r) (phone r) x (delivery_time r) (delivery_fee r)
        (min_order r) (categories r) (is_active r) (created_at r) now.
End RestaurantRow.

Module MenuItemRow.
Record t : Type := Build {
  id : uuid;
  restaurant_id : Js.value;
  name : Js.value;
  description : Js.value;
  category : Js.value;
  price : Js.number;
  image : Js.value;
  available : bool;
  created_at : timestamp;
  updated_at : timestamp }.
End MenuItemRow.

Module OrderRow.
Record t : Type := Build {
  id : uuid;
  customer_id : Js.value;
  restaurant_id : Js.value;
  driver_id : option uuid;
  status : string;
  items : Js.value;
  subtotal : Js.number;
  delivery_fee : Js.number;
  total : Js.number;
  delivery_address : Js.value;
  customer_phone : Js.value;
  notes : Js.value;
  created_at : timestamp;
  updated_at : timestamp }.

(** The three columns an update of the lifecycle touches. *)
Definition with_status (s : string) (d : option uuid) (now : timestamp)
    (o : t) : t :=
  Build (id o) (customer_id o) (restaurant_id o) d s (items o)
        (subtotal o) (delivery_fee o) (total o) (delivery_address o)
        (customer_phone o) (notes o) (created_at o) now.
End OrderRow.

(** The three references of a review are nullable columns. *)
Module ReviewRow.
Record t : Type := Build {
  id : uuid;
  restaurant_id : option uuid;
  customer_id : option uuid;
  order_id : option uuid;
  rating : Z;
  comment : Js.value;
  created_at : timestamp }.
End ReviewRow.

Module DB.
Record t : Type := Build {
  users : list UserRow.t;
  restaurants : list RestaurantRow.t;
  menu_items : list MenuItemRow.t;
  orders : list OrderRow.t;
  reviews : list ReviewRow.t;
  now : timestamp  (* the server clock, [now()] *) }.

Definition with_restaurants (x : list RestaurantRow.t) (d : t) : t :=
  Build (users d) x (menu_items d) (orders d) (reviews d) (now d).
Definition with_menu_items (x : list MenuItemRow.t) (d : t) : t :=
  Build (users d) (restaurants d) x (orders d) (reviews d) (now d).
Definition with_orders (x : list OrderRow.t) (d : t) : t :=
  Build (users d) (restaurants d) (menu_items d) x (reviews d) (now d).
Definition with_now (x : timestamp) (d : t) : t :=
  Build (users d) (restaurants d) (menu_items d) (orders d) (reviews d) x.
End DB.

(** *** Requests *)

(** The body of [from('restaurants').insert({...})]. *)
Module RestaurantInsert.
Record t : Type := Build {
  user_id : uuid;
  name : Js.value;
  description : Js.value;
  image : Js.value;
  town : Js.value;
  address : Js.value;
  phone : Js.value;
  delivery_time : Js.value;
  delivery_fee : Js.number;
  min_order : Js.number;
  categories : Js.value;
  is_active : bool }.
End RestaurantInsert.

(** The body of [from('menu_items').insert({...})]. *)
Module MenuItemInsert.
Record t : Type := Build {
  restaurant_id : Js.value;
  name : Js.value;
  description : Js.value;
  category : Js.value;
  price : Js.number;
  image : Js.value;
  available : bool }.
End MenuItemInsert.

(** The body of [from('orders').insert({...})]. *)
Module OrderInsert.
Record t : Type := Build {
  customer_id : Js.value;
  restaurant_id : Js.value;
  status : string;
  items : Js.value;
  subtotal : Js.number;
  delivery_fee : Js.number;
  total : Js.number;
  delivery_address : Js.value;
  customer_phone : Js.value;
  notes : Js.value }.
End OrderInsert.

(** The [updates] object of [orderService.updateOrderStatus]: [status]
    always, [driver_id] only when the property was assigned. *)
Module OrderUpdate.
Record t : Type := Build {
  status : string;
  driver_id : option uuid }.
End OrderUpdate.

(** Every query the modelled functions send, one constructor per query
    builder chain. *)
Inductive Request : Type :=
| SelectUserByEmail (email : string)
| SelectActiveRestaurants
| SelectRestaurantByOwner (userId : uuid)
| InsertRestaurant (body : RestaurantInsert.t)
| SelectMenuItems (restaurantId : Js.value)
| InsertMenuItem (body : MenuItemInsert.t)
| SelectOrdersByCustomer (userId : uuid)
| SelectOrdersByRestaurant (restaurantId : uuid)
| SelectOrdersByDriver (driverId : uuid)
| InsertOrder (body : OrderInsert.t)
| UpdateOrder (orderId : uuid) (updates : OrderUpdate.t)
| SelectRatings (restaurantId : uuid)
| UpdateRating (restaurantId : uuid) (rating : Js.number).

(** [{ data, error }] *)
Record Response (A : Type) : Type := mkResponse {
  data : option A;
  error : option Js.error }.
Arguments mkResponse {A} _ _.
Arguments data {A} _.
Arguments error {A} _.

(** What the program takes from its environment: the JavaScript
    built-ins whose result depends on string syntax, the password
    hashing library, and the hosted database's own decisions. *)
Record Runtime : Type := mkRuntime {
  (** [Number(s)] on a string *)
  StringToNumber : string -> Js.number;
  (** [parseFloat(s)] on a string *)
  parseFloatString : string -> Js.number;
  (** [String(v)] on an array or an object *)
  ObjectToString : Js.value -> string;
  (** [s.trim()] *)
  trim : string -> string;
  (** [bcrypt.compare(password, hash)] *)
  bcrypt_compare : string -> string -> bool;
  (** [gen_random_uuid()] *)
  gen_random_uuid : DB.t -> uuid;
  (** order of [timestamptz] values and of [text] values *)
  timestamp_leb : timestamp -> timestamp -> bool;
  text_leb : Js.value -> Js.value -> bool;
  (** the store refuses a request (row-level policy, constraint,
      transport): the error it answers with *)
  rejects : DB.t -> Request -> option Js.error;
  (** the store keeps a row from a request it answers: a row for which
      no policy of the table holds is left out of what a SELECT returns
      and of what an UPDATE changes, and no error says so; rows are
      named by their id *)
  hides : DB.t -> Request -> uuid -> bool;
  (** the server clock moves on between two writes *)
  later : timestamp -> timestamp;
  (** of two requests in flight, the answer to the second arrives
      before the answer to the first *)
  overtakes : Request -> Request -> bool }.

(* ================================================================== *)
(** ** State of the containers, and the world *)
(* ================================================================== *)

(** The embedded resource [restaurant:restaurants(name, phone, address)]. *)
Record RestaurantEmbed : Type := mkEmbed {
  embed_name : Js.value;
  embed_phone : Js.value;
  embed_address : Js.value }.

(** An element of the cached order list: the row a fetch returned,
    possibly with its embedded restaurant. *)
Module CachedOrder.
Record t : Type := Build {
  row : OrderRow.t;
  restaurant : option RestaurantEmbed }.
End CachedOrder.

(** [useState] cells of [OrderProvider] *)
Module OrderState.
Record t : Type := Build {
  orders : list CachedOrder.t;
  loading : bool;
  error : option string }.
Definition init : t := Build [] false None.
End OrderState.

(** [useState] cells of [RestaurantProvider] *)
Module RestaurantState.
Record t : Type := Build {
  restaurants : list RestaurantRow.t;
  myRestaurant : option RestaurantRow.t;
  loading : bool;
  error : option string }.
Definition init : t := Build [] None false None.
End RestaurantState.

(** [useState] cells of [MenuProvider] *)
Module MenuState.
Record t : Type := Build {
  menuItems : list MenuItemRow.t;
  loading : bool;
  error : option string }.
Definition init : t := Build [] false None.
End MenuState.

Record World : Type := mkWorld {
  remote : DB.t;
  requests : list Request;          (* every request sent, oldest first *)
  user : option User.t;             (* [useAuth().user] *)
  clock : timestamp;                (* [new Date().toISOString()] *)
  orderState : OrderState.t;
  restaurantState : RestaurantState.t;
  menuState : MenuState.t }.

Definition with_remote (d : DB.t) (w : World) : World :=
  mkWorld d (requests w) (user w) (clock w)
          (orderState w) (restaurantState w) (menuState w).
Definition log_request (r : Request) (w : World) : World :=
  mkWorld (remote w) (requests w ++ [r]) (user w) (clock w)
          (orderState w) (restaurantState w) (menuState w).
Definition with_orderState (s : OrderState.t) (w : World) : World :=
  mkWorld (remote w) (requests w) (user w) (clock w)
          s (restaurantState w) (menuState w).
Definition with_restaurantState (s : RestaurantState.t) (w : World) : World :=
  mkWorld (remote w) (requests w) (user w) (clock w)
          (orderState w) s (menuState w).
Definition with_menuState (s : MenuState.t) (w : World) : World :=
  mkWorld (remote w) (requests w) (user w) (clock w)
          (orderState w) (restaurantState w) s.

(* ================================================================== *)
(** ** Computations that return or throw *)
(* ================================================================== *)

Inductive Outcome (A : Type) : Type :=
| Return (a : A)
| Throw (e : Js.error).
Arguments Return {A} _.
Arguments Throw {A} _.

Definition M (A : Type) : Type := World -> Outcome A * World.

Definition ret {A} (a : A) : M A := fun w => (Return a, w).

Definition throw {A} (e : Js.error) : M A := fun w => (Throw e, w).

Definition bind {A B} (m : M A) (k : A -> M B) : M B :=
  fun w =>
    match m w with
    | (Return a, w') => k a w'
    | (Throw e, w') => (Throw e, w')
    end.

Definition gets {A} (f : World -> A) : M A := fun w => (Return (f w), w).

Definition modify (f : World -> World) : M unit := fun w => (Return tt, f w).

(** [try { body } catch (error) { handler }] *)
Definition try_catch {A} (body : M A) (handler : Js.error -> M A) : M A :=
  fun w =>
    match body w with
    | (Return a, w') => (Return a, w')
    | (Throw e, w') => handler e w'
    end.

(** [try { body } finally { cleanup }] *)
Definition try_finally {A} (body : M A) (cleanup : M unit) : M A :=
  fun w =>
    match body w with
    | (r, w') =>
        match cleanup w' with
        | (Return _, w'') => (r, w'')
        | (Throw e, w'') => (Throw e, w'')
        end
    end.

(** [if (c) throw new Error(msg)] *)
Definition throw_if (c : bool) (msg : string) : M unit :=
  if c then throw (Js.Error msg) else ret tt.

(** [for (const x of xs) body] *)
Fixpoint for_of {A} (xs : list A) (body : A -> M unit) : M unit :=
  match xs with
  | [] => ret tt
  | x :: rest => bind (body x) (fun _ => for_of rest body)
  end.

Declare Scope js_scope.
Delimit Scope js_scope with js.
Notation "x <- c ;; k" := (bind c (fun x => k))
  (at level 61, c at next level, right associativity) : js_scope.
Notation "c ;; k" := (bind c (fun _ => k))
  (at level 61, right associativity) : js_scope.
Local Open Scope js_scope.

(** [error.message || fallback] *)
Definition message_or (e : Js.error) (fallback : string) : string :=
  if String.eqb (Js.message e) "" then fallback else Js.message e.

(* ================================================================== *)
(** ** What the store does with a request it answers *)
(* ================================================================== *)

Module Store.
Section WithRuntime.
Variable rt : Runtime.

Fixpoint insert_sorted {A} (leb : A -> A -> bool) (x : A) (l : list A)
  : list A :=
  match l with
  | [] => [x]
  | y :: l' => if leb x y then x :: l else y :: insert_sorted leb x l'
  end.

(** [.order(column, { ascending })] *)
Definition order_by {A} (leb : A -> A -> bool) (l : list A) : list A :=
  fold_right (insert_sorted leb) [] l.

Definition newest_first {A} (created_at : A -> timestamp) (l : list A)
  : list A :=
  order_by (fun x y => timestamp_leb rt (created_at y) (created_at x)) l.

(** The rows of a table that a request reaches. *)
Definition reached {A} (req : Request) (id : A -> uuid) (d : DB.t)
    (l : list A) : list A :=
  filter (fun x => negb (hides rt d req (id x))) l.

(** An update changes the rows the request reaches and leaves the
    others as they are. *)
Definition where_reached {A} (req : Request) (id : A -> uuid) (d : DB.t)
    (f : A -> A) (x : A) : A :=
  if hides rt d req (id x) then x else f x.

(** After a write the server clock has moved on. *)
Definition written (d : DB.t) : DB.t :=
  DB.with_now (later rt (DB.now d)) d.

(** A plain [select]: the rows, no error. *)
Definition rows {A} (l : list A) : Response (list A) :=
  mkResponse (Some l) None.

(** [.maybeSingle()]: [null] for no row, an error for several. *)
Definition maybeSingle {A} (l : list A) : Response A :=
  match l with
  | [] => mkResponse None None
  | [r] => mkResponse (Some r) None
  | _ => mkResponse None
           (Some (Js.Error
              "JSON object requested, multiple (or no) rows returned"))
  end.

Definition select_user_by_email (email : string) (d : DB.t)
  : Response UserRow.t * DB.t :=
  (maybeSingle
     (reached (SelectUserByEmail email) UserRow.id d
        (filter (fun u => String.eqb (UserRow.email u) email)
                (DB.users d))), d).

Definition select_active_restaurants (d : DB.t)
  : Response (list RestaurantRow.t) * DB.t :=
  (rows (newest_first RestaurantRow.created_at
           (reached SelectActiveRestaurants RestaurantRow.id d
              (filter RestaurantRow.is_active (DB.restaurants d)))), d).

Definition select_restaurant_by_owner (userId : uuid) (d : DB.t)
  : Response RestaurantRow.t * DB.t :=
  (maybeSingle
     (reached (SelectRestaurantByOwner userId) RestaurantRow.id d
        (filter (fun r => String.eqb (RestaurantRow.user_id r) userId)
                (DB.restaurants d))), d).

(** [.insert(body).select().single()]: the new row gets its id, the
    column defaults ([rating] 0) and both timestamps from the server. *)
Definition insert_restaurant (b : RestaurantInsert.t) (d : DB.t)
  : Response RestaurantRow.t * DB.t :=
  let r := RestaurantRow.Build (gen_random_uuid rt d)
             (RestaurantInsert.user_id b) (RestaurantInsert.name b)
             (RestaurantInsert.description b) (RestaurantInsert.image b)
             (RestaurantInsert.town b) (RestaurantInsert.address b)
             (RestaurantInsert.phone b) Js.zero
             (RestaurantInsert.delivery_time b)
             (RestaurantInsert.delivery_fee b)
             (RestaurantInsert.min_order b)
             (RestaurantInsert.categories b)
             (RestaurantInsert.is_active b) (DB.now d) (DB.now d) in
  (mkResponse (Some r) None,
   written (DB.with_restaurants (DB.restaurants d ++ [r]) d)).

Definition select_menu_items (restaurantId : Js.value) (d : DB.t)
  : Response (list MenuItemRow.t) * DB.t :=
  (rows (order_by
           (fun x y => text_leb rt (MenuItemRow.category x)
                                   (MenuItemRow.category y))
           (reached (SelectMenuItems restaurantId) MenuItemRow.id d
              (filter (fun m => Js.eqb (MenuItemRow.restaurant_id m)
                                       restaurantId)
                      (DB.menu_items d)))), d).

Definition insert_menu_item (b : MenuItemInsert.t) (d : DB.t)
  : Response MenuItemRow.t * DB.t :=
  let r := MenuItemRow.Build (gen_random_uuid rt d)
             (MenuItemInsert.restaurant_id b) (MenuItemInsert.name b)
             (MenuItemInsert.description b) (MenuItemInsert.category b)
             (MenuItemInsert.price b) (MenuItemInsert.image b)
             (MenuItemInsert.available b) (DB.now d) (DB.now d) in
  (mkResponse (Some r) None,
   written (DB.with_menu_items (DB.menu_items d ++ [r]) d)).

(** The embedded [restaurant:restaurants(name, phone, address)]: null
    when the request does not reach the restaurant. *)
Definition embed_restaurant (req : Request) (d : DB.t) (o : OrderRow.t)
  : CachedOrder.t :=
  CachedOrder.Build o
    (match find (fun r => Js.eqb (Js.String (RestaurantRow.id r))
                                 (OrderRow.restaurant_id o))
                (reached req RestaurantRow.id d (DB.restaurants d)) with
     | Some r => Some (mkEmbed (RestaurantRow.name r)
                               (RestaurantRow.phone r)
                               (RestaurantRow.address r))
     | None => None
     end).

Definition created_at_of (c : CachedOrder.t) : timestamp :=
  OrderRow.created_at (CachedOrder.row c).

Definition select_orders_by_customer (userId : uuid) (d : DB.t)
  : Response (list CachedOrder.t) * DB.t :=
  let req := SelectOrdersByCustomer userId in
  (rows (newest_first created_at_of
           (map (embed_restaurant req d)
              (reached req OrderRow.id d
                 (filter (fun o => Js.eqb (OrderRow.customer_id o)
                                          (Js.String userId))
                         (DB.orders d))))), d).

Definition select_orders_by_restaurant (restaurantId : uuid) (d : DB.t)
  : Response (list CachedOrder.t) * DB.t :=
  (rows (newest_first created_at_of
           (map (fun o => CachedOrder.Build o None)
              (reached (SelectOrdersByRestaurant restaurantId)
                 OrderRow.id d
                 (filter (fun o => Js.eqb (OrderRow.restaurant_id o)
                                          (Js.String restaurantId))
                         (DB.orders d))))), d).

Definition driver_is (driverId : uuid) (o : OrderRow.t) : bool :=
  match OrderRow.driver_id o with
  | Some x => String.eqb x driverId
  | None => false
  end.

Definition select_orders_by_driver (driverId : uuid) (d : DB.t)
  : Response (list CachedOrder.t) * DB.t :=
  let req := SelectOrdersByDriver driverId in
  (rows (newest_first created_at_of
           (map (embed_restaurant req d)
              (reached req OrderRow.id d
                 (filter (driver_is driverId) (DB.orders d))))), d).

(** The new order: [driver_id] is null, both timestamps are [now()]. *)
Definition new_order (b : OrderInsert.t) (d : DB.t) : OrderRow.t :=
  OrderRow.Build (gen_random_uuid rt d)
    (OrderInsert.customer_id b) (OrderInsert.restaurant_id b) None
    (OrderInsert.status b) (OrderInsert.items b) (OrderInsert.subtotal b)
    (OrderInsert.delivery_fee b) (OrderInsert.total b)
    (OrderInsert.delivery_address b) (OrderInsert.customer_phone b)
    (OrderInsert.notes b) (DB.now d) (DB.now d).

Definition insert_order (b : OrderInsert.t) (d : DB.t)
  : Response OrderRow.t * DB.t :=
  (mkResponse (Some (new_order b d)) None,
   written (DB.with_orders (DB.orders d ++ [new_order b d]) d)).

(** [.update(updates).eq('id', orderId)]; the trigger
    [update_orders_updated_at] stamps every updated row. *)
Definition apply_order_update (orderId : uuid) (u : OrderUpdate.t)
    (now : timestamp) (o : OrderRow.t) : OrderRow.t :=
  if String.eqb (OrderRow.id o) orderId
  then OrderRow.with_status (OrderUpdate.status u)
         (match OrderUpdate.driver_id u with
          | Some x => Some x
          | None => OrderRow.driver_id o
          end) now o
  else o.

Definition update_order (orderId : uuid) (u : OrderUpdate.t) (d : DB.t)
  : Response unit * DB.t :=
  (mkResponse None None,
   written
     (DB.with_orders
        (map (where_reached (UpdateOrder orderId u) OrderRow.id d
                (apply_order_update orderId u (DB.now d)))
             (DB.orders d)) d)).

(** The stored reviews of a restaurant. *)
Definition reviews_of (restaurantId : uuid) (d : DB.t)
  : list ReviewRow.t :=
  filter (fun r => match ReviewRow.restaurant_id r with
                   | Some x => String.eqb x restaurantId
                   | None => false
                   end)
         (DB.reviews d).

(** [from('reviews').select('rating').eq('restaurant_id', id)] *)
Definition ratings_of (restaurantId : uuid) (d : DB.t) : list Z :=
  map ReviewRow.rating
    (reached (SelectRatings restaurantId) ReviewRow.id d
       (reviews_of restaurantId d)).

Definition select_ratings (restaurantId : uuid) (d : DB.t)
  : Response (list Js.number) * DB.t :=
  (rows (map Js.ofZ (ratings_of restaurantId d)), d).

(** [.update({ rating }).eq('id', restaurantId)]; the trigger
    [update_restaurants_updated_at] stamps every updated row. *)
Definition apply_rating (restaurantId : uuid) (x : Js.number)
    (now : timestamp) (r : RestaurantRow.t) : RestaurantRow.t :=
  if String.eqb (RestaurantRow.id r) restaurantId
  then RestaurantRow.with_rating x now r
  else r.

Definition update_rating (restaurantId : uuid) (x : Js.number) (d : DB.t)
  : Response unit * DB.t :=
  (mkResponse None None,
   written
     (DB.with_restaurants
        (map (where_reached (UpdateRating restaurantId x)
                RestaurantRow.id d
                (apply_rating restaurantId x (DB.now d)))
             (DB.restaurants d)) d)).

(** One round trip: the request is logged; a refused request answers
    [{ data: null, error }] and leaves the store alone; any other is
    carried out on the rows it reaches. *)
Definition send {A} (req : Request) (exec : DB.t -> Response A * DB.t)
  : M (Response A) :=
  fun w =>
    let w1 := log_request req w in
    match rejects rt (remote w) req with
    | Some e => (Return (mkResponse None (Some e)), w1)
    | None =>
        match exec (remote w) with
        | (r, d') => (Return r, with_remote d' w1)
        end
    end.

End WithRuntime.
End Store.

(* ================================================================== *)
(** ** [services/supabase-api.ts] *)
(* ================================================================== *)

Section Conversions.
Variable rt : Runtime.

(** [Number(v)] *)
Definition ToNumber (v : Js.value) : Js.number :=
  match v with
  | Js.Undefined => Js.NaN
  | Js.Null => Js.Fin 0
  | Js.Boolean b => if b then Js.Fin 1 else Js.Fin 0
  | Js.Number n => n
  | Js.String s => StringToNumber rt s
  | Js.Array _ | Js.Object _ => StringToNumber rt (ObjectToString rt v)
  end.

(** [parseFloat(v)]: the argument is converted to a string and its
    longest numeric prefix is read; a number reads back as itself,
    ["undefined"], ["null"], ["true"] and ["false"] have no such prefix. *)
Definition parseFloat (v : Js.value) : Js.number :=
  match v with
  | Js.Number n => n
  | Js.String s => parseFloatString rt s
  | Js.Undefined | Js.Null | Js.Boolean _ => Js.NaN
  | Js.Array _ | Js.Object _ => parseFloatString rt (ObjectToString rt v)
  end.

End Conversions.

(** [if (error) throw error] *)
Definition throw_error {A} (r : Response A) : M unit :=
  match error r with
  | Some e => throw e
  | None => ret tt
  end.

(** [data || []] *)
Definition data_or_empty {A} (r : Response (list A)) : list A :=
  match data r with
  | Some l => l
  | None => []
  end.

(** [x || undefined] on a nullable string column *)
Definition or_undefined (x : option string) : option string :=
  match x with
  | Some s => if String.eqb s "" then None else Some s
  | None => None
  end.

(** Reading a property of [null]. *)
Definition null_dereference (prop : string) : Js.error :=
  Js.Error ("Cannot read properties of null (reading '" ++ prop ++ "')").

Module authService.
Section WithRuntime.
Variable rt : Runtime.

Definition login (email password : string) : M User.t :=
  r <- Store.send rt (SelectUserByEmail email)
         (Store.select_user_by_email rt email) ;;
  throw_error r ;;
  match data r with
  | None => throw (Js.Error "Invalid credentials")
  | Some user =>
      let validPassword :=
        bcrypt_compare rt password (UserRow.password_hash user) in
      if negb validPassword then throw (Js.Error "Invalid credentials")
      else ret (User.Build (UserRow.id user) (UserRow.name user)
                  (UserRow.email user) (UserRow.role user)
                  (or_undefined (UserRow.phone user))
                  (or_undefined (UserRow.town user)))
  end.

End WithRuntime.
End authService.

Module restaurantService.
Section WithRuntime.
Variable rt : Runtime.

Definition getRestaurants : M (list RestaurantRow.t) :=
  r <- Store.send rt SelectActiveRestaurants
         (Store.select_active_restaurants rt) ;;
  throw_error r ;;
  ret (data_or_empty r).

Definition getMyRestaurant (userId : uuid) : M (option RestaurantRow.t) :=
  r <- Store.send rt (SelectRestaurantByOwner userId)
         (Store.select_restaurant_by_owner rt userId) ;;
  throw_error r ;;
  ret (data r).

Definition createRestaurant (restaurantData : Js.object) (userId : uuid)
  : M uuid :=
  let body := RestaurantInsert.Build userId
    (Js.get restaurantData "name")
    (Js.or_else (Js.get restaurantData "description") (Js.String ""))
    (Js.or_else (Js.get restaurantData "image") (Js.String ""))
    (Js.get restaurantData "town")
    (Js.get restaurantData "address")
    (Js.get restaurantData "phone")
    (Js.get restaurantData "delivery_time")
    (parseFloat rt (Js.get restaurantData "delivery_fee"))
    (parseFloat rt (Js.get restaurantData "min_order"))
    (Js.get restaurantData "categories")
    true in
  r <- Store.send rt (InsertRestaurant body)
         (Store.insert_restaurant rt body) ;;
  throw_error r ;;
  match data r with
  | Some row => ret (RestaurantRow.id row)
  | None => throw (null_dereference "id")
  end.

End WithRuntime.
End restaurantService.

Module menuService.
Section WithRuntime.
Variable rt : Runtime.

Definition getMenuItems (restaurantId : Js.value)
  : M (list MenuItemRow.t) :=
  r <- Store.send rt (SelectMenuItems restaurantId)
         (Store.select_menu_items rt restaurantId) ;;
  throw_error r ;;
  ret (data_or_empty r).

(** [v !== false] *)
Definition not_false (v : Js.value) : bool :=
  match v with
  | Js.Boolean false => false
  | _ => true
  end.

Definition createMenuItem (menuItemData : Js.object)
  : M (option MenuItemRow.t) :=
  let body := MenuItemInsert.Build
    (Js.get menuItemData "restaurant_id")
    (Js.get menuItemData "name")
    (Js.or_else (Js.get menuItemData "description") (Js.String ""))
    (Js.get menuItemData "category")
    (parseFloat rt (Js.get menuItemData "price"))
    (Js.or_else (Js.get menuItemData "image") (Js.String ""))
    (not_false (Js.get menuItemData "available")) in
  r <- Store.send rt (InsertMenuItem body)
         (Store.insert_menu_item rt body) ;;
  throw_error r ;;
  ret (data r).

End WithRuntime.
End menuService.

Module orderService.
Section WithRuntime.
Variable rt : Runtime.

Definition getMyOrders (userId : uuid) : M (list CachedOrder.t) :=
  r <- Store.send rt (SelectOrdersByCustomer userId)
         (Store.select_orders_by_customer rt userId) ;;
  throw_error r ;;
  ret (data_or_empty r).

Definition getRestaurantOrders (restaurantId : uuid)
  : M (list CachedOrder.t) :=
  r <- Store.send rt (SelectOrdersByRestaurant restaurantId)
         (Store.select_orders_by_restaurant rt restaurantId) ;;
  throw_error r ;;
  ret (data_or_empty r).

Definition getDriverOrders (driverId : uuid) : M (list CachedOrder.t) :=
  r <- Store.send rt (SelectOrdersByDriver driverId)
         (Store.select_orders_by_driver rt driverId) ;;
  throw_error r ;;
  ret (data_or_empty r).

(** The object handed to [.insert]. *)
Definition order_body (orderData : Js.object) : OrderInsert.t :=
  OrderInsert.Build
    (Js.get orderData "customer_id")
    (Js.get orderData "restaurant_id")
    "pending"
    (Js.get orderData "items")
    (parseFloat rt (Js.get orderData "subtotal"))
    (parseFloat rt (Js.get orderData "delivery_fee"))
    (parseFloat rt (Js.get orderData "total"))
    (Js.get orderData "delivery_address")
    (Js.get orderData "customer_phone")
    (Js.or_else (Js.get orderData "notes") Js.Null).

Definition createOrder (orderData : Js.object) : M (option OrderRow.t) :=
  r <- Store.send rt (InsertOrder (order_body orderData))
         (Store.insert_order rt (order_body orderData)) ;;
  throw_error r ;;
  ret (data r).

(** [if (driverId)]: an absent or an empty string is falsy. *)
Definition given (driverId : option uuid) : option uuid :=
  match driverId with
  | Some s => if String.eqb s "" then None else Some s
  | None => None
  end.

Definition updateOrderStatus (orderId : uuid) (status : string)
    (driverId : option uuid) : M unit :=
  let updates := OrderUpdate.Build status (given driverId) in
  r <- Store.send rt (UpdateOrder orderId updates)
         (Store.update_order rt orderId updates) ;;
  throw_error r.

End WithRuntime.
End orderService.

Module reviewService.
Section WithRuntime.
Variable rt : Runtime.

(** [reviews.reduce((sum, r) => sum + r.rating, 0) / reviews.length] *)
Definition average (reviews : list Js.number) : Js.number :=
  Js.div (fold_left (fun sum r => Js.add sum r) reviews Js.zero)
         (Js.ofNat (length reviews)).

(** The answer of the first query is only destructured for [data]; the
    answer of the update is not looked at. *)
Definition updateRestaurantRating (restaurantId : uuid) : M unit :=
  r <- Store.send rt (SelectRatings restaurantId)
         (Store.select_ratings rt restaurantId) ;;
  match data r with
  | Some ((_ :: _) as reviews) =>
      let avgRating := average reviews in
      _ <- Store.send rt (UpdateRating restaurantId avgRating)
             (Store.update_rating rt restaurantId avgRating) ;;
      ret tt
  | _ => ret tt
  end.

End WithRuntime.
End reviewService.

(* ================================================================== *)
(** ** [contexts/OrderContext.tsx] *)
(* ================================================================== *)

(** [Order['status']] *)
Inductive OrderStatus : Type :=
| pending | confirmed | preparing | ready | delivering | delivered
| cancelled.

Definition status_name (s : OrderStatus) : string :=
  match s with
  | pending => "pending"
  | confirmed => "confirmed"
  | preparing => "preparing"
  | ready => "ready"
  | delivering => "delivering"
  | delivered => "delivered"
  | cancelled => "cancelled"
  end.

Module OrderContext.
Section WithRuntime.
Variable rt : Runtime.

Definition setOrders (f : list CachedOrder.t -> list CachedOrder.t)
  : M unit :=
  modify (fun w =>
    let s := orderState w in
    with_orderState
      (OrderState.Build (f (OrderState.orders s)) (OrderState.loading s)
                        (OrderState.error s)) w).

Definition setLoading (b : bool) : M unit :=
  modify (fun w =>
    let s := orderState w in
    with_orderState
      (OrderState.Build (OrderState.orders s) b (OrderState.error s)) w).

Definition setError (e : option string) : M unit :=
  modify (fun w =>
    let s := orderState w in
    with_orderState
      (OrderState.Build (OrderState.orders s) (OrderState.loading s) e) w).

Definition getCustomerOrders : M unit :=
  u <- gets user ;;
  match u with
  | None => ret tt
  | Some user =>
      try_finally
        (try_catch
           (setLoading true ;;
            setError None ;;
            orderData <- orderService.getMyOrders rt (User.id user) ;;
            setOrders (fun _ => orderData))
           (fun _ =>
              setError (Some "Failed to load orders") ;;
              setOrders (fun _ => [])))
        (setLoading false)
  end.

(** [!v || !Array.isArray(v) || v.length === 0] *)
Definition no_items (v : Js.value) : bool :=
  negb (Js.truthy v) || negb (Js.isArray v)
  || match v with Js.Array [] => true | _ => false end.

(** [!v?.trim()]: nullish short-circuits; a string is trimmed; on any
    other value [trim] is not a function and the call throws. *)
Definition blank (expr : string) (v : Js.value) : M bool :=
  match v with
  | Js.Undefined | Js.Null => ret true
  | Js.String s => ret (String.eqb (trim rt s) "")
  | _ => throw (Js.Error (expr ++ "?.trim is not a function"))
  end.

Definition push_if (c : bool) (msg : string) (errors : list string)
  : list string :=
  if c then errors ++ [msg] else errors.

Definition order_errors (orderData : Js.object) : M (list string) :=
  let errors := [] in
  let errors :=
    push_if (negb (Js.truthy (Js.get orderData "restaurant_id")))
            "Restaurant is required" errors in
  let errors :=
    push_if (no_items (Js.get orderData "items"))
            "Order items are required" errors in
  noAddress <- blank "orderData.delivery_address"
                 (Js.get orderData "delivery_address") ;;
  let errors := push_if noAddress "Delivery address is required" errors in
  noPhone <- blank "orderData.customer_phone"
               (Js.get orderData "customer_phone") ;;
  let errors := push_if noPhone "Phone number is required" errors in
  ret errors.

(** The object literal handed to [orderService.createOrder]. *)
Definition order_request (user : User.t) (orderData : Js.object)
  : Js.object :=
  [ ("customer_id", Js.String (User.id user));
    ("restaurant_id", Js.get orderData "restaurant_id");
    ("items", Js.get orderData "items");
    ("subtotal", Js.get orderData "subtotal");
    ("delivery_fee", Js.get orderData "delivery_fee");
    ("total", Js.get orderData "total");
    ("delivery_address", Js.get orderData "delivery_address");
    ("customer_phone", Js.get orderData "customer_phone");
    ("notes", Js.get orderData "notes") ].

Definition createOrder (orderData : Js.object) : M uuid :=
  u <- gets user ;;
  match u with
  | None => throw (Js.Error "User not authenticated")
  | Some user =>
      try_finally
        (try_catch
           (setLoading true ;;
            setError None ;;
            errors <- order_errors orderData ;;
            throw_if (negb (Nat.eqb (length errors) 0))
                     (Js.join ", " errors) ;;
            order <- orderService.createOrder rt
                       (order_request user orderData) ;;
            (if String.eqb (User.role user) "customer"
             then getCustomerOrders else ret tt) ;;
            match order with
            | Some o => ret (OrderRow.id o)
            | None => throw (null_dereference "id")
            end)
           (fun error =>
              let errorMessage := message_or error "Failed to create order" in
              setError (Some errorMessage) ;;
              throw (Js.Error errorMessage)))
        (setLoading false)
  end.

(** [{ ...order, status, updated_at: now, ...(driverId && { driver_id }) }] *)
Definition patch_status (status : string) (driverId : option uuid)
    (now : timestamp) (order : CachedOrder.t) : CachedOrder.t :=
  CachedOrder.Build
    (OrderRow.with_status status
       (match orderService.given driverId with
        | Some d => Some d
        | None => OrderRow.driver_id (CachedOrder.row order)
        end) now (CachedOrder.row order))
    (CachedOrder.restaurant order).

Definition updateOrderStatus (orderId : uuid) (status : OrderStatus)
    (driverId : option uuid) : M unit :=
  try_catch
    (setError None ;;
     orderService.updateOrderStatus rt orderId (status_name status)
       driverId ;;
     now <- gets clock ;;
     setOrders (map (fun order =>
       if String.eqb (OrderRow.id (CachedOrder.row order)) orderId
       then patch_status (status_name status) driverId now order
       else order)))
    (fun error =>
       let errorMessage :=
         message_or error "Failed to update order status" in
       setError (Some errorMessage) ;;
       throw (Js.Error errorMessage)).

(** [orderService.getRestaurantOrders.bind(orderService)] builds a
    function and calls nothing; awaiting it yields that function. *)
Definition getRestaurantOrders : M unit :=
  u <- gets user ;;
  match u with
  | None => ret tt
  | Some _ =>
      try_finally
        (try_catch
           (setLoading true ;;
            setError None ;;
            let restaurant := orderService.getRestaurantOrders rt in
            let orderData : list CachedOrder.t := [] in
            setOrders (fun _ => orderData))
           (fun _ =>
              setError (Some "Failed to load orders") ;;
              setOrders (fun _ => [])))
        (setLoading false)
  end.

(** [{ ...order, status: 'delivering', driver_id: user?.id, updated_at }] *)
Definition patch_accepted (user : User.t) (now : timestamp)
    (order : CachedOrder.t) : CachedOrder.t :=
  CachedOrder.Build
    (OrderRow.with_status "delivering" (Some (User.id user)) now
       (CachedOrder.row order))
    (CachedOrder.restaurant order).

Definition acceptDelivery (orderId : uuid) : M unit :=
  u <- gets user ;;
  match u with
  | None => throw (Js.Error "User not authenticated")
  | Some user =>
      try_catch
        (setError None ;;
         orderService.updateOrderStatus rt orderId "delivering"
           (Some (User.id user)) ;;
         now <- gets clock ;;
         setOrders (map (fun order =>
           if String.eqb (OrderRow.id (CachedOrder.row order)) orderId
           then patch_accepted user now order
           else order)))
        (fun error =>
           let errorMessage :=
             message_or error "Failed to accept delivery" in
           setError (Some errorMessage) ;;
           throw (Js.Error errorMessage))
  end.

End WithRuntime.
End OrderContext.

(* ================================================================== *)
(** ** [RestaurantContext.tsx] *)
(* ================================================================== *)

(** [`${field.replace('_', ' ')} is required`] *)
Definition is_required (field : string) : string :=
  Js.replace_first "_"%char " "%char field ++ " is required".

(** [Array.isArray(v) && v.length === 0] *)
Definition empty_array (v : Js.value) : bool :=
  match v with
  | Js.Array [] => true
  | _ => false
  end.

Module RestaurantContext.
Section WithRuntime.
Variable rt : Runtime.

Definition setRestaurants (l : list RestaurantRow.t) : M unit :=
  modify (fun w =>
    let s := restaurantState w in
    with_restaurantState
      (RestaurantState.Build l (RestaurantState.myRestaurant s)
         (RestaurantState.loading s) (RestaurantState.error s)) w).

Definition setMyRestaurant (r : option RestaurantRow.t) : M unit :=
  modify (fun w =>
    let s := restaurantState w in
    with_restaurantState
      (RestaurantState.Build (RestaurantState.restaurants s) r
         (RestaurantState.loading s) (RestaurantState.error s)) w).

Definition setLoading (b : bool) : M unit :=
  modify (fun w =>
    let s := restaurantState w in
    with_restaurantState
      (RestaurantState.Build (RestaurantState.restaurants s)
         (RestaurantState.myRestaurant s) b (RestaurantState.error s)) w).

Definition setError (e : option string) : M unit :=
  modify (fun w =>
    let s := restaurantState w in
    with_restaurantState
      (RestaurantState.Build (RestaurantState.restaurants s)
         (RestaurantState.myRestaurant s) (RestaurantState.loading s) e) w).

Definition fetchRestaurants : M unit :=
  try_finally
    (try_catch
       (setLoading true ;;
        setError None ;;
        restaurantData <- restaurantService.getRestaurants rt ;;
        setRestaurants restaurantData)
       (fun _ =>
          setError (Some "Failed to load restaurants") ;;
          setRestaurants []))
    (setLoading false).

Definition fetchMyRestaurant : M unit :=
  u <- gets user ;;
  match u with
  | None => ret tt
  | Some user =>
      try_catch
        (setError None ;;
         data <- restaurantService.getMyRestaurant rt (User.id user) ;;
         setMyRestaurant data)
        (fun _ =>
           setError (Some "Failed to load restaurant") ;;
           setMyRestaurant None)
  end.

Definition requiredFields : list string :=
  [ "name"; "description"; "town"; "address"; "phone"; "delivery_time";
    "delivery_fee"; "min_order"; "categories" ].

(** [!v || (Array.isArray(v) && v.length === 0)] *)
Definition missing (v : Js.value) : bool :=
  negb (Js.truthy v) || empty_array v.

(** [isNaN(Number(v)) || Number(v) < 0] *)
Definition not_amount (v : Js.value) : bool :=
  Js.isNaN (ToNumber rt v) || Js.lt (ToNumber rt v) Js.zero.

(** The checks between the first log line and the service call. *)
Definition validate (restaurantData : Js.object) : M unit :=
  for_of requiredFields (fun field =>
    throw_if (missing (Js.get restaurantData field)) (is_required field)) ;;
  throw_if (not_amount (Js.get restaurantData "delivery_fee"))
           "Valid delivery fee is required" ;;
  throw_if (not_amount (Js.get restaurantData "min_order"))
           "Valid minimum order amount is required".

(** An [await]ed call: its outcome, once it has settled. *)
Definition settled {A} (m : M A) : M (Outcome A) :=
  fun w => match m w with (r, w') => (Return r, w') end.

(** [fetchMyRestaurant] up to its request, and from the answer on. *)
Definition askMyRestaurant
  : M (option (Outcome (option RestaurantRow.t))) :=
  u <- gets user ;;
  match u with
  | None => ret None
  | Some user =>
      setError None ;;
      r <- settled (restaurantService.getMyRestaurant rt (User.id user)) ;;
      ret (Some r)
  end.

Definition gotMyRestaurant
    (answer : option (Outcome (option RestaurantRow.t))) : M unit :=
  match answer with
  | None => ret tt
  | Some (Return data) => setMyRestaurant data
  | Some (Throw _) =>
      setError (Some "Failed to load restaurant") ;;
      setMyRestaurant None
  end.

(** [fetchRestaurants] up to its request, and from the answer on. *)
Definition askRestaurants : M (Outcome (list RestaurantRow.t)) :=
  setLoading true ;;
  setError None ;;
  settled (restaurantService.getRestaurants rt).

Definition gotRestaurants (answer : Outcome (list RestaurantRow.t))
  : M unit :=
  match answer with
  | Return restaurantData => setRestaurants restaurantData
  | Throw _ =>
      setError (Some "Failed to load restaurants") ;;
      setRestaurants []
  end ;;
  setLoading false.

(** [Promise.all([fetchMyRestaurant(), fetchRestaurants()])]: both
    callees run up to their request, in the order of the array; then
    each goes on when its answer arrives.  Neither throws. *)
Definition refetchBoth : M unit :=
  u <- gets user ;;
  mine <- askMyRestaurant ;;
  all <- askRestaurants ;;
  let second_first :=
    match u with
    | Some user =>
        overtakes rt (SelectRestaurantByOwner (User.id user))
                     SelectActiveRestaurants
    | None => false
    end in
  if second_first
  then gotRestaurants all ;; gotMyRestaurant mine
  else gotMyRestaurant mine ;; gotRestaurants all.

Definition createRestaurant (restaurantData : Js.object) : M uuid :=
  u <- gets user ;;
  match u with
  | None => throw (Js.Error "User not authenticated")
  | Some user =>
      try_finally
        (try_catch
           (setLoading true ;;
            setError None ;;
            validate restaurantData ;;
            restaurantId <- restaurantService.createRestaurant rt
                              restaurantData (User.id user) ;;
            refetchBoth ;;
            ret restaurantId)
           (fun error =>
              let errorMessage :=
                message_or error "Failed to create restaurant" in
              setError (Some errorMessage) ;;
              throw (Js.Error errorMessage)))
        (setLoading false)
  end.

End WithRuntime.
End RestaurantContext.

(* ================================================================== *)
(** ** [MenuContext.tsx] *)
(* ================================================================== *)

Module MenuContext.
Section WithRuntime.
Variable rt : Runtime.

Definition setMenuItems (l : list MenuItemRow.t) : M unit :=
  modify (fun w =>
    let s := menuState w in
    with_menuState
      (MenuState.Build l (MenuState.loading s) (MenuState.error s)) w).

Definition setLoading (b : bool) : M unit :=
  modify (fun w =>
    let s := menuState w in
    with_menuState
      (MenuState.Build (MenuState.menuItems s) b (MenuState.error s)) w).

Definition setError (e : option string) : M unit :=
  modify (fun w =>
    let s := menuState w in
    with_menuState
      (MenuState.Build (MenuState.menuItems s) (MenuState.loading s) e) w).

Definition fetchMenuItems (restaurantId : Js.value) : M unit :=
  try_finally
    (try_catch
       (setLoading true ;;
        setError None ;;
        items <- menuService.getMenuItems rt restaurantId ;;
        setMenuItems items)
       (fun _ =>
          setError (Some "Failed to load menu items") ;;
          setMenuItems []))
    (setLoading false).

Definition requiredFields : list string :=
  [ "restaurant_id"; "name"; "description"; "price"; "category" ].

(** [!v || (typeof v === 'string' && !v.trim())] *)
Definition missing (v : Js.value) : bool :=
  negb (Js.truthy v)
  || match v with
     | Js.String s => String.eqb (trim rt s) ""
     | _ => false
     end.

(** [isNaN(Number(v)) || Number(v) <= 0] *)
Definition not_price (v : Js.value) : bool :=
  Js.isNaN (ToNumber rt v) || Js.le (ToNumber rt v) Js.zero.

(** The checks between the first log line and the service call. *)
Definition validate (itemData : Js.object) : M unit :=
  for_of requiredFields (fun field =>
    throw_if (missing (Js.get itemData field)) (is_required field)) ;;
  throw_if (not_price (Js.get itemData "price"))
           "Valid item price is required".

Definition addMenuItem (itemData : Js.object) : M uuid :=
  try_finally
    (try_catch
       (setLoading true ;;
        setError None ;;
        validate itemData ;;
        item <- menuService.createMenuItem rt itemData ;;
        fetchMenuItems (Js.get itemData "restaurant_id") ;;
        match item with
        | Some i => ret (MenuItemRow.id i)
        | None => throw (null_dereference "id")
        end)
       (fun error =>
          let errorMessage := message_or error "Failed to add menu item" in
          setError (Some errorMessage) ;;
          throw (Js.Error errorMessage)))
    (setLoading false).

End WithRuntime.
End MenuContext.

(* ================================================================== *)
(** ** [create_initial_schema.sql]: inserting into [reviews] *)
(* ================================================================== *)

(** SQL values are typed by their column; [None] is NULL.  Of the tables
    [users], [restaurants] and [orders] only the columns that the
    constraints and the policy of [reviews] read are kept. *)
Module Schema.

(** Three-valued logic: [None] is unknown. *)
Definition sql_bool : Type := option bool.

Definition sql_eq (a b : option string) : sql_bool :=
  match a, b with
  | Some x, Some y => Some (String.eqb x y)
  | _, _ => None
  end.

Definition sql_and (a b : sql_bool) : sql_bool :=
  match a, b with
  | Some false, _ | _, Some false => Some false
  | Some true, Some true => Some true
  | _, _ => None
  end.

Definition sql_geZ (a : option Z) (b : Z) : sql_bool :=
  match a with
  | Some x => Some (Z.leb b x)
  | None => None
  end.

Definition sql_leZ (a : option Z) (b : Z) : sql_bool :=
  match a with
  | Some x => Some (Z.leb x b)
  | None => None
  end.

(** A row qualifies, a WITH CHECK passes: the condition is true. *)
Definition is_true (b : sql_bool) : bool :=
  match b with
  | Some true => true
  | _ => false
  end.

(** A CHECK constraint passes: the condition is not false. *)
Definition not_false (b : sql_bool) : bool :=
  match b with
  | Some false => false
  | _ => true
  end.

Record orders_row : Type := mkOrder {
  o_id : uuid;
  o_customer_id : option uuid;
  o_restaurant_id : option uuid;
  o_driver_id : option uuid;
  o_status : string }.

(** The columns of [reviews] a client may send; [id] and [created_at]
    take their defaults. *)
Record reviews_row : Type := mkReview {
  restaurant_id : option uuid;
  customer_id : option uuid;
  order_id : option uuid;
  rating : option Z;
  comment : option string }.

Record database : Type := mkDatabase {
  users : list uuid;          (* users.id *)
  restaurants : list uuid;    (* restaurants.id *)
  orders : list orders_row }.

(** [auth.uid()]: the identifier of the authenticated requester; [None]
    for a request of the [anon] role, to which no policy is granted. *)
Definition actor : Type := option uuid.

(** [CREATE POLICY "Customers can create reviews for own orders"
      ON reviews FOR INSERT TO authenticated WITH CHECK (...)] *)
Definition own_delivered_order (uid : actor) (new : reviews_row)
    (o : orders_row) : sql_bool :=
  sql_and (sql_and (sql_eq (Some (o_id o)) (order_id new))
                   (sql_eq (o_customer_id o) uid))
          (sql_eq (Some (o_status o)) (Some "delivered")).

Definition with_check (uid : actor) (d : database) (new : reviews_row)
  : sql_bool :=
  sql_and (sql_eq uid (customer_id new))
          (Some (existsb (fun o => is_true (own_delivered_order uid new o))
                         (orders d))).

Definition policy_allows (uid : actor) (d : database) (new : reviews_row)
  : bool :=
  match uid with
  | None => false
  | Some _ => is_true (with_check uid d new)
  end.

(** [rating integer NOT NULL CHECK (rating >= 1 AND rating <= 5)] *)
Definition rating_not_null (new : reviews_row) : bool :=
  match rating new with Some _ => true | None => false end.

Definition rating_check (new : reviews_row) : bool :=
  not_false (sql_and (sql_geZ (rating new) 1) (sql_leZ (rating new) 5)).

(** [REFERENCES t(id)]: a NULL reference is not checked. *)
Definition references (key : option uuid) (ids : list uuid) : bool :=
  match key with
  | None => true
  | Some k => existsb (String.eqb k) ids
  end.

Definition foreign_keys (d : database) (new : reviews_row) : bool :=
  references (restaurant_id new) (restaurants d)
  && references (customer_id new) (users d)
  && references (order_id new) (map o_id (orders d)).

Inductive verdict : Type :=
| Inserted
| PolicyViolation
| NotNullViolation
| CheckViolation
| ForeignKeyViolation.

(** [INSERT INTO reviews]: the policy is checked first, then the column
    constraints, then the references. *)
Definition insert_review (uid : actor) (d : database) (new : reviews_row)
  : verdict :=
  if negb (policy_allows uid d new) then PolicyViolation
  else if negb (rating_not_null new) then NotNullViolation
  else if negb (rating_check new) then CheckViolation
  else if negb (foreign_keys d new) then ForeignKeyViolation
  else Inserted.

Definition permitted (uid : actor) (d : database) (new : reviews_row)
  : bool :=
  match insert_review uid d new with
  | Inserted => true
  | _ => false
  end.

(** The foreign keys of [orders] hold in the store. *)
Definition consistent (d : database) : Prop :=
  forall o, In o (orders d) ->
    references (o_customer_id o) (users d) = true
    /\ references (o_restaurant_id o) (restaurants d) = true
    /\ references (o_driver_id o) (users d) = true.

End Schema.

(* ================================================================== *)
(** ** The other functions of the order and menu containers *)
(* ================================================================== *)

Module OrderProvider.
Section WithRuntime.
Variable rt : Runtime.

Definition clearError : M unit := OrderContext.setError None.

(** The body logs two lines and returns the empty array; nothing in the
    [try] block can throw. *)
Definition getAvailableDeliveries : M (list CachedOrder.t) :=
  try_catch
    (ret [])
    (fun _ =>
       OrderContext.setError (Some "Failed to load available deliveries") ;;
       ret []).

Definition getAgentOrders : M unit :=
  (u <- gets user ;;
   match u with
   | None => ret tt
   | Some user =>
       try_finally
         (try_catch
            (OrderContext.setLoading true ;;
             OrderContext.setError None ;;
             orderData <- orderService.getDriverOrders rt (User.id user) ;;
             OrderContext.setOrders (fun _ => orderData))
            (fun _ =>
               OrderContext.setError (Some "Failed to load orders") ;;
               OrderContext.setOrders (fun _ => [])))
         (OrderContext.setLoading false)
   end).

End WithRuntime.
End OrderProvider.

Module MenuProvider.
Section WithRuntime.
Variable rt : Runtime.

Definition clearError : M unit := MenuContext.setError None.

Definition getMenuByRestaurant (restaurantId : Js.value)
  : M (list MenuItemRow.t) :=
  try_catch
    (items <- menuService.getMenuItems rt restaurantId ;;
     ret items)
    (fun _ => ret []).

End WithRuntime.
End MenuProvider.

Module RestaurantProvider.

Definition clearError : M unit := RestaurantContext.setError None.

End RestaurantProvider.

(* ================================================================== *)
(** ** [create_initial_schema.sql]: the policies and checks of [orders] *)
(* ================================================================== *)

(** Of [restaurants] the two columns the policies of [orders] read are
    kept; SQL values and three-valued conditions are those of
    [Schema]. *)
Module OrderPolicy.
Import Schema.

Definition sql_or (a b : sql_bool) : sql_bool :=
  match a, b with
  | Some true, _ | _, Some true => Some true
  | Some false, Some false => Some false
  | _, _ => None
  end.

Record restaurants_row : Type := mkRestaurant {
  r_id : uuid;
  r_user_id : option uuid }.

Record database : Type := mkDatabase {
  users : list uuid;          (* users.id *)
  restaurants : list restaurants_row;
  orders : list orders_row }.

(** [EXISTS (SELECT 1 FROM restaurants
             WHERE restaurants.id = orders.restaurant_id
             AND restaurants.user_id = auth.uid())] *)
Definition owns_restaurant (uid : actor) (d : database) (o : orders_row)
  : sql_bool :=
  Some (existsb
          (fun r => is_true (sql_and (sql_eq (Some (r_id r))
                                             (o_restaurant_id o))
                                     (sql_eq (r_user_id r) uid)))
          (restaurants d)).

(** [CREATE POLICY "Users can view own orders" ... USING (...)] *)
Definition select_using (uid : actor) (d : database) (o : orders_row)
  : sql_bool :=
  sql_or (sql_or (sql_eq uid (o_customer_id o))
                 (sql_eq uid (o_driver_id o)))
         (owns_restaurant uid d o).

(** [CREATE POLICY "Customers can create orders" ... WITH CHECK (...)] *)
Definition insert_check (uid : actor) (o : orders_row) : sql_bool :=
  sql_eq uid (o_customer_id o).

(** [CREATE POLICY "Restaurant owners and drivers can update orders"]:
    USING and WITH CHECK are the same condition, on the old and on the
    new row. *)
Definition update_condition (uid : actor) (d : database) (o : orders_row)
  : sql_bool :=
  sql_or (sql_eq uid (o_driver_id o)) (owns_restaurant uid d o).

(** The policies are granted TO authenticated: for a request without
    user none applies and no row qualifies. *)
Definition granted (uid : actor) (condition : sql_bool) : bool :=
  match uid with
  | None => false
  | Some _ => is_true condition
  end.

Definition visible (uid : actor) (d : database) (o : orders_row) : bool :=
  granted uid (select_using uid d o).

(** [status text NOT NULL DEFAULT 'pending' CHECK (status IN (...))] *)
Definition statuses : list string :=
  [ "pending"; "confirmed"; "preparing"; "ready"; "delivering";
    "delivered"; "cancelled" ].

Definition status_check (status : string) : bool :=
  existsb (String.eqb status) statuses.

Inductive update_verdict : Type :=
| Skipped          (* the row does not qualify: it is left out silently *)
| PolicyViolation  (* the new row fails WITH CHECK *)
| CheckViolation   (* the new row fails the CHECK on status *)
| ForeignKeyViolation  (* a reference of the new row names no row *)
| Updated.

Definition same (a b : option uuid) : bool :=
  match a, b with
  | Some x, Some y => String.eqb x y
  | None, None => true
  | _, _ => false
  end.

(** [customer_id uuid REFERENCES users(id)],
    [restaurant_id uuid REFERENCES restaurants(id)],
    [driver_id uuid REFERENCES users(id)]: a reference the update
    changes must name a row, or be null. *)
Definition references_kept (d : database) (old new : orders_row) : bool :=
  (same (o_customer_id old) (o_customer_id new)
   || references (o_customer_id new) (users d))
  && (same (o_restaurant_id old) (o_restaurant_id new)
      || references (o_restaurant_id new) (map r_id (restaurants d)))
  && (same (o_driver_id old) (o_driver_id new)
      || references (o_driver_id new) (users d)).

(** [UPDATE orders SET ... WHERE id = ...] on one row: the old row must
    be visible and satisfy USING, the new row WITH CHECK, then the
    table's constraint and, at the end of the statement, its
    references. *)
Definition update_row (uid : actor) (d : database) (old new : orders_row)
  : update_verdict :=
  if negb (visible uid d old && granted uid (update_condition uid d old))
  then Skipped
  else if negb (granted uid (update_condition uid d new))
  then PolicyViolation
  else if negb (status_check (o_status new)) then CheckViolation
  else if negb (references_kept d old new) then ForeignKeyViolation
  else Updated.

(** The new row of an update of [status] and, when given, [driver_id]:
    what [orderService.updateOrderStatus] asks for. *)
Definition set_status (status : string) (driver : option uuid)
    (o : orders_row) : orders_row :=
  mkOrder (o_id o) (o_customer_id o) (o_restaurant_id o)
          (match driver with Some x => Some x | None => o_driver_id o end)
          status.

End OrderPolicy.

(* ================================================================== *)
(** ** The other queries of [supabase-api.ts], and the session *)
(* ================================================================== *)

(** The body of [from('users').insert({...})]. *)
Module UserInsert.
Record t : Type := Build {
  email : string;
  password_hash : string;
  name : string;
  phone : option string;
  town : option string;
  role : string }.
End UserInsert.

(** The body of [from('reviews').insert({...})]. *)
Module ReviewInsert.
Record t : Type := Build {
  restaurant_id : Js.value;
  customer_id : Js.value;
  order_id : Js.value;
  rating : Js.number;
  comment : Js.value }.
End ReviewInsert.

(** [Partial<MenuItem>]: each property may be absent. *)
Module MenuItemUpdate.
Record t : Type := Build {
  id : option uuid;
  restaurant_id : option uuid;
  name : option string;
  description : option string;
  category : option string;
  price : option Js.number;
  image : option string;
  available : option bool;
  created_at : option timestamp;
  updated_at : option timestamp }.

(** [{ available: b }] *)
Definition only_available (b : bool) : t :=
  Build None None None None None None None (Some b) None None.
End MenuItemUpdate.

(** The queries of the functions of this part, one constructor per query
    builder chain; they are logged apart from the requests above. *)
Inductive Query : Type :=
| InsertUser (body : UserInsert.t)
| SelectUserById (userId : uuid)
| InsertReview (body : ReviewInsert.t)
| UpdateMenuItem (itemId : uuid) (updates : MenuItemUpdate.t)
| DeleteMenuItem (itemId : uuid)
| SelectRatingsBy (restaurantId : Js.value).

(** What these functions take from their environment besides [Runtime]. *)
Record Extras : Type := mkExtras {
  (** [parseInt(v)] *)
  parseInt : Js.value -> Js.number;
  (** [bcrypt.hash(password, 10)]; the salt is drawn from the
      environment, here the state of the store *)
  bcrypt_hash : DB.t -> string -> string;
  (** the store refuses a query: the error it answers with *)
  refuses : DB.t -> Query -> option Js.error;
  (** the store keeps a row from a query it answers, as [hides] does *)
  conceals : DB.t -> Query -> uuid -> bool }.

(** The world, the log of the queries above, the item
    ['smartbite_user'] of [localStorage] (the user it was last set to)
    and the loading flag of [AuthProvider]. *)
Record App : Type := mkApp {
  world : World;
  queries : list Query;
  stored_user : option User.t;
  auth_loading : bool }.

Definition with_world (w : World) (a : App) : App :=
  mkApp w (queries a) (stored_user a) (auth_loading a).
Definition log_query (q : Query) (a : App) : App :=
  mkApp (world a) (queries a ++ [q]) (stored_user a) (auth_loading a).
Definition with_stored_user (u : option User.t) (a : App) : App :=
  mkApp (world a) (queries a) u (auth_loading a).
Definition with_auth_loading (b : bool) (a : App) : App :=
  mkApp (world a) (queries a) (stored_user a) b.

Definition with_user (u : option User.t) (w : World) : World :=
  mkWorld (remote w) (requests w) u (clock w)
          (orderState w) (restaurantState w) (menuState w).

Definition db_with_users (x : list UserRow.t) (d : DB.t) : DB.t :=
  DB.Build x (DB.restaurants d) (DB.menu_items d) (DB.orders d)
           (DB.reviews d) (DB.now d).
Definition db_with_reviews (x : list ReviewRow.t) (d : DB.t) : DB.t :=
  DB.Build (DB.users d) (DB.restaurants d) (DB.menu_items d) (DB.orders d)
           x (DB.now d).

(** Computations over [App] that return or throw. *)
Definition P (A : Type) : Type := App -> Outcome A * App.

Module Page.

Definition ret {A} (x : A) : P A := fun a => (Return x, a).

Definition throw {A} (e : Js.error) : P A := fun a => (Throw e, a).

Definition bind {A B} (m : P A) (k : A -> P B) : P B :=
  fun a =>
    match m a with
    | (Return x, a') => k x a'
    | (Throw e, a') => (Throw e, a')
    end.

(** A computation over the world, run inside the application. *)
Definition lift {A} (m : M A) : P A :=
  fun a =>
    match m (world a) with
    | (r, w') => (r, with_world w' a)
    end.

Definition gets {A} (f : App -> A) : P A := fun a => (Return (f a), a).

Definition modify (f : App -> App) : P unit := fun a => (Return tt, f a).

Definition try_catch {A} (body : P A) (handler : Js.error -> P A) : P A :=
  fun a =>
    match body a with
    | (Return x, a') => (Return x, a')
    | (Throw e, a') => handler e a'
    end.

Definition try_finally {A} (body : P A) (cleanup : P unit) : P A :=
  fun a =>
    match body a with
    | (r, a') =>
        match cleanup a' with
        | (Return _, a'') => (r, a'')
        | (Throw e, a'') => (Throw e, a'')
        end
    end.

Definition throw_error {A} (r : Response A) : P unit :=
  match error r with
  | Some e => throw e
  | None => ret tt
  end.

End Page.

Declare Scope page_scope.
Delimit Scope page_scope with page.
Notation "x <- c ;; k" := (Page.bind c (fun x => k))
  (at level 61, c at next level, right associativity) : page_scope.
Notation "c ;; k" := (Page.bind c (fun _ => k))
  (at level 61, right associativity) : page_scope.

(** What the store does with a query it answers. *)
Module Store2.
Section WithRuntime.
Variable rt : Runtime.
Variable ex : Extras.

Definition reached {A} (q : Query) (id : A -> uuid) (d : DB.t)
    (l : list A) : list A :=
  filter (fun x => negb (conceals ex d q (id x))) l.

(** [role text NOT NULL CHECK (role IN (...))] *)
Definition roles : list string :=
  [ "customer"; "owner"; "agent"; "admin"; "manager"; "driver" ].

Definition email_taken (email : string) (d : DB.t) : bool :=
  existsb (fun u => String.eqb (UserRow.email u) email) (DB.users d).

(** [.insert(body).select().single()] on [users]: [email] is UNIQUE and
    [role] is checked. *)
Definition insert_user (b : UserInsert.t) (d : DB.t)
  : Response UserRow.t * DB.t :=
  if email_taken (UserInsert.email b) d
  then (mkResponse None
          (Some (Js.Error "duplicate key value: users_email_key")), d)
  else if negb (existsb (String.eqb (UserInsert.role b)) roles)
  then (mkResponse None
          (Some (Js.Error "check constraint violated: users_role_check")),
        d)
  else
    let r := UserRow.Build (gen_random_uuid rt d) (UserInsert.email b)
               (UserInsert.password_hash b) (UserInsert.name b)
               (UserInsert.phone b) (UserInsert.town b) (UserInsert.role b)
               (DB.now d) (DB.now d) in
    (mkResponse (Some r) None,
     Store.written rt (db_with_users (DB.users d ++ [r]) d)).

Definition select_user_by_id (userId : uuid) (d : DB.t)
  : Response UserRow.t * DB.t :=
  (Store.maybeSingle
     (reached (SelectUserById userId) UserRow.id d
        (filter (fun u => String.eqb (UserRow.id u) userId)
                (DB.users d))), d).

(** The integer a JSON number stands for, when it is one. *)
Definition integer_of (n : Js.number) : option Z :=
  match n with
  | Js.Fin q => if Qeq_bool (inject_Z (Qfloor q)) q then Some (Qfloor q)
                else None
  | _ => None
  end.

(** A reference sent as JSON: a string, or null (an absent property is
    not sent and the column takes its default, null); nothing else is
    read as a [uuid]. *)
Definition reference (v : Js.value) : option (option uuid) :=
  match v with
  | Js.String s => Some (Some s)
  | Js.Null | Js.Undefined => Some None
  | _ => None
  end.

Definition failed {A} (message : string) (d : DB.t)
  : Response A * DB.t :=
  (mkResponse None (Some (Js.Error message)), d).

(** [.insert(body).select().single()] on [reviews]: the three
    references are nullable and must name a row when they are not null,
    [rating] is an integer, NOT NULL (NaN and the infinities are sent
    as null) and between 1 and 5; [comment] is kept as it was sent. *)
Definition insert_review (b : ReviewInsert.t) (d : DB.t)
  : Response ReviewRow.t * DB.t :=
  match reference (ReviewInsert.restaurant_id b),
        reference (ReviewInsert.customer_id b),
        reference (ReviewInsert.order_id b) with
  | Some r, Some c, Some o =>
      match integer_of (ReviewInsert.rating b) with
      | None => failed "null or invalid value in column rating" d
      | Some z =>
          if negb ((1 <=? z)%Z && (z <=? 5)%Z)
          then failed "check constraint violated: reviews_rating_check" d
          else if negb (Schema.references r
                          (map RestaurantRow.id (DB.restaurants d))
                        && Schema.references c
                             (map UserRow.id (DB.users d))
                        && Schema.references o
                             (map OrderRow.id (DB.orders d)))
          then failed "foreign key constraint violated" d
          else
            let row := ReviewRow.Build (gen_random_uuid rt d) r c o z
                         (ReviewInsert.comment b) (DB.now d) in
            (mkResponse (Some row) None,
             Store.written rt (db_with_reviews (DB.reviews d ++ [row]) d))
      end
  | _, _, _ => failed "invalid input syntax for type uuid" d
  end.

(** [.select('rating').eq('restaurant_id', v)] with a [v] that is no
    string: the filter is not a [uuid] and the store answers with an
    error. *)
Definition select_ratings_by (v : Js.value) (d : DB.t)
  : Response (list Js.number) * DB.t :=
  failed "invalid input syntax for type uuid" d.

Definition set_string (x : option string) (old : Js.value) : Js.value :=
  match x with
  | Some s => Js.String s
  | None => old
  end.

Definition set_to {A} (x : option A) (old : A) : A :=
  match x with
  | Some v => v
  | None => old
  end.

(** [.update(updates).eq('id', itemId)] on [menu_items]; the trigger
    [update_menu_items_updated_at] stamps every updated row, whatever
    [updated_at] the updates carry. *)
Definition apply_item_update (itemId : uuid) (u : MenuItemUpdate.t)
    (now : timestamp) (m : MenuItemRow.t) : MenuItemRow.t :=
  if String.eqb (MenuItemRow.id m) itemId
  then MenuItemRow.Build
         (set_to (MenuItemUpdate.id u) (MenuItemRow.id m))
         (set_string (MenuItemUpdate.restaurant_id u)
                     (MenuItemRow.restaurant_id m))
         (set_string (MenuItemUpdate.name u) (MenuItemRow.name m))
         (set_string (MenuItemUpdate.description u)
                     (MenuItemRow.description m))
         (set_string (MenuItemUpdate.category u) (MenuItemRow.category m))
         (set_to (MenuItemUpdate.price u) (MenuItemRow.price m))
         (set_string (MenuItemUpdate.image u) (MenuItemRow.image m))
         (set_to (MenuItemUpdate.available u) (MenuItemRow.available m))
         (set_to (MenuItemUpdate.created_at u) (MenuItemRow.created_at m))
         now
  else m.

Definition update_menu_item (itemId : uuid) (u : MenuItemUpdate.t)
    (d : DB.t) : Response unit * DB.t :=
  let q := UpdateMenuItem itemId u in
  (mkResponse None None,
   Store.written rt
     (DB.with_menu_items
        (map (fun m => if conceals ex d q (MenuItemRow.id m) then m
                       else apply_item_update itemId u (DB.now d) m)
             (DB.menu_items d)) d)).

(** [.delete().eq('id', itemId)]: the rows with the id that the query
    reaches are removed. *)
Definition delete_menu_item (itemId : uuid) (d : DB.t)
  : Response unit * DB.t :=
  let q := DeleteMenuItem itemId in
  (mkResponse None None,
   Store.written rt
     (DB.with_menu_items
        (filter (fun m => negb (String.eqb (MenuItemRow.id m) itemId)
                          || conceals ex d q (MenuItemRow.id m))
                (DB.menu_items d)) d)).

(** One round trip for a query: it is logged; a refused query answers
    [{ data: null, error }] and leaves the store alone; any other is
    carried out on the rows it reaches. *)
Definition ask {A} (q : Query) (exec : DB.t -> Response A * DB.t)
  : P (Response A) :=
  fun a =>
    let a1 := log_query q a in
    match refuses ex (remote (world a)) q with
    | Some e => (Return (mkResponse None (Some e)), a1)
    | None =>
        match exec (remote (world a)) with
        | (r, d') => (Return r, with_world (with_remote d' (world a1)) a1)
        end
    end.

End WithRuntime.
End Store2.

(** [userData] of [authService.register] *)
Module RegisterData.
Record t : Type := Build {
  email : string;
  password : string;
  name : string;
  phone : option string;
  town : option string;
  role : string }.
End RegisterData.

(** [authService.register] and [authService.verify] *)
Module Accounts.
Section WithRuntime.
Variable rt : Runtime.
Variable ex : Extras.
Local Open Scope page_scope.

Definition register (userData : RegisterData.t) : P User.t :=
  d <- Page.gets (fun a => remote (world a)) ;;
  let passwordHash := bcrypt_hash ex d (RegisterData.password userData) in
  let body := UserInsert.Build (RegisterData.email userData) passwordHash
                (RegisterData.name userData)
                (or_undefined (RegisterData.phone userData))
                (or_undefined (RegisterData.town userData))
                (RegisterData.role userData) in
  r <- Store2.ask ex (InsertUser body) (Store2.insert_user rt body) ;;
  Page.throw_error r ;;
  match data r with
  | Some user =>
      Page.ret (User.Build (UserRow.id user) (UserRow.name user)
                  (UserRow.email user) (UserRow.role user)
                  (or_undefined (UserRow.phone user))
                  (or_undefined (UserRow.town user)))
  | None => Page.throw (null_dereference "id")
  end.

(** The columns selected are those of [User]; they are returned as the
    store holds them. *)
Definition verify (userId : uuid) : P User.t :=
  r <- Store2.ask ex (SelectUserById userId)
         (Store2.select_user_by_id ex userId) ;;
  Page.throw_error r ;;
  match data r with
  | None => Page.throw (Js.Error "User not found")
  | Some user =>
      Page.ret (User.Build (UserRow.id user) (UserRow.name user)
                  (UserRow.email user) (UserRow.role user)
                  (UserRow.phone user) (UserRow.town user))
  end.

End WithRuntime.
End Accounts.

(** [reviewService.createReview] *)
Module Reviews.
Section WithRuntime.
Variable rt : Runtime.
Variable ex : Extras.
Local Open Scope page_scope.

(** The object handed to [.insert]. *)
Definition review_body (reviewData : Js.object) : ReviewInsert.t :=
  ReviewInsert.Build
    (Js.get reviewData "restaurant_id")
    (Js.get reviewData "customer_id")
    (Js.get reviewData "order_id")
    (parseInt ex (Js.get reviewData "rating"))
    (Js.or_else (Js.get reviewData "comment") Js.Null).

(** [this.updateRestaurantRating(v)] with the [any]-typed
    [reviewData.restaurant_id]: for a string it is the function above;
    for another value (past the insert: null or undefined) the read is
    answered with an error, [data] is null and no update follows. *)
Definition updateRestaurantRating (v : Js.value) : P unit :=
  match v with
  | Js.String restaurantId =>
      Page.lift (reviewService.updateRestaurantRating rt restaurantId)
  | _ =>
      _ <- Store2.ask ex (SelectRatingsBy v) (Store2.select_ratings_by v) ;;
      Page.ret tt
  end.

Definition createReview (reviewData : Js.object)
  : P (option ReviewRow.t) :=
  r <- Store2.ask ex (InsertReview (review_body reviewData))
         (Store2.insert_review rt (review_body reviewData)) ;;
  Page.throw_error r ;;
  updateRestaurantRating (Js.get reviewData "restaurant_id") ;;
  Page.ret (data r).

End WithRuntime.
End Reviews.

(** [menuService.updateMenuItem] and [menuService.deleteMenuItem] *)
Module MenuItems.
Section WithRuntime.
Variable rt : Runtime.
Variable ex : Extras.
Local Open Scope page_scope.

Definition updateMenuItem (itemId : uuid) (updates : MenuItemUpdate.t)
  : P unit :=
  r <- Store2.ask ex (UpdateMenuItem itemId updates)
         (Store2.update_menu_item rt ex itemId updates) ;;
  Page.throw_error r.

Definition deleteMenuItem (itemId : uuid) : P unit :=
  r <- Store2.ask ex (DeleteMenuItem itemId)
         (Store2.delete_menu_item rt ex itemId) ;;
  Page.throw_error r.

End WithRuntime.
End MenuItems.

(** [contexts/AuthContext.tsx] *)
Module AuthProvider.
Section WithRuntime.
Variable rt : Runtime.
Variable ex : Extras.
Local Open Scope page_scope.

Definition setUser (u : option User.t) : P unit :=
  Page.modify (fun a => with_world (with_user u (world a)) a).

Definition setLoading (b : bool) : P unit :=
  Page.modify (with_auth_loading b).

(** [localStorage.setItem('smartbite_user', JSON.stringify(u))] *)
Definition setItem (u : User.t) : P unit :=
  Page.modify (with_stored_user (Some u)).

(** [localStorage.removeItem('smartbite_user')] *)
Definition removeItem : P unit :=
  Page.modify (with_stored_user None).

Definition login (email password : string) : P bool :=
  Page.try_catch
    (userData <- Page.lift (authService.login rt email password) ;;
     setItem userData ;;
     setUser (Some userData) ;;
     Page.ret true)
    (fun _ => Page.ret false).

Definition register (userData : RegisterData.t) : P bool :=
  Page.try_catch
    (newUser <- Accounts.register rt ex userData ;;
     setItem newUser ;;
     setUser (Some newUser) ;;
     Page.ret true)
    (fun _ => Page.ret false).

Definition logout : P unit :=
  removeItem ;;
  setUser None.

(** The effect run once on mount:
    [verify(id).then(setUser).catch(removeItem).finally(setLoading(false))]
    when a user is stored, [setLoading(false)] otherwise. *)
Definition restore : P unit :=
  storedUser <- Page.gets stored_user ;;
  match storedUser with
  | Some userData =>
      Page.try_finally
        (Page.try_catch
           (u <- Accounts.verify ex (User.id userData) ;;
            setUser (Some u))
           (fun _ => removeItem))
        (setLoading false)
  | None => setLoading false
  end.

End WithRuntime.
End AuthProvider.

(** [MenuProvider]: updating, deleting and toggling items *)
Module MenuEditor.
Section WithRuntime.
Variable rt : Runtime.
Variable ex : Extras.
Local Open Scope page_scope.

(** [menuItems.find(item => item.id === itemId)] *)
Definition find_item (itemId : uuid) : P (option MenuItemRow.t) :=
  Page.gets (fun a =>
    find (fun item => String.eqb (MenuItemRow.id item) itemId)
         (MenuState.menuItems (menuState (world a)))).

Definition updateMenuItem (itemId : uuid) (updates : MenuItemUpdate.t)
  : P unit :=
  Page.try_catch
    (Page.lift (MenuContext.setError None) ;;
     MenuItems.updateMenuItem rt ex itemId updates ;;
     item <- find_item itemId ;;
     match item with
     | Some i =>
         Page.lift (MenuContext.fetchMenuItems rt
                      (MenuItemRow.restaurant_id i))
     | None => Page.ret tt
     end)
    (fun error =>
       let errorMessage := message_or error "Failed to update menu item" in
       Page.lift (MenuContext.setError (Some errorMessage)) ;;
       Page.throw (Js.Error errorMessage)).

Definition deleteMenuItem (itemId : uuid) : P unit :=
  Page.try_catch
    (Page.lift (MenuContext.setError None) ;;
     item <- find_item itemId ;;
     MenuItems.deleteMenuItem rt ex itemId ;;
     match item with
     | Some i =>
         Page.lift (MenuContext.fetchMenuItems rt
                      (MenuItemRow.restaurant_id i))
     | None => Page.ret tt
     end)
    (fun error =>
       let errorMessage := message_or error "Failed to delete menu item" in
       Page.lift (MenuContext.setError (Some errorMessage)) ;;
       Page.throw (Js.Error errorMessage)).

Definition toggleAvailability (itemId : uuid) : P unit :=
  Page.try_catch
    (item <- find_item itemId ;;
     match item with
     | Some i =>
         updateMenuItem itemId
           (MenuItemUpdate.only_available (negb (MenuItemRow.available i)))
     | None => Page.ret tt
     end)
    (fun error => Page.throw error).

End WithRuntime.
End MenuEditor.

(* ================================================================== *)
(** ** Vocabulary of the properties *)
(* ================================================================== *)

(** The predicates below say, in the words of the specification, what
    the theorems of the following sections prove of the functions
    above. *)

(** The spec's words: [sum(ratings) / count(ratings)]. *)
Definition sum (ratings : list Z) : Z := fold_right Z.add 0%Z ratings.

Definition mean (ratings : list Z) : Q :=
  inject_Z (sum ratings) / inject_Z (Z.of_nat (length ratings)).

(** What an update of the rating does to a restaurant row: a row with
    the given id that the update reaches takes the new rating and a new
    time stamp; any other row is left as it is. *)
Definition rerated (rt : Runtime) (d : DB.t) (restaurantId : uuid)
    (x : Js.number) (before after : RestaurantRow.t) : Prop :=
  if String.eqb (RestaurantRow.id before) restaurantId
     && negb (hides rt d (UpdateRating restaurantId x)
                (RestaurantRow.id before))
  then exists now, after = RestaurantRow.with_rating x now before
  else after = before.

(** The aggregation sets the mean: whenever the store answers the read
    and the update of [updateRestaurantRating] and the restaurant has
    reviews, every row of the restaurant carries the arithmetic mean of
    their ratings afterwards. *)
Definition rating_is_mean : Prop :=
  forall (rt : Runtime) (w : World) (restaurantId : uuid),
    rejects rt (remote w) (SelectRatings restaurantId) = None ->
    (forall x, rejects rt (remote w) (UpdateRating restaurantId x) = None) ->
    let R := map ReviewRow.rating
               (Store.reviews_of restaurantId (remote w)) in
    let w' := snd (reviewService.updateRestaurantRating rt restaurantId w) in
    R <> [] ->
    forall r, In r (DB.restaurants (remote w')) ->
      RestaurantRow.id r = restaurantId ->
      exists q, RestaurantRow.rating r = Js.Fin q /\ q == mean R.

(** What an update does to a stored order: an order with the given id
    that the update reaches takes the new status, the new driver if one
    is given, and a new time stamp; any other order is left as it is. *)
Definition updated (rt : Runtime) (d : DB.t) (orderId : uuid)
    (u : OrderUpdate.t) (before after : OrderRow.t) : Prop :=
  if String.eqb (OrderRow.id before) orderId
     && negb (hides rt d (UpdateOrder orderId u) (OrderRow.id before))
  then exists now,
         after = OrderRow.with_status (OrderUpdate.status u)
                   (match OrderUpdate.driver_id u with
                    | Some x => Some x
                    | None => OrderRow.driver_id before
                    end) now before
  else after = before.

(** The store after an update of an order that it answers. *)
Definition orders_updated (rt : Runtime) (orderId : uuid)
    (u : OrderUpdate.t) (d : DB.t) : DB.t :=
  Store.written rt
    (DB.with_orders
       (map (Store.where_reached rt (UpdateOrder orderId u) OrderRow.id d
               (Store.apply_order_update orderId u (DB.now d)))
            (DB.orders d)) d).

(** Every transition is applied: whenever the store does not refuse the
    update of [updateOrderStatus], the order has the target status
    afterwards. *)
Definition any_transition_applies : Prop :=
  forall (rt : Runtime) (w : World) (o : OrderRow.t) (s t : OrderStatus)
         (driverId : option uuid),
    In o (DB.orders (remote w)) ->
    OrderRow.status o = status_name s ->
    rejects rt (remote w)
      (UpdateOrder (OrderRow.id o)
         (OrderUpdate.Build (status_name t) (orderService.given driverId)))
    = None ->
    let w' := snd (orderService.updateOrderStatus rt (OrderRow.id o)
                     (status_name t) driverId w) in
    exists o',
      In o' (DB.orders (remote w'))
      /\ OrderRow.id o' = OrderRow.id o
      /\ OrderRow.status o' = status_name t.

(** Accepting always assigns: whenever the store does not refuse the
    update of [acceptDelivery], the stored order is delivering, with the
    accepting user as its driver, afterwards. *)
Definition accepting_always_assigns : Prop :=
  forall (rt : Runtime) (w : World) (u : User.t) (o : OrderRow.t),
    user w = Some u ->
    User.id u <> "" ->
    In o (DB.orders (remote w)) ->
    rejects rt (remote w)
      (UpdateOrder (OrderRow.id o)
         (OrderUpdate.Build "delivering" (Some (User.id u)))) = None ->
    let w' := snd (OrderContext.acceptDelivery rt (OrderRow.id o) w) in
    exists o',
      In o' (DB.orders (remote w'))
      /\ OrderRow.id o' = OrderRow.id o
      /\ OrderRow.status o' = "delivering"
      /\ OrderRow.driver_id o' = Some (User.id u).

(** How a cached order relates to itself after a status update: the
    order with the given id has the new status and time stamp, the new
    driver only if a non-empty one was passed, and nothing else
    different; any other order is the same. *)
Definition patched (orderId : uuid) (status : OrderStatus)
    (driverId : option uuid) (now : timestamp)
    (before after : CachedOrder.t) : Prop :=
  let b := CachedOrder.row before in
  let a := CachedOrder.row after in
  if String.eqb (OrderRow.id b) orderId
  then OrderRow.status a = status_name status
       /\ OrderRow.updated_at a = now
       /\ (driverId = None -> OrderRow.driver_id a = OrderRow.driver_id b)
       /\ (driverId = Some "" -> OrderRow.driver_id a = OrderRow.driver_id b)
       /\ (forall d, driverId = Some d -> d <> "" ->
             OrderRow.driver_id a = Some d)
       /\ OrderRow.id a = OrderRow.id b
       /\ OrderRow.customer_id a = OrderRow.customer_id b
       /\ OrderRow.restaurant_id a = OrderRow.restaurant_id b
       /\ OrderRow.items a = OrderRow.items b
       /\ OrderRow.subtotal a = OrderRow.subtotal b
       /\ OrderRow.delivery_fee a = OrderRow.delivery_fee b
       /\ OrderRow.total a = OrderRow.total b
       /\ OrderRow.delivery_address a = OrderRow.delivery_address b
       /\ OrderRow.customer_phone a = OrderRow.customer_phone b
       /\ OrderRow.notes a = OrderRow.notes b
       /\ OrderRow.created_at a = OrderRow.created_at b
       /\ CachedOrder.restaurant after = CachedOrder.restaurant before
  else after = before.

(** The two ways a login fails on the client side: no row has the email,
    or the one row that has it (the column is UNIQUE) carries a hash the
    password does not verify against. *)
Definition unknown_email (d : DB.t) (email : string) : Prop :=
  filter (fun u => String.eqb (UserRow.email u) email) (DB.users d) = [].

Definition wrong_password (rt : Runtime) (d : DB.t)
    (email password : string) : Prop :=
  exists row,
    filter (fun u => String.eqb (UserRow.email u) email) (DB.users d)
    = [row]
    /\ bcrypt_compare rt password (UserRow.password_hash row) = false.

(** An input that passes the presence checks of [createOrder]. *)
Definition valid_order (rt : Runtime) (orderData : Js.object) : Prop :=
  Js.truthy (Js.get orderData "restaurant_id") = true
  /\ OrderContext.no_items (Js.get orderData "items") = false
  /\ (exists a, Js.get orderData "delivery_address" = Js.String a
                /\ trim rt a <> "")
  /\ (exists p, Js.get orderData "customer_phone" = Js.String p
                /\ trim rt p <> "").

(** The row [createOrder] asks the store to add for user [u]: the
    service's insert body, built from the container's request object,
    completed by the server. *)
Definition created_order (rt : Runtime) (u : User.t)
    (orderData : Js.object) (d : DB.t) : OrderRow.t :=
  Store.new_order rt
    (orderService.order_body rt (OrderContext.order_request u orderData)) d.

(** Creation checks the total: whenever [createOrder] returns, the three
    amounts it stored satisfy [total = subtotal + delivery_fee]. *)
Definition total_is_checked : Prop :=
  forall (rt : Runtime) (w w' : World) (orderData : Js.object) (id : uuid)
         (s f t : Q),
    OrderContext.createOrder rt orderData w = (Return id, w') ->
    parseFloat rt (Js.get orderData "subtotal") = Js.Fin s ->
    parseFloat rt (Js.get orderData "delivery_fee") = Js.Fin f ->
    parseFloat rt (Js.get orderData "total") = Js.Fin t ->
    t == s + f.

(** An empty required field of a restaurant: absent, null, the empty
    string or the empty array. *)
Definition empty_field (v : Js.value) : Prop :=
  v = Js.Undefined \/ v = Js.Null \/ v = Js.String "" \/ v = Js.Array [].

(** A missing required field of a menu item: absent, null or the empty
    string. *)
Definition missing_field (v : Js.value) : Prop :=
  v = Js.Undefined \/ v = Js.Null \/ v = Js.String "".

Definition negative (rt : Runtime) (v : Js.value) : Prop :=
  Js.lt (ToNumber rt v) Js.zero = true.

Definition non_positive (rt : Runtime) (v : Js.value) : Prop :=
  Js.le (ToNumber rt v) Js.zero = true.

Definition invalid_restaurant (rt : Runtime) (restaurantData : Js.object)
  : Prop :=
  negative rt (Js.get restaurantData "delivery_fee")
  \/ negative rt (Js.get restaurantData "min_order")
  \/ exists field,
       In field RestaurantContext.requiredFields
       /\ empty_field (Js.get restaurantData field).

Definition invalid_menu_item (rt : Runtime) (itemData : Js.object) : Prop :=
  non_positive rt (Js.get itemData "price")
  \/ exists field,
       In field MenuContext.requiredFields
       /\ missing_field (Js.get itemData field).

(** The messages of the validation errors. *)
Definition restaurant_messages : list string :=
  (map is_required RestaurantContext.requiredFields
   ++ [ "Valid delivery fee is required";
        "Valid minimum order amount is required" ])%list.

Definition menu_messages : list string :=
  (map is_required MenuContext.requiredFields
   ++ [ "Valid item price is required" ])%list.

(** The four conditions on a review insert: the requester is the
    review's customer, the referenced order belongs to that customer,
    the order's status is "delivered", the rating is between 1 and 5. *)
Definition review_conditions (uid : Schema.actor) (d : Schema.database)
    (new : Schema.reviews_row) : Prop :=
  exists c,
    uid = Some c
    /\ Schema.customer_id new = Some c
    /\ (exists o, In o (Schema.orders d)
                  /\ Schema.order_id new = Some (Schema.o_id o)
                  /\ Schema.o_customer_id o = Some c
                  /\ Schema.o_status o = "delivered")
    /\ (exists z, Schema.rating new = Some z /\ (1 <= z <= 5)%Z).

(** The insert is permitted exactly when the four conditions hold. *)
Definition permitted_iff_conditions : Prop :=
  forall uid d new,
    Schema.consistent d ->
    (Schema.permitted uid d new = true <-> review_conditions uid d new).

(* ================================================================== *)
(** ** Sample environment and data *)
(* ================================================================== *)

(** A store that accepts every request and keeps no row from any, as
    for a client whose key is exempt from the policies.  The built-ins
    are stand-ins: [trim] is the identity (right on strings without
    surrounding blanks), the hash of a password [p] is ["bcrypt:" ++ p],
    a new id counts the orders, a later time carries one more mark,
    answers arrive in the order of the requests; the string parsers are
    not reached on the sample inputs, whose amounts are numbers. *)
Definition accepting : Runtime :=
  mkRuntime (fun _ => Js.NaN) (fun _ => Js.NaN) (fun _ => "")
            (fun s => s) (fun p h => String.eqb ("bcrypt:" ++ p) h)
            (fun d => append "row-" (string_of_list_ascii
                        (repeat "i"%char (length (DB.orders d)))))
            String.leb (fun _ _ => true) (fun _ _ => None)
            (fun _ _ _ => false) (fun t => t ++ "+") (fun _ _ => false).

(** The same environment with a store that refuses every request. *)
Definition refusing : Runtime :=
  mkRuntime (StringToNumber accepting) (parseFloatString accepting)
            (ObjectToString accepting) (trim accepting)
            (bcrypt_compare accepting) (gen_random_uuid accepting)
            (timestamp_leb accepting) (text_leb accepting)
            (fun _ _ => Some (Js.Error "permission denied"))
            (hides accepting) (later accepting) (overtakes accepting).

(** The same environment with the store as [lib/supabase.ts] connects
    to it: with the public key and no session.  Every policy of the
    migration is granted TO authenticated, so none holds for this
    client: an INSERT is refused, and every row is kept from a SELECT
    and from an UPDATE, which are answered without an error. *)
Definition is_insert (r : Request) : bool :=
  match r with
  | InsertRestaurant _ | InsertMenuItem _ | InsertOrder _ => true
  | _ => false
  end.

Definition anonymous : Runtime :=
  mkRuntime (StringToNumber accepting) (parseFloatString accepting)
            (ObjectToString accepting) (trim accepting)
            (bcrypt_compare accepting) (gen_random_uuid accepting)
            (timestamp_leb accepting) (text_leb accepting)
            (fun _ r =>
               if is_insert r
               then Some (Js.Error
                      "new row violates row-level security policy")
               else None)
            (fun _ _ _ => true) (later accepting) (overtakes accepting).

Definition alice : User.t :=
  User.Build "u-alice" "Alice" "alice@example.com" "customer" None None.

Definition dan : User.t :=
  User.Build "u-dan" "Dan" "dan@example.com" "driver" None None.

Definition alice_row : UserRow.t :=
  UserRow.Build "u-alice" "alice@example.com" "bcrypt:secret" "Alice"
                None None "customer" "2025-10-05T00:00:00Z"
                "2025-10-05T00:00:00Z".

Definition bistro : RestaurantRow.t :=
  RestaurantRow.Build "r-bistro" "u-owner" (Js.String "Bistro")
    (Js.String "French") (Js.String "") (Js.String "Douala")
    (Js.String "1 Main St") (Js.String "555") Js.zero (Js.String "30 min")
    (Js.Fin 2) (Js.Fin 5) (Js.Array [Js.String "french"]) true
    "2025-10-05T00:00:00Z" "2025-10-05T00:00:00Z".

Definition review (id : uuid) (stars : Z) : ReviewRow.t :=
  ReviewRow.Build id (Some "r-bistro") (Some "u-alice") (Some "o-1") stars
                  Js.Null "2025-10-06T00:00:00Z".

Definition order1 : OrderRow.t :=
  OrderRow.Build "o-1" (Js.String "u-alice") (Js.String "r-bistro") None
    "ready" (Js.Array []) (Js.Fin 13) (Js.Fin 2) (Js.Fin 15)
    (Js.String "2 Side St") (Js.String "555") Js.Null
    "2025-10-05T01:00:00Z" "2025-10-05T01:00:00Z".

Definition order2 : OrderRow.t :=
  OrderRow.Build "o-2" (Js.String "u-alice") (Js.String "r-bistro")
    (Some "u-eve") "delivering" (Js.Array []) (Js.Fin 8) (Js.Fin 2)
    (Js.Fin 10) (Js.String "2 Side St") (Js.String "555") Js.Null
    "2025-10-05T02:00:00Z" "2025-10-05T02:00:00Z".

Definition sample_db (reviews : list ReviewRow.t) : DB.t :=
  DB.Build [alice_row] [bistro] [] [order1; order2] reviews
           "2025-10-07T00:00:00Z".

Definition sample_world (u : option User.t) (reviews : list ReviewRow.t)
  : World :=
  mkWorld (sample_db reviews) [] u "2025-10-07T00:00:01Z"
    (OrderState.Build
       [CachedOrder.Build order1 None; CachedOrder.Build order2 None]
       false None)
    RestaurantState.init MenuState.init.

(** Scenario 1 of the spec: two items (2 at 5.00, 1 at 3.00), delivery
    fee 2.00, with the amounts the caller computed. *)
Definition scenario_items : Js.value :=
  Js.Array
    [ Js.Object [ ("menu_item_id", Js.String "m-1");
                  ("quantity", Js.Number (Js.Fin 2));
                  ("price", Js.Number (Js.Fin 5));
                  ("name", Js.String "Ndole") ];
      Js.Object [ ("menu_item_id", Js.String "m-2");
                  ("quantity", Js.Number (Js.Fin 1));
                  ("price", Js.Number (Js.Fin 3));
                  ("name", Js.String "Plantain") ] ].

Definition scenario_order (total : Q) : Js.object :=
  [ ("restaurant_id", Js.String "r-bistro");
    ("items", scenario_items);
    ("subtotal", Js.Number (Js.Fin 13));
    ("delivery_fee", Js.Number (Js.Fin 2));
    ("total", Js.Number (Js.Fin total));
    ("delivery_address", Js.String "2 Side St");
    ("customer_phone", Js.String "555") ].

(** A restaurant with every field present and a delivery fee of -1. *)
Definition negative_fee_bistro : Js.object :=
  [ ("name", Js.String "Bistro");
    ("description", Js.String "French");
    ("town", Js.String "Douala");
    ("address", Js.String "1 Main St");
    ("phone", Js.String "555");
    ("delivery_time", Js.String "30 min");
    ("delivery_fee", Js.Number (Js.Fin (-1)));
    ("min_order", Js.Number (Js.Fin 5));
    ("categories", Js.Array [Js.String "french"]) ].

(** A menu item with every field present and a price of -3. *)
Definition negative_price_ndole : Js.object :=
  [ ("restaurant_id", Js.String "r-bistro");
    ("name", Js.String "Ndole");
    ("description", Js.String "Stew");
    ("price", Js.Number (Js.Fin (-3)));
    ("category", Js.String "main") ].

Definition one_user : Schema.database :=
  Schema.mkDatabase ["u-alice"] ["r-bistro"]
    [ Schema.mkOrder "o-1" (Some "u-alice") (Some "r-bistro") None
        "delivered" ].

Definition good_review : Schema.reviews_row :=
  Schema.mkReview (Some "r-bistro") (Some "u-alice") (Some "o-1")
                  (Some 4%Z) None.

(** A review of a restaurant that is not in the store. *)
Definition dangling_review : Schema.reviews_row :=
  Schema.mkReview (Some "r-closed") (Some "u-alice") (Some "o-1")
                  (Some 4%Z) None.

(** Further sample data. *)
Definition eve : User.t :=
  User.Build "u-eve" "Eve" "eve@example.com" "driver" None None.

Definition owner : User.t :=
  User.Build "u-owner" "Olga" "olga@example.com" "owner" None None.

(** The answer of [getMyRestaurant]: the owner's only restaurant, null
    for none, an error for several. *)
Definition my_restaurant_answer (rt : Runtime) (u : User.t) (d : DB.t)
  : Response RestaurantRow.t :=
  match rejects rt d (SelectRestaurantByOwner (User.id u)) with
  | Some e => mkResponse None (Some e)
  | None =>
      Store.maybeSingle
        (Store.reached rt (SelectRestaurantByOwner (User.id u))
           RestaurantRow.id d
           (filter (fun r => String.eqb (RestaurantRow.user_id r)
                                        (User.id u))
                   (DB.restaurants d)))
  end.

(** A row with its [updated_at] blanked: the client stamps its copy with
    its own clock, the server stamps the stored row with [now()]. *)
Definition forget_updated_at (o : OrderRow.t) : OrderRow.t :=
  OrderRow.with_status (OrderRow.status o) (OrderRow.driver_id o) "" o.

(** Every cached order is the copy of a stored order, up to
    [updated_at]. *)
Definition cache_mirrors_store (w : World) : Prop :=
  forall c, In c (OrderState.orders (orderState w)) ->
    exists o,
      In o (DB.orders (remote w))
      /\ forget_updated_at (CachedOrder.row c) = forget_updated_at o.

(** The [User] that [login] hands back for a row of [users]. *)
Definition user_of_row (row : UserRow.t) : User.t :=
  User.Build (UserRow.id row) (UserRow.name row) (UserRow.email row)
             (UserRow.role row) (or_undefined (UserRow.phone row))
             (or_undefined (UserRow.town row)).

(** An input that passes the checks of [createRestaurant]. *)
Definition valid_restaurant (rt : Runtime) (restaurantData : Js.object)
  : Prop :=
  (forall field, In field RestaurantContext.requiredFields ->
     RestaurantContext.missing (Js.get restaurantData field) = false)
  /\ RestaurantContext.not_amount rt (Js.get restaurantData "delivery_fee")
     = false
  /\ RestaurantContext.not_amount rt (Js.get restaurantData "min_order")
     = false.

(** The row [createRestaurant] asks the store to add for user [u]. *)
Definition created_restaurant (rt : Runtime) (u : User.t)
    (restaurantData : Js.object) (d : DB.t) : RestaurantRow.t :=
  RestaurantRow.Build (gen_random_uuid rt d) (User.id u)
    (Js.get restaurantData "name")
    (Js.or_else (Js.get restaurantData "description") (Js.String ""))
    (Js.or_else (Js.get restaurantData "image") (Js.String ""))
    (Js.get restaurantData "town")
    (Js.get restaurantData "address")
    (Js.get restaurantData "phone")
    Js.zero
    (Js.get restaurantData "delivery_time")
    (parseFloat rt (Js.get restaurantData "delivery_fee"))
    (parseFloat rt (Js.get restaurantData "min_order"))
    (Js.get restaurantData "categories")
    true (DB.now d) (DB.now d).

(** The restaurants of the store that belong to a user. *)
Definition restaurants_of (userId : uuid) (d : DB.t)
  : list RestaurantRow.t :=
  filter (fun r => String.eqb (RestaurantRow.user_id r) userId)
         (DB.restaurants d).

(** A restaurant with every field present and valid amounts. *)
Definition second_bistro : Js.object :=
  [ ("name", Js.String "Bistro II");
    ("description", Js.String "French");
    ("town", Js.String "Douala");
    ("address", Js.String "3 Main St");
    ("phone", Js.String "556");
    ("delivery_time", Js.String "30 min");
    ("delivery_fee", Js.Number (Js.Fin 2));
    ("min_order", Js.Number (Js.Fin 5));
    ("categories", Js.Array [Js.String "french"]) ].

(** An input that passes the checks of [addMenuItem]. *)
Definition valid_menu_item (rt : Runtime) (itemData : Js.object) : Prop :=
  (forall field, In field MenuContext.requiredFields ->
     MenuContext.missing rt (Js.get itemData field) = false)
  /\ MenuContext.not_price rt (Js.get itemData "price") = false.

(** The row [addMenuItem] asks the store to add. *)
Definition created_menu_item (rt : Runtime) (itemData : Js.object)
    (d : DB.t) : MenuItemRow.t :=
  MenuItemRow.Build (gen_random_uuid rt d)
    (Js.get itemData "restaurant_id")
    (Js.get itemData "name")
    (Js.or_else (Js.get itemData "description") (Js.String ""))
    (Js.get itemData "category")
    (parseFloat rt (Js.get itemData "price"))
    (Js.or_else (Js.get itemData "image") (Js.String ""))
    (menuService.not_false (Js.get itemData "available"))
    (DB.now d) (DB.now d).

(** A menu item with every field present and a price of 4. *)
Definition ndole : Js.object :=
  [ ("restaurant_id", Js.String "r-bistro");
    ("name", Js.String "Ndole");
    ("description", Js.String "Stew");
    ("price", Js.Number (Js.Fin 4));
    ("category", Js.String "main") ].

(** The user owns the restaurant of the order. *)
Definition owner_of (c : uuid) (d : OrderPolicy.database)
    (o : Schema.orders_row) : Prop :=
  exists r,
    In r (OrderPolicy.restaurants d)
    /\ Schema.o_restaurant_id o = Some (OrderPolicy.r_id r)
    /\ OrderPolicy.r_user_id r = Some c.


Definition ready_order : Schema.orders_row :=
  Schema.mkOrder "o-1" (Some "u-alice") (Some "r-bistro") None "ready".

Definition policy_db : OrderPolicy.database :=
  OrderPolicy.mkDatabase
    [ "u-alice"; "u-dan"; "u-eve"; "u-owner" ]
    [ OrderPolicy.mkRestaurant "r-bistro" (Some "u-owner") ]
    [ ready_order ].

(** Stand-ins for the further built-ins: [parseInt] truncates a finite
    number (right on the integers used below), the hash of [p] is
    ["bcrypt:" ++ p] whatever the salt, and every query is accepted. *)
Definition accepting_more : Extras :=
  mkExtras (fun v => match v with
                     | Js.Number (Js.Fin q) => Js.ofZ (Qfloor q)
                     | _ => Js.NaN
                     end)
           (fun _ p => "bcrypt:" ++ p)
           (fun _ _ => None) (fun _ _ _ => false).

(** The same with a store that refuses every query. *)
Definition refusing_more : Extras :=
  mkExtras (parseInt accepting_more) (bcrypt_hash accepting_more)
           (fun _ _ => Some (Js.Error "permission denied"))
           (conceals accepting_more).

(** The same with the store as the client connects to it, without a
    session: an INSERT is refused, and every row is kept from the other
    queries, which are answered without an error. *)
Definition anonymous_more : Extras :=
  mkExtras (parseInt accepting_more) (bcrypt_hash accepting_more)
           (fun _ q =>
              match q with
              | InsertUser _ | InsertReview _ =>
                  Some (Js.Error
                          "new row violates row-level security policy")
              | _ => None
              end)
           (fun _ _ _ => true).

Definition sample_app (u : option User.t) (reviews : list ReviewRow.t)
  : App :=
  mkApp (sample_world u reviews) [] None true.

(** Alice's review of the bistro, with a number of stars. *)
Definition alice_review (stars : Q) : Js.object :=
  [ ("restaurant_id", Js.String "r-bistro");
    ("customer_id", Js.String "u-alice");
    ("order_id", Js.String "o-1");
    ("rating", Js.Number (Js.Fin stars)) ].

Definition bob_data : RegisterData.t :=
  RegisterData.Build "bob@example.com" "hunter2" "Bob" None (Some "Buea")
                     "customer".

(** The [User] that [verify] hands back for a row of [users]. *)
Definition verified_user (row : UserRow.t) : User.t :=
  User.Build (UserRow.id row) (UserRow.name row) (UserRow.email row)
             (UserRow.role row) (UserRow.phone row) (UserRow.town row).

(** The rows of [users] with a given id. *)
Definition users_with_id (userId : uuid) (d : DB.t) : list UserRow.t :=
  filter (fun u => String.eqb (UserRow.id u) userId) (DB.users d).

(** The cached menu item with a given id, if any. *)
Definition cached_item (itemId : uuid) (a : App) : option MenuItemRow.t :=
  find (fun item => String.eqb (MenuItemRow.id item) itemId)
       (MenuState.menuItems (menuState (world a))).

(** A stored menu item of the bistro. *)
Definition stew : MenuItemRow.t :=
  MenuItemRow.Build "m-1" (Js.String "r-bistro") (Js.String "Ndole")
    (Js.String "Stew") (Js.String "main") (Js.Fin 4) (Js.String "") true
    "2025-10-05T03:00:00Z" "2025-10-05T03:00:00Z".

(** The sample application with that item stored and cached. *)
Definition menu_app : App :=
  let w := sample_world (Some owner) [] in
  mkApp (with_menuState (MenuState.Build [stew] false None)
           (with_remote (DB.with_menu_items [stew] (remote w)) w))
        [] None false.

(* ================================================================== *)
(** ** Rounding *)
(* ================================================================== *)

Lemma Qred_inject_Z (z : Z) : Qred (inject_Z z) = inject_Z z.
Proof.
  unfold Qred, inject_Z. cbn [Qnum Qden].
  generalize (Z.ggcd_gcd z 1) (Z.ggcd_correct_divisors z 1).
  destruct (Z.ggcd z 1) as [g [a b]]. cbn [fst snd].
  rewrite Z.gcd_1_r. intros -> [Ha Hb].
  rewrite Z.mul_1_l in Ha, Hb. subst. reflexivity.
Qed.

Lemma nearest_even_1 (n : Z) : Js.nearest_even n 1 = n.
Proof.
  unfold Js.nearest_even. rewrite Z.mod_1_r, Z.div_1_r. reflexivity.
Qed.

Lemma floor_log2_integer (n : positive) :
  Js.floor_log2 n 1 = Z.log2 (Zpos n).
Proof.
  unfold Js.floor_log2. change (Z.log2 1) with 0%Z. rewrite Z.sub_0_r.
  pose proof (Z.log2_nonneg (Zpos n)) as Hk.
  destruct (Z.leb_spec 0 (Z.log2 (Zpos n))) as [_|]; [|lia].
  pose proof (Z.log2_spec (Zpos n) (Pos2Z.is_pos n)) as [Hlo _].
  destruct (Z.ltb_spec (Zpos n) (1 * 2 ^ Z.log2 (Zpos n)));
    [lia | reflexivity].
Qed.

Lemma round_positive_integer (n : positive) :
  (Zpos n < 2 ^ 53)%Z ->
  Js.round_positive n 1 = Js.Fin (inject_Z (Zpos n)).
Proof.
  intros Hn. unfold Js.round_positive, Js.exponent.
  rewrite floor_log2_integer.
  pose proof (Z.log2_nonneg (Zpos n)) as Hk0.
  assert (Hk : (Z.log2 (Zpos n) < 53)%Z)
    by (apply Z.log2_lt_pow2; [reflexivity | exact Hn]).
  rewrite Z.max_l by lia.
  set (k := Z.log2 (Zpos n)) in *.
  destruct (Z.leb_spec 0 (k - 52)) as [He|He].
  - assert (k = 52%Z) by lia. subst k. rewrite H.
    change (52 - 52)%Z with 0%Z. change (2 ^ 0)%Z with 1%Z.
    change (1 * 1)%Z with 1%Z. rewrite nearest_even_1, Z.mul_1_r.
    destruct (Z.leb_spec (2 ^ 1024) (Zpos n)) as [Hbig|_].
    + exfalso. assert (2 ^ 53 < 2 ^ 1024)%Z by reflexivity. lia.
    + cbn [andb]. f_equal. unfold Js.pow2. cbn [Z.leb Z.compare].
      change (2 ^ 0)%Z with 1%Z.
      transitivity (Qred (inject_Z (Zpos n))); [|apply Qred_inject_Z].
      apply Qred_complete.
      unfold Qeq, Qmult, inject_Z. cbn [Qnum Qden Pos.mul]. lia.
  - cbn [andb]. rewrite nearest_even_1. f_equal.
    transitivity (Qred (inject_Z (Zpos n))); [|apply Qred_inject_Z].
    apply Qred_complete.
    unfold Js.pow2. destruct (Z.leb_spec 0 (k - 52)); [lia|].
    assert (Hp : (0 < 2 ^ (- (k - 52)))%Z)
      by (apply Z.pow_pos_nonneg; lia).
    unfold Qeq, Qmult, inject_Z. cbn [Qnum Qden].
    rewrite Pos.mul_1_l, Z2Pos.id by exact Hp. ring.
Qed.

(** An integer below [2^53] in size is a number: rounding keeps it. *)
Lemma round_integer (z : Z) :
  (Z.abs z < 2 ^ 53)%Z -> Js.round (inject_Z z) = Js.Fin (inject_Z z).
Proof.
  intros Hz. destruct z as [|n|n]; cbn [Js.round inject_Z Qnum Qden].
  - reflexivity.
  - apply round_positive_integer. exact Hz.
  - rewrite round_positive_integer by exact Hz. reflexivity.
Qed.

Lemma nearest_even_between (n d lo hi : Z) :
  (0 < d)%Z -> (lo * d <= n <= hi * d)%Z ->
  (lo <= Js.nearest_even n d <= hi)%Z.
Proof.
  intros Hd [Hlo Hhi]. unfold Js.nearest_even.
  pose proof (Z.div_mod n d ltac:(lia)) as Hdm.
  pose proof (Z.mod_pos_bound n d Hd) as Hr.
  assert (Hq : (lo <= n / d)%Z) by (apply Z.div_le_lower_bound; lia).
  assert (Hq' : (n / d <= hi)%Z).
  { apply Z.div_le_upper_bound; lia. }
  assert (Hup : (0 < n mod d -> n / d + 1 <= hi)%Z) by nia.
  destruct (Z.compare_spec (2 * (n mod d)) d) as [E|E|E].
  - destruct (Z.even (n / d)); lia.
  - lia.
  - lia.
Qed.

Lemma floor_log2_below (n d : positive) (j : Z) :
  (0 <= j)%Z -> (Zpos n < Zpos d * 2 ^ (j + 1))%Z ->
  (Js.floor_log2 n d <= j)%Z.
Proof.
  intros Hj Hn. unfold Js.floor_log2.
  pose proof (Z.log2_spec (Zpos n) (Pos2Z.is_pos n)) as [Hn1 Hn2].
  pose proof (Z.log2_spec (Zpos d) (Pos2Z.is_pos d)) as [Hd1 Hd2].
  pose proof (Z.log2_nonneg (Zpos n)) as Hn0.
  pose proof (Z.log2_nonneg (Zpos d)) as Hd0.
  set (ln := Z.log2 (Zpos n)) in *. set (ld := Z.log2 (Zpos d)) in *.
  assert (Hk : (ln - ld <= j + 1)%Z).
  { assert (H : (2 ^ ln < 2 ^ (ld + 1 + (j + 1)))%Z).
    { rewrite Z.pow_add_r by lia.
      assert (0 < 2 ^ (j + 1))%Z by (apply Z.pow_pos_nonneg; lia).
      replace (Z.succ ld) with (ld + 1)%Z in Hd2 by lia. nia. }
    apply Z.pow_lt_mono_r_iff in H; lia. }
  destruct (Z.eq_dec (ln - ld) (j + 1)) as [E|E].
  - rewrite E. destruct (Z.leb_spec 0 (j + 1)); [|lia].
    destruct (Z.ltb_spec (Zpos n) (Zpos d * 2 ^ (j + 1))); lia.
  - destruct (if (0 <=? ln - ld)%Z
              then (Zpos n <? Zpos d * 2 ^ (ln - ld))%Z
              else (Zpos n * 2 ^ (- (ln - ld)) <? Zpos d)%Z); lia.
Qed.

(** A quotient between two positive integers below [2^53] is rounded to
    a number between them. *)
Lemma round_positive_between (n d : positive) (lo hi : Z) :
  (0 < lo)%Z -> (hi < 2 ^ 53)%Z ->
  (lo * Zpos d <= Zpos n <= hi * Zpos d)%Z ->
  exists r, Js.round_positive n d = Js.Fin r
            /\ inject_Z lo <= r /\ r <= inject_Z hi.
Proof.
  intros Hlo Hhi [Hl Hh]. unfold Js.round_positive.
  assert (He : (Js.exponent n d <= 0)%Z).
  { unfold Js.exponent.
    assert (Js.floor_log2 n d <= 52)%Z.
    { apply floor_log2_below; [lia|]. change (52 + 1)%Z with 53%Z.
      pose proof (Pos2Z.is_pos d). nia. }
    lia. }
  set (e := Js.exponent n d) in *.
  destruct (Z.leb_spec 0 e) as [H0|H0].
  - assert (e = 0%Z) by lia. rewrite H. change (2 ^ 0)%Z with 1%Z.
    rewrite !Z.mul_1_r.
    pose proof (nearest_even_between (Zpos n) (Zpos d) lo hi
                  (Pos2Z.is_pos d) (conj Hl Hh)) as [Hm1 Hm2].
    set (m := Js.nearest_even (Zpos n) (Zpos d)) in *.
    destruct (Z.leb_spec (2 ^ 1024) m) as [Hbig|_].
    { exfalso. assert (2 ^ 53 < 2 ^ 1024)%Z by reflexivity. lia. }
    cbn [andb]. eexists. split; [reflexivity|].
    rewrite Qred_correct. unfold Js.pow2. cbn [Z.leb Z.compare].
    change (2 ^ 0)%Z with 1%Z. rewrite <- inject_Z_mult, Z.mul_1_r.
    rewrite <- !Zle_Qle. lia.
  - cbn [andb].
    assert (Hp : (0 < 2 ^ (- e))%Z) by (apply Z.pow_pos_nonneg; lia).
    pose proof (nearest_even_between (Zpos n * 2 ^ (- e)) (Zpos d)
                  (lo * 2 ^ (- e)) (hi * 2 ^ (- e)) (Pos2Z.is_pos d)
                  ltac:(nia)) as [Hm1 Hm2].
    set (m := Js.nearest_even (Zpos n * 2 ^ (- e)) (Zpos d)) in *.
    eexists. split; [reflexivity|].
    rewrite Qred_correct. unfold Js.pow2.
    destruct (Z.leb_spec 0 e); [lia|].
    unfold Qle, Qmult, inject_Z. cbn [Qnum Qden].
    rewrite !Pos.mul_1_l, !Z.mul_1_r, Z2Pos.id by exact Hp.
    split; lia.
Qed.

Lemma nearest_even_close (n d : Z) :
  (0 < d)%Z ->
  (Z.abs (2 * (Js.nearest_even n d * d - n)) <= d)%Z.
Proof.
  intros Hd. unfold Js.nearest_even.
  pose proof (Z.div_mod n d ltac:(lia)) as Hdm.
  pose proof (Z.mod_pos_bound n d Hd) as Hr.
  destruct (Z.compare_spec (2 * (n mod d)) d) as [E|E|E].
  - destruct (Z.even (n / d)); nia.
  - nia.
  - nia.
Qed.

Lemma floor_log2_above (n d : positive) :
  (Zpos d <= Zpos n)%Z ->
  (0 <= Js.floor_log2 n d)%Z
  /\ (Zpos d * 2 ^ Js.floor_log2 n d <= Zpos n)%Z.
Proof.
  intros Hdn. unfold Js.floor_log2.
  pose proof (Z.log2_spec (Zpos n) (Pos2Z.is_pos n)) as [Hn1 Hn2].
  pose proof (Z.log2_spec (Zpos d) (Pos2Z.is_pos d)) as [Hd1 Hd2].
  pose proof (Z.log2_nonneg (Zpos d)) as Hd0.
  pose proof (Z.log2_le_mono _ _ Hdn) as Hmono.
  set (ln := Z.log2 (Zpos n)) in *. set (ld := Z.log2 (Zpos d)) in *.
  destruct (Z.leb_spec 0 (ln - ld)); [|lia].
  destruct (Z.ltb_spec (Zpos n) (Zpos d * 2 ^ (ln - ld))) as [Hb|Hb].
  - destruct (Z.eq_dec (ln - ld) 0) as [E|E].
    + rewrite E in Hb. change (2 ^ 0)%Z with 1%Z in Hb. lia.
    + split; [lia|].
      assert (H2 : (2 ^ ln = 2 ^ (ld + 1) * 2 ^ (ln - ld - 1))%Z).
      { rewrite <- Z.pow_add_r by lia. f_equal. lia. }
      assert (0 < 2 ^ (ln - ld - 1))%Z by (apply Z.pow_pos_nonneg; lia).
      replace (Z.succ ld) with (ld + 1)%Z in Hd2 by lia. nia.
  - split; [lia | exact Hb].
Qed.

(** A quotient from 1 up to [2^53] is rounded with a relative error of
    at most [2^-53]. *)
Lemma round_positive_close (n d : positive) :
  (Zpos d <= Zpos n)%Z -> (Zpos n < Zpos d * 2 ^ 53)%Z ->
  exists r, Js.round_positive n d = Js.Fin r
            /\ Qabs (r - (Zpos n # d)) <= (Zpos n # d) * (1 # 2 ^ 53).
Proof.
  intros Hdn Hn. unfold Js.round_positive.
  destruct (floor_log2_above n d Hdn) as [Hk0 Hk].
  assert (Hk52 : (Js.floor_log2 n d <= 52)%Z).
  { apply floor_log2_below; [lia|]. exact Hn. }
  unfold Js.exponent. rewrite Z.max_l by lia.
  set (k := Js.floor_log2 n d) in *.
  assert (Hp : (0 < 2 ^ (52 - k))%Z) by (apply Z.pow_pos_nonneg; lia).
  assert (Hkp : (2 ^ k * 2 ^ (52 - k) = 2 ^ 52)%Z).
  { rewrite <- Z.pow_add_r by lia. f_equal. lia. }
  assert (Hk2 : (0 < 2 ^ k)%Z) by (apply Z.pow_pos_nonneg; lia).
  assert (Hm : exists m,
    (if (0 <=? k - 52)%Z
     then Js.nearest_even (Zpos n) (Zpos d * 2 ^ (k - 52))
     else Js.nearest_even (Zpos n * 2 ^ (- (k - 52))) (Zpos d)) = m
    /\ (Z.abs (2 * (m * Zpos d - Zpos n * 2 ^ (52 - k))) <= Zpos d)%Z).
  { eexists. split; [reflexivity|].
    destruct (Z.leb_spec 0 (k - 52)).
    - assert (E : k = 52%Z) by lia. rewrite E.
      change (52 - 52)%Z with 0%Z. change (2 ^ 0)%Z with 1%Z.
      rewrite !Z.mul_1_r. apply nearest_even_close. lia.
    - replace (- (k - 52))%Z with (52 - k)%Z by lia.
      apply nearest_even_close. lia. }
  destruct Hm as [m [-> Hclose]].
  assert (Hm53 : (m * Zpos d <= Zpos n * 2 ^ (52 - k) + Zpos d)%Z) by lia.
  assert (Hno : ((0 <=? k - 52)%Z && (2 ^ 1024 <=? m * 2 ^ (k - 52))%Z)
                = false).
  { destruct (Z.leb_spec 0 (k - 52)); [|reflexivity].
    assert (E : k = 52%Z) by lia. rewrite E in *.
    change (52 - 52)%Z with 0%Z in *. change (2 ^ 0)%Z with 1%Z in *.
    cbn [andb]. apply Z.leb_gt.
    assert (2 ^ 53 + 1 < 2 ^ 1024)%Z by reflexivity.
    pose proof (Pos2Z.is_pos d). nia. }
  rewrite Hno. eexists. split; [reflexivity|].
  rewrite Qred_correct.
  assert (Hpow : Js.pow2 (k - 52) == 1 # Z.to_pos (2 ^ (52 - k))).
  { unfold Js.pow2. destruct (Z.leb_spec 0 (k - 52)).
    - assert (E : k = 52%Z) by lia. rewrite E. reflexivity.
    - replace (- (k - 52))%Z with (52 - k)%Z by lia. reflexivity. }
  rewrite Hpow.
  set (P := Z.to_pos (2 ^ (52 - k))).
  assert (HP : Zpos P = (2 ^ (52 - k))%Z) by (apply Z2Pos.id; exact Hp).
  assert (Hval : inject_Z m * (1 # P) - (Zpos n # d)
                 == (m * Zpos d - Zpos n * Zpos P) # (P * d)).
  { unfold Qeq, Qminus, Qplus, Qopp, Qmult, inject_Z. cbn [Qnum Qden].
    rewrite !Pos2Z.inj_mul. ring. }
  rewrite Hval. unfold Qabs, Qle, Qmult. cbn [Qnum Qden].
  rewrite !Pos2Z.inj_mul, HP.
  change (Zpos (2 ^ 53)) with (2 ^ 53)%Z.
  rewrite HP in Hval.
  assert (H53 : (2 ^ 53 = 2 * 2 ^ 52)%Z) by reflexivity.
  pose proof (Pos2Z.is_pos d) as Hd.
  set (a := Z.abs (m * Zpos d - Zpos n * 2 ^ (52 - k))) in *.
  assert (Ha : (2 * a <= Zpos d)%Z).
  { subst a. lia. }
  assert (Ha0 : (0 <= a)%Z) by (subst a; apply Z.abs_nonneg).
  assert (Hnk : (Zpos d * 2 ^ 52 <= Zpos n * 2 ^ (52 - k))%Z) by nia.
  nia.
Qed.

(** Rounding as JavaScript prints it: 13/3 is 4.333333333333333, a
    tenth is not exact, a tie goes to the even neighbour, and beyond the
    largest number lies Infinity. *)
Example round_samples :
  Js.round (13 # 3) = Js.Fin (4878899596318037 # 1125899906842624)
  /\ Js.round (1 # 10) = Js.Fin (3602879701896397 # 36028797018963968)
  /\ Js.round (inject_Z (2 ^ 53 + 1)) = Js.Fin (inject_Z (2 ^ 53))
  /\ Js.round (inject_Z (2 ^ 53 + 3)) = Js.Fin (inject_Z (2 ^ 53 + 4))
  /\ Js.round (inject_Z (2 ^ 1024)) = Js.Infinity false
  /\ Js.round (- (7 # 2)) = Js.Fin (- (7 # 2)).
Proof. vm_compute. repeat split. Qed.

(* ================================================================== *)
(** ** Rating aggregation *)
(* ================================================================== *)

Lemma Forall2_map_self {A} (R : A -> A -> Prop) (f : A -> A) (l : list A) :
  (forall x, R x (f x)) -> Forall2 R l (map f l).
Proof.
  intros H; induction l; cbn; constructor; auto.
Qed.

Lemma sum_abs_nonneg (l : list Z) : (0 <= sum (map Z.abs l))%Z.
Proof.
  induction l as [|a l IH]; [cbn; lia|].
  change (sum (map Z.abs (a :: l))) with (Z.abs a + sum (map Z.abs l))%Z.
  lia.
Qed.

(** [reduce]: as long as the sizes of the ratings add up below [2^53],
    no partial sum is rounded. *)
Lemma reduce_sum (l : list Z) (a : Z) :
  (Z.abs a + sum (map Z.abs l) < 2 ^ 53)%Z ->
  fold_left (fun sum r => Js.add sum r) (map Js.ofZ l)
            (Js.Fin (inject_Z a))
  = Js.Fin (inject_Z (a + sum l)).
Proof.
  revert a; induction l as [|z l IH]; intros a Ha;
    cbn [map fold_left sum fold_right].
  - rewrite Z.add_0_r. reflexivity.
  - pose proof (sum_abs_nonneg l) as Hl.
    change (sum (map Z.abs (z :: l)))
      with (Z.abs z + sum (map Z.abs l))%Z in Ha.
    change (fold_right Z.add 0%Z l) with (sum l).
    assert (Hstep : Js.add (Js.Fin (inject_Z a)) (Js.ofZ z)
                    = Js.Fin (inject_Z (a + z))).
    { unfold Js.add, Js.ofZ.
      replace (inject_Z a + inject_Z z) with (inject_Z (a + z)).
      - apply round_integer. lia.
      - unfold Qplus, inject_Z. cbn [Qnum Qden Pos.mul].
        rewrite !Z.mul_1_r. reflexivity. }
    rewrite Hstep, IH by lia. f_equal. f_equal. lia.
Qed.

Lemma round_quotient_close (s n : positive) :
  (Zpos n <= Zpos s)%Z -> (Zpos s < Zpos n * 2 ^ 53)%Z ->
  exists q,
    Js.round (inject_Z (Zpos s) / inject_Z (Zpos n)) = Js.Fin q
    /\ Qabs (q - inject_Z (Zpos s) / inject_Z (Zpos n))
       <= inject_Z (Zpos s) / inject_Z (Zpos n) * (1 # 2 ^ 53).
Proof.
  intros H1 H2.
  change (inject_Z (Zpos s) / inject_Z (Zpos n))
    with (Zpos (s * 1) # (1 * n)).
  unfold Js.round. cbn [Qnum Qden].
  apply round_positive_close; rewrite ?Pos.mul_1_r, ?Pos.mul_1_l;
    assumption.
Qed.

Lemma sum_at_least (l : list Z) :
  Forall (fun z => (1 <= z)%Z) l -> (Z.of_nat (length l) <= sum l)%Z.
Proof.
  induction 1 as [|z l Hz _ IH]; [cbn; lia|].
  change (sum (z :: l)) with (z + sum l)%Z.
  change (length (z :: l)) with (S (length l)). lia.
Qed.

(** The mean of ratings from 1 on, as long as they add up below
    [2^53], is rounded with a relative error of at most [2^-53]. *)
Lemma round_mean_close (R : list Z) :
  R <> [] ->
  Forall (fun z => (1 <= z)%Z) R ->
  (sum R < 2 ^ 53)%Z ->
  exists q,
    Js.round (mean R) = Js.Fin q
    /\ Qabs (q - mean R) <= mean R * (1 # 2 ^ 53).
Proof.
  intros Hne Hpos Hsum. pose proof (sum_at_least R Hpos) as Hn.
  unfold mean.
  destruct (length R) as [|k] eqn:El;
    [destruct R; [contradiction | discriminate]|].
  destruct (sum R) as [|s|s] eqn:Es; try lia.
  change (Z.of_nat (S k)) with (Zpos (Pos.of_succ_nat k)) in *.
  apply round_quotient_close; [exact Hn|].
  pose proof (Pos2Z.is_pos (Pos.of_succ_nat k)).
  assert (1 <= 2 ^ 53)%Z by (cbv; discriminate). nia.
Qed.

Lemma abs_from_one (l : list Z) :
  Forall (fun z => (1 <= z)%Z) l -> map Z.abs l = l.
Proof.
  induction 1 as [|z l Hz _ IH]; [reflexivity|].
  cbn [map]. rewrite IH. f_equal. lia.
Qed.

(** The average of the code is the quotient of the exact sum, rounded. *)
Lemma average_is_rounded_mean (R : list Z) :
  R <> [] ->
  (sum (map Z.abs R) < 2 ^ 53)%Z ->
  reviewService.average (map Js.ofZ R) = Js.round (mean R).
Proof.
  intros Hne Hsum. unfold reviewService.average, Js.zero.
  change (Js.Fin 0) with (Js.Fin (inject_Z 0)).
  rewrite reduce_sum by (cbn [Z.abs]; lia).
  rewrite Z.add_0_l, length_map.
  unfold Js.ofNat, Js.ofZ, Js.div, mean.
  destruct (Qeq_bool (inject_Z (Z.of_nat (length R))) 0) eqn:E;
    [|reflexivity].
  exfalso. apply Qeq_bool_iff in E. change 0 with (inject_Z 0) in E.
  apply inject_Z_injective in E. destruct R; [contradiction|].
  cbn in E. discriminate E.
Qed.

Lemma where_reached_rerated rt d restaurantId x r :
  rerated rt d restaurantId x r
    (Store.where_reached rt (UpdateRating restaurantId x) RestaurantRow.id d
       (Store.apply_rating restaurantId x (DB.now d)) r).
Proof.
  unfold rerated, Store.where_reached, Store.apply_rating.
  destruct (hides rt d (UpdateRating restaurantId x) (RestaurantRow.id r));
    destruct (String.eqb (RestaurantRow.id r) restaurantId); cbn;
    try reflexivity.
  exists (DB.now d). reflexivity.
Qed.

Lemma reached_all {A} rt req (id : A -> uuid) d (l : list A) :
  (forall x, In x l -> hides rt d req (id x) = false) ->
  Store.reached rt req id d l = l.
Proof.
  unfold Store.reached. induction l as [|x l IH]; intros H; cbn;
    [reflexivity|].
  rewrite (H x) by (left; reflexivity). cbn. f_equal.
  apply IH. intros y Hy. apply H. right; exact Hy.
Qed.

(** What [updateRestaurantRating] does, by the store's answers. *)
Lemma updateRestaurantRating_run rt w restaurantId :
  reviewService.updateRestaurantRating rt restaurantId w
  = let w1 := log_request (SelectRatings restaurantId) w in
    match rejects rt (remote w) (SelectRatings restaurantId) with
    | Some _ => (Return tt, w1)
    | None =>
        match Store.ratings_of rt restaurantId (remote w) with
        | [] => (Return tt, w1)
        | _ :: _ =>
            let x := reviewService.average
                       (map Js.ofZ
                          (Store.ratings_of rt restaurantId (remote w))) in
            let w2 := log_request (UpdateRating restaurantId x) w1 in
            match rejects rt (remote w) (UpdateRating restaurantId x) with
            | Some _ => (Return tt, w2)
            | None =>
                (Return tt,
                 with_remote
                   (snd (Store.update_rating rt restaurantId x (remote w)))
                   w2)
            end
        end
    end.
Proof.
  unfold reviewService.updateRestaurantRating, bind, ret, Store.send,
    Store.select_ratings, Store.rows.
  cbv zeta.
  destruct (rejects rt (remote w) (SelectRatings restaurantId));
    [reflexivity|].
  cbn [data].
  destruct (Store.ratings_of rt restaurantId (remote w)) as [|z l];
    [reflexivity|].
  cbn [map remote log_request with_remote].
  destruct (rejects rt (remote w) _); reflexivity.
Qed.

(** C1 (amended).  [updateRestaurantRating] returns normally whatever
    the store answers.  Let R be the ratings its read returns: those of
    the restaurant's stored reviews when no policy keeps one from the
    read.  When R is empty nothing but the read is sent and the store is
    left as it was, so the rating keeps its prior value.  When R is not
    empty one update follows, of the rating to the average as
    JavaScript computes it: the binary64 number nearest to
    [sum(R) / count(R)] when the sizes of the ratings add up below
    [2^53], which for ratings from 1 on lies within a relative error of
    [2^-53] of that mean.  The update changes the rows of the restaurant
    that it reaches, in their rating and time stamp, and leaves every
    other row as it was. *)
Theorem updateRestaurantRating_mean (rt : Runtime) (w : World)
    (restaurantId : uuid)
    (Hread : rejects rt (remote w) (SelectRatings restaurantId) = None)
    (Hwrite : forall x,
        rejects rt (remote w) (UpdateRating restaurantId x) = None) :
  let R := Store.ratings_of rt restaurantId (remote w) in
  let x := reviewService.average (map Js.ofZ R) in
  let result := reviewService.updateRestaurantRating rt restaurantId w in
  let w' := snd result in
  fst result = Return tt
  /\ ((forall v, In v (Store.reviews_of restaurantId (remote w)) ->
         hides rt (remote w) (SelectRatings restaurantId) (ReviewRow.id v)
         = false) ->
      R = map ReviewRow.rating (Store.reviews_of restaurantId (remote w)))
  /\ (R = [] ->
      w' = log_request (SelectRatings restaurantId) w
      /\ remote w' = remote w)
  /\ (R <> [] ->
      requests w'
      = (requests w
         ++ [SelectRatings restaurantId; UpdateRating restaurantId x])%list
      /\ Forall2 (rerated rt (remote w) restaurantId x)
                 (DB.restaurants (remote w))
                 (DB.restaurants (remote w'))
      /\ ((sum (map Z.abs R) < 2 ^ 53)%Z -> x = Js.round (mean R))
      /\ (Forall (fun z => (1 <= z)%Z) R -> (sum R < 2 ^ 53)%Z ->
          exists q,
            x = Js.Fin q
            /\ Qabs (q - mean R) <= mean R * (1 # 2 ^ 53))).
Proof.
  intros R x result w'. subst w' result.
  rewrite updateRestaurantRating_run. cbv zeta. rewrite Hread.
  fold R. split; [|split; [|split]].
  - destruct R; [reflexivity|]. rewrite Hwrite. reflexivity.
  - intros Hshown. subst R. unfold Store.ratings_of.
    rewrite reached_all by exact Hshown. reflexivity.
  - intros E. rewrite E. split; reflexivity.
  - intros Hne. destruct R as [|z l] eqn:ER; [contradiction|].
    fold x. rewrite Hwrite. cbn [snd fst].
    split; [|split; [|split]].
    + cbn. rewrite <- app_assoc. reflexivity.
    + cbn. apply Forall2_map_self. intros r. apply where_reached_rerated.
    + intros Hsum. subst x. apply average_is_rounded_mean;
        [discriminate | exact Hsum].
    + intros Hpos Hsum. subst x.
      rewrite average_is_rounded_mean;
        [|discriminate | rewrite (abs_from_one _ Hpos); exact Hsum].
      apply round_mean_close; [discriminate | exact Hpos | exact Hsum].
Qed.

Lemma updateRestaurantRating_mean_witness :
  let w := sample_world (Some alice) [review "v-1" 5; review "v-2" 3] in
  let result := reviewService.updateRestaurantRating accepting
                  "r-bistro" w in
  fst result = Return tt
  /\ reviewService.average (map Js.ofZ [5; 3]%Z) = Js.round (mean [5; 3]%Z)
  /\ Js.round (mean [5; 3]%Z) = Js.Fin 4
  /\ map RestaurantRow.rating (DB.restaurants (remote (snd result)))
     = [Js.Fin 4].
Proof.
  intros w result.
  destruct (updateRestaurantRating_mean accepting w "r-bistro" eq_refl
              (fun _ => eq_refl)) as [Hret [_ [_ H]]].
  destruct H as [_ [_ [Hx _]]]; [discriminate|].
  split; [exact Hret|]. split; [exact (Hx eq_refl)|].
  split; reflexivity.
Defined.

Example rating_kept_without_reviews :
  let w := sample_world (Some alice) [] in
  reviewService.updateRestaurantRating accepting "r-bistro" w
  = (Return tt, log_request (SelectRatings "r-bistro") w).
Proof. reflexivity. Qed.

(** C1 as stated fails, twice over.  The mean of 5, 4 and 4 is 13/3,
    which is no binary64 number: the rating stored is
    4.333333333333333.  And with the key the client connects with, the
    read shows no review and the update is never sent: the rating stays
    at 0 though the restaurant has reviews. *)
Lemma rating_is_mean_counterexample :
  (let w := sample_world (Some alice)
              [review "v-1" 5; review "v-2" 4; review "v-3" 4] in
   let w' := snd (reviewService.updateRestaurantRating accepting
                    "r-bistro" w) in
   mean [5; 4; 4]%Z == 13 # 3
   /\ map RestaurantRow.rating (DB.restaurants (remote w'))
      = [Js.Fin (4878899596318037 # 1125899906842624)])
  /\ (let w := sample_world (Some alice)
                 [review "v-1" 5; review "v-2" 3] in
      let result := reviewService.updateRestaurantRating anonymous
                      "r-bistro" w in
      fst result = Return tt
      /\ requests (snd result) = [SelectRatings "r-bistro"]
      /\ map RestaurantRow.rating (DB.restaurants (remote (snd result)))
         = [Js.zero])
  /\ ~ rating_is_mean.
Proof.
  split; [split; reflexivity|]. split; [repeat split|].
  intros H.
  specialize (H accepting
                (sample_world (Some alice)
                   [review "v-1" 5; review "v-2" 4; review "v-3" 4])
                "r-bistro" eq_refl (fun _ => eq_refl)).
  cbv zeta in H.
  destruct (H ltac:(discriminate)
              (RestaurantRow.with_rating
                 (Js.Fin (4878899596318037 # 1125899906842624))
                 "2025-10-07T00:00:00Z" bistro)
              (or_introl eq_refl) eq_refl) as [q [Hq Hmean]].
  injection Hq as <-. vm_compute in Hmean. discriminate Hmean.
Qed.

(* ================================================================== *)
(** ** Order lifecycle *)
(* ================================================================== *)

(** What one call of the service does, whatever the current status. *)
Lemma updateOrderStatus_run rt orderId status driverId w :
  let updates := OrderUpdate.Build status (orderService.given driverId) in
  orderService.updateOrderStatus rt orderId status driverId w
  = match rejects rt (remote w) (UpdateOrder orderId updates) with
    | Some e => (Throw e, log_request (UpdateOrder orderId updates) w)
    | None =>
        (Return tt,
         with_remote (orders_updated rt orderId updates (remote w))
           (log_request (UpdateOrder orderId updates) w))
    end.
Proof.
  unfold orderService.updateOrderStatus, bind, throw_error, throw, ret,
    Store.send, Store.update_order, orders_updated. cbn [error].
  destruct (rejects rt (remote w) _); reflexivity.
Qed.

Lemma apply_order_update_hit orderId u now o :
  OrderRow.id o = orderId ->
  Store.apply_order_update orderId u now o
  = OrderRow.with_status (OrderUpdate.status u)
      (match OrderUpdate.driver_id u with
       | Some x => Some x
       | None => OrderRow.driver_id o
       end) now o.
Proof.
  intros <-. unfold Store.apply_order_update.
  rewrite String.eqb_refl. reflexivity.
Qed.

Lemma where_reached_updated rt d orderId u o :
  updated rt d orderId u o
    (Store.where_reached rt (UpdateOrder orderId u) OrderRow.id d
       (Store.apply_order_update orderId u (DB.now d)) o).
Proof.
  unfold updated, Store.where_reached, Store.apply_order_update.
  destruct (hides rt d (UpdateOrder orderId u) (OrderRow.id o));
    destruct (String.eqb (OrderRow.id o) orderId); cbn;
    try reflexivity.
  exists (DB.now d). reflexivity.
Qed.

Lemma orders_updated_rows rt orderId u d :
  Forall2 (updated rt d orderId u)
          (DB.orders d) (DB.orders (orders_updated rt orderId u d)).
Proof.
  cbn. apply Forall2_map_self. intros o. apply where_reached_updated.
Qed.

(** An order the update reaches is changed ... *)
Lemma orders_updated_reached rt orderId u d o :
  In o (DB.orders d) ->
  OrderRow.id o = orderId ->
  hides rt d (UpdateOrder orderId u) orderId = false ->
  In (OrderRow.with_status (OrderUpdate.status u)
        (match OrderUpdate.driver_id u with
         | Some x => Some x
         | None => OrderRow.driver_id o
         end) (DB.now d) o)
     (DB.orders (orders_updated rt orderId u d)).
Proof.
  intros Hin Hid Hshown. cbn. apply in_map_iff. exists o.
  split; [|exact Hin].
  unfold Store.where_reached. rewrite Hid, Hshown.
  apply apply_order_update_hit. exact Hid.
Qed.

(** ... and the orders it does not reach are all left as they are. *)
Lemma orders_updated_hidden rt orderId u d :
  hides rt d (UpdateOrder orderId u) orderId = true ->
  DB.orders (orders_updated rt orderId u d) = DB.orders d.
Proof.
  intros Hhidden. cbn. rewrite <- (map_id (DB.orders d)) at 2.
  apply map_ext. intros o.
  unfold Store.where_reached, Store.apply_order_update.
  destruct (String.eqb_spec (OrderRow.id o) orderId) as [E|E].
  - rewrite E, Hhidden. reflexivity.
  - destruct (hides rt d (UpdateOrder orderId u) (OrderRow.id o));
      reflexivity.
Qed.

(** C2 (amended).  For an order of status [s] and any target [t] of the seven
    statuses, [orderService.updateOrderStatus] sends the same update
    whatever [s] is and throws only the error the store answers with:
    no pair is turned down by the function.  When the store answers
    without an error, the order has status [t] afterwards if the update
    reached it; if a policy kept the order from the update, the order
    is left as it was, and the function returns all the same. *)
Theorem updateOrderStatus_any_transition (rt : Runtime) (w : World)
    (o : OrderRow.t) (s t : OrderStatus) (driverId : option uuid)
    (Hin : In o (DB.orders (remote w)))
    (Hs : OrderRow.status o = status_name s) :
  let orderId := OrderRow.id o in
  let updates :=
    OrderUpdate.Build (status_name t) (orderService.given driverId) in
  let result :=
    orderService.updateOrderStatus rt orderId (status_name t) driverId w in
  requests (snd result)
  = (requests w ++ [UpdateOrder orderId updates])%list
  /\ fst result
     = match rejects rt (remote w) (UpdateOrder orderId updates) with
       | Some e => Throw e
       | None => Return tt
       end
  /\ (rejects rt (remote w) (UpdateOrder orderId updates) = None ->
      Forall2 (updated rt (remote w) orderId updates)
              (DB.orders (remote w)) (DB.orders (remote (snd result)))
      /\ (hides rt (remote w) (UpdateOrder orderId updates) orderId = false ->
          exists o',
            In o' (DB.orders (remote (snd result)))
            /\ OrderRow.id o' = orderId
            /\ OrderRow.status o' = status_name t)
      /\ (hides rt (remote w) (UpdateOrder orderId updates) orderId = true ->
          DB.orders (remote (snd result)) = DB.orders (remote w))).
Proof.
  intros orderId updates result. subst result.
  rewrite updateOrderStatus_run. fold updates.
  destruct (rejects rt (remote w) (UpdateOrder orderId updates)) as [e|];
    cbn [fst snd requests log_request with_remote remote];
    (split; [reflexivity|]); (split; [reflexivity|]).
  - intros H; discriminate.
  - intros _. split; [apply orders_updated_rows|]. split.
    + intros Hshown. eexists. split.
      * apply (orders_updated_reached rt orderId updates (remote w) o Hin
                 eq_refl Hshown).
      * split; reflexivity.
    + apply orders_updated_hidden.
Qed.

Lemma updateOrderStatus_any_transition_witness :
  let w := sample_world (Some alice) [] in
  let result :=
    orderService.updateOrderStatus accepting "o-2" "pending" None w in
  fst result = Return tt
  /\ map OrderRow.status (DB.orders (remote (snd result)))
     = ["ready"; "pending"].
Proof.
  intros w result.
  destruct (updateOrderStatus_any_transition accepting w order2
              delivering pending None (or_intror (or_introl eq_refl))
              eq_refl) as [_ [Hout _]].
  split; [exact Hout | reflexivity].
Defined.

(** C2 as stated fails: not every transition is applied.  With the key
    the client connects with, no policy of [orders] holds: the
    cancellation of a customer's own order is answered without an error
    and the order is still "ready". *)
Lemma any_transition_applies_counterexample :
  (let w := sample_world (Some alice) [] in
   let result :=
     orderService.updateOrderStatus anonymous "o-1" "cancelled" None w in
   fst result = Return tt
   /\ requests (snd result)
      = [UpdateOrder "o-1" (OrderUpdate.Build "cancelled" None)]
   /\ DB.orders (remote (snd result)) = [order1; order2]
   /\ OrderRow.status order1 = "ready")
  /\ ~ any_transition_applies.
Proof.
  split; [repeat split|].
  intros H.
  destruct (H anonymous (sample_world (Some alice) []) order1 ready
              cancelled None (or_introl eq_refl) eq_refl eq_refl)
    as [o' [Hin [_ Hstatus]]].
  cbn in Hin. destruct Hin as [<- | [<- | []]]; discriminate Hstatus.
Qed.

Lemma given_nonempty (id : uuid) :
  id <> "" -> orderService.given (Some id) = Some id.
Proof.
  intros H. unfold orderService.given.
  destruct (String.eqb_spec id ""); [contradiction | reflexivity].
Qed.

(** What [acceptDelivery] does for a signed-in user with a non-empty
    id, by the store's answer. *)
Lemma acceptDelivery_run rt w u orderId :
  user w = Some u ->
  User.id u <> "" ->
  let updates := OrderUpdate.Build "delivering" (Some (User.id u)) in
  let clear (w : World) :=
    with_orderState
      (OrderState.Build (OrderState.orders (orderState w))
         (OrderState.loading (orderState w)) None) w in
  OrderContext.acceptDelivery rt orderId w
  = match rejects rt (remote w) (UpdateOrder orderId updates) with
    | Some e =>
        let msg := message_or e "Failed to accept delivery" in
        (Throw (Js.Error msg),
         with_orderState
           (OrderState.Build (OrderState.orders (orderState w))
              (OrderState.loading (orderState w)) (Some msg))
           (log_request (UpdateOrder orderId updates) w))
    | None =>
        (Return tt,
         with_orderState
           (OrderState.Build
              (map (fun order =>
                      if String.eqb (OrderRow.id (CachedOrder.row order))
                                    orderId
                      then OrderContext.patch_accepted u (clock w) order
                      else order)
                   (OrderState.orders (orderState w)))
              (OrderState.loading (orderState w)) None)
           (with_remote (orders_updated rt orderId updates (remote w))
              (log_request (UpdateOrder orderId updates) w)))
    end.
Proof.
  intros Huser Hid updates clear.
  unfold OrderContext.acceptDelivery, OrderContext.setError,
    OrderContext.setOrders, bind, gets, modify, try_catch, throw.
  cbv beta iota. rewrite Huser. cbv beta iota.
  rewrite updateOrderStatus_run. rewrite (given_nonempty _ Hid).
  cbn [remote with_orderState]. fold updates.
  destruct (rejects rt (remote w) (UpdateOrder orderId updates));
    reflexivity.
Qed.

(** C3 (amended).  For a signed-in actor [u], [acceptDelivery] sends one
    request: the update of the order to status "delivering" with
    [driver_id] the actor's own id; the order's current driver is never
    read.  When the store answers without an error the function returns
    and every cached order with that id shows "delivering" and that
    driver.  In the store the orders with that id which the update
    reaches end with that status and driver, whatever driver they had;
    when a policy keeps the order from the update, the stored orders
    are left as they were. *)
Theorem acceptDelivery_assigns_actor (rt : Runtime) (w : World)
    (u : User.t) (orderId : uuid)
    (Huser : user w = Some u)
    (Hid : User.id u <> "") :
  let updates := OrderUpdate.Build "delivering" (Some (User.id u)) in
  let result := OrderContext.acceptDelivery rt orderId w in
  requests (snd result) = (requests w ++ [UpdateOrder orderId updates])%list
  /\ (rejects rt (remote w) (UpdateOrder orderId updates) = None ->
      fst result = Return tt
      /\ (forall c, In c (OrderState.orders (orderState w)) ->
            OrderRow.id (CachedOrder.row c) = orderId ->
            exists c',
              In c' (OrderState.orders (orderState (snd result)))
              /\ OrderRow.id (CachedOrder.row c') = orderId
              /\ OrderRow.status (CachedOrder.row c') = "delivering"
              /\ OrderRow.driver_id (CachedOrder.row c')
                 = Some (User.id u))
      /\ Forall2 (updated rt (remote w) orderId updates)
                 (DB.orders (remote w)) (DB.orders (remote (snd result)))
      /\ (hides rt (remote w) (UpdateOrder orderId updates) orderId = false ->
          forall o, In o (DB.orders (remote w)) ->
            OrderRow.id o = orderId ->
            exists o',
              In o' (DB.orders (remote (snd result)))
              /\ OrderRow.id o' = orderId
              /\ OrderRow.status o' = "delivering"
              /\ OrderRow.driver_id o' = Some (User.id u))
      /\ (hides rt (remote w) (UpdateOrder orderId updates) orderId = true ->
          DB.orders (remote (snd result)) = DB.orders (remote w))).
Proof.
  intros updates result. subst result.
  rewrite (acceptDelivery_run rt w u orderId Huser Hid). cbv zeta.
  fold updates.
  destruct (rejects rt (remote w) (UpdateOrder orderId updates)) as [e|].
  - split; [reflexivity|]. intros H; discriminate.
  - split; [reflexivity|]. intros _. split; [reflexivity|].
    cbn [snd remote with_orderState with_remote orderState].
    split; [|split; [|split]].
    + intros c Hin Hc. cbn.
      exists (OrderContext.patch_accepted u (clock w) c).
      split.
      * apply in_map_iff. exists c. split; [|exact Hin].
        rewrite Hc, String.eqb_refl. reflexivity.
      * repeat split. exact Hc.
    + apply orders_updated_rows.
    + intros Hshown o Hin Ho. eexists. split.
      * apply (orders_updated_reached rt orderId updates (remote w) o Hin
                 Ho Hshown).
      * repeat split. exact Ho.
    + apply orders_updated_hidden.
Qed.

Lemma acceptDelivery_assigns_actor_witness :
  let w := sample_world (Some dan) [] in
  let result := OrderContext.acceptDelivery accepting "o-2" w in
  OrderRow.driver_id order2 = Some "u-eve"
  /\ fst result = Return tt
  /\ map OrderRow.driver_id (DB.orders (remote (snd result)))
     = [None; Some "u-dan"]
  /\ map OrderRow.status (DB.orders (remote (snd result)))
     = ["ready"; "delivering"].
Proof.
  intros w result.
  assert (Hid : User.id dan <> "") by discriminate.
  destruct (acceptDelivery_assigns_actor accepting w dan "o-2" eq_refl Hid)
    as [_ H].
  destruct (H eq_refl) as [Hout _].
  split; [reflexivity|]. split; [exact Hout|]. split; reflexivity.
Defined.

(** C3 as stated fails: accepting does not always assign.  With the key
    the client connects with, the update of an accepting driver is
    answered without an error and changes no order: the cached order
    shows "delivering" and the driver, the stored order is still
    "ready" and unassigned. *)
Lemma accepting_always_assigns_counterexample :
  (let w := sample_world (Some dan) [] in
   let result := OrderContext.acceptDelivery anonymous "o-1" w in
   fst result = Return tt
   /\ DB.orders (remote (snd result)) = [order1; order2]
   /\ OrderRow.status order1 = "ready"
   /\ OrderRow.driver_id order1 = None
   /\ map (fun c => (OrderRow.status (CachedOrder.row c),
                     OrderRow.driver_id (CachedOrder.row c)))
          (OrderState.orders (orderState (snd result)))
      = [("delivering", Some "u-dan"); ("delivering", Some "u-eve")])
  /\ ~ accepting_always_assigns.
Proof.
  split; [repeat split|].
  intros H.
  assert (Hid : User.id dan <> "") by discriminate.
  destruct (H anonymous (sample_world (Some dan) []) dan order1 eq_refl Hid
              (or_introl eq_refl) eq_refl)
    as [o' [Hin [Ho' [Hstatus _]]]].
  cbn in Hin. destruct Hin as [<- | [<- | []]];
    [discriminate Hstatus | discriminate Ho'].
Qed.

(* ================================================================== *)
(** ** The cached order list *)
(* ================================================================== *)

Lemma patch_status_patched orderId status driverId now c :
  patched orderId status driverId now c
    (if String.eqb (OrderRow.id (CachedOrder.row c)) orderId
     then OrderContext.patch_status (status_name status) driverId now c
     else c).
Proof.
  unfold patched; cbv zeta.
  destruct (String.eqb (OrderRow.id (CachedOrder.row c)) orderId);
    [|reflexivity].
  cbn. repeat split.
  - intros ->. reflexivity.
  - intros ->. reflexivity.
  - intros d -> Hd. rewrite (given_nonempty _ Hd). reflexivity.
Qed.

(** The container's update returns normally exactly when the store
    accepts the request. *)
Lemma updateOrderStatus_accepted rt w orderId status driverId :
  rejects rt (remote w)
    (UpdateOrder orderId
       (OrderUpdate.Build (status_name status)
                          (orderService.given driverId))) = None <->
  exists w',
    OrderContext.updateOrderStatus rt orderId status driverId w
    = (Return tt, w').
Proof.
  unfold OrderContext.updateOrderStatus, OrderContext.setError,
    OrderContext.setOrders, bind, gets, modify, try_catch, throw.
  cbv beta iota. rewrite updateOrderStatus_run.
  cbn [remote with_orderState].
  destruct (rejects rt (remote w) _) as [e|]; split.
  - discriminate.
  - intros [w' H]. discriminate H.
  - intros _. eexists. reflexivity.
  - reflexivity.
Qed.

(** C7.  When the container's [updateOrderStatus] returns normally (which
    it does exactly when the store accepts the update), the one request
    it has sent is the update (nothing is fetched), and the cached list
    is the old list in the same order where the order with the matching
    id has the new status, a refreshed [updated_at], the new driver only
    when a non-empty driver id was passed, and all other fields as
    before; orders with another id are untouched. *)
Theorem updateOrderStatus_patches_cache (rt : Runtime) (w w' : World)
    (orderId : uuid) (status : OrderStatus) (driverId : option uuid)
    (Hok : OrderContext.updateOrderStatus rt orderId status driverId w
           = (Return tt, w')) :
  requests w'
  = (requests w
     ++ [UpdateOrder orderId
           (OrderUpdate.Build (status_name status)
                              (orderService.given driverId))])%list
  /\ Forall2 (patched orderId status driverId (clock w))
             (OrderState.orders (orderState w))
             (OrderState.orders (orderState w')).
Proof.
  revert Hok.
  unfold OrderContext.updateOrderStatus, OrderContext.setError,
    OrderContext.setOrders, bind, gets, modify, try_catch, throw.
  cbv beta iota. rewrite updateOrderStatus_run.
  cbn [remote with_orderState].
  destruct (rejects rt (remote w) _) as [e|]; intros Hok.
  - discriminate Hok.
  - injection Hok as <-. cbn. split; [reflexivity|].
    apply Forall2_map_self. intros c. apply patch_status_patched.
Qed.

Lemma updateOrderStatus_patches_cache_witness :
  let w := sample_world (Some alice) [] in
  exists w',
    OrderContext.updateOrderStatus accepting "o-1" delivering
      (Some "u-dan") w = (Return tt, w')
    /\ requests w'
       = [UpdateOrder "o-1" (OrderUpdate.Build "delivering" (Some "u-dan"))]
    /\ Forall2 (patched "o-1" delivering (Some "u-dan") (clock w))
               (OrderState.orders (orderState w))
               (OrderState.orders (orderState w')).
Proof.
  intros w.
  destruct (proj1 (updateOrderStatus_accepted accepting w "o-1" delivering
                     (Some "u-dan")) eq_refl) as [w' Hrun].
  exists w'. split; [exact Hrun|].
  exact (updateOrderStatus_patches_cache accepting w w' "o-1" delivering
           (Some "u-dan") Hrun).
Defined.

Example updateOrderStatus_cache_after :
  let w := sample_world (Some alice) [] in
  let w' := snd (OrderContext.updateOrderStatus accepting "o-1" delivering
                   (Some "u-dan") w) in
  map (fun c => (OrderRow.status (CachedOrder.row c),
                 OrderRow.driver_id (CachedOrder.row c),
                 OrderRow.updated_at (CachedOrder.row c)))
      (OrderState.orders (orderState w'))
  = [ ("delivering", Some "u-dan", "2025-10-07T00:00:01Z");
      ("delivering", Some "u-eve", "2025-10-05T02:00:00Z") ].
Proof. reflexivity. Qed.

(** A refused update leaves the cached list as it was. *)
Example updateOrderStatus_refused :
  let w := sample_world (Some alice) [] in
  let result := OrderContext.updateOrderStatus refusing "o-1" delivering
                  None w in
  fst result = Throw (Js.Error "permission denied")
  /\ OrderState.orders (orderState (snd result))
     = OrderState.orders (orderState w).
Proof. split; reflexivity. Qed.

(** C9.  With a signed-in user, the container's [getRestaurantOrders]
    returns normally, sends no request at all (the store and the request
    log are as before) and leaves the cached order list empty. *)
Theorem getRestaurantOrders_never_fetches (rt : Runtime) (w : World)
    (u : User.t) (Huser : user w = Some u) :
  let result := OrderContext.getRestaurantOrders rt w in
  fst result = Return tt
  /\ requests (snd result) = requests w
  /\ remote (snd result) = remote w
  /\ OrderState.orders (orderState (snd result)) = [].
Proof.
  intros result. subst result.
  unfold OrderContext.getRestaurantOrders, bind, gets.
  rewrite Huser. repeat split.
Qed.

Lemma getRestaurantOrders_never_fetches_witness :
  let w := sample_world (Some alice) [] in
  let result := OrderContext.getRestaurantOrders accepting w in
  OrderState.orders (orderState w) <> []
  /\ DB.orders (remote w) <> []
  /\ fst result = Return tt
  /\ requests (snd result) = requests w
  /\ remote (snd result) = remote w
  /\ OrderState.orders (orderState (snd result)) = [].
Proof.
  intros w result.
  split; [discriminate|]. split; [discriminate|].
  exact (getRestaurantOrders_never_fetches accepting w alice eq_refl).
Defined.

(** Without a signed-in user the function returns at once and the cached
    list is kept. *)
Example getRestaurantOrders_signed_out :
  let w := sample_world None [] in
  OrderContext.getRestaurantOrders accepting w = (Return tt, w).
Proof. reflexivity. Qed.

(* ================================================================== *)
(** ** Order creation *)
(* ================================================================== *)

Lemma order_errors_valid rt orderData w :
  valid_order rt orderData ->
  OrderContext.order_errors rt orderData w = (Return [], w).
Proof.
  intros [Hr [Hi [[a [Ha Hta]] [p [Hp Htp]]]]].
  unfold OrderContext.order_errors, OrderContext.blank, bind, ret.
  rewrite Hr, Hi, Ha, Hp. cbn.
  destruct (String.eqb_spec (trim rt a) ""); [contradiction|].
  destruct (String.eqb_spec (trim rt p) ""); [contradiction|].
  reflexivity.
Qed.

Lemma order_errors_world rt orderData w :
  snd (OrderContext.order_errors rt orderData w) = w.
Proof.
  unfold OrderContext.order_errors, OrderContext.blank, bind, ret, throw.
  destruct (Js.get orderData "delivery_address");
    destruct (Js.get orderData "customer_phone"); reflexivity.
Qed.

Lemma getCustomerOrders_quiet rt w :
  fst (OrderContext.getCustomerOrders rt w) = Return tt
  /\ remote (snd (OrderContext.getCustomerOrders rt w)) = remote w.
Proof.
  unfold OrderContext.getCustomerOrders, orderService.getMyOrders,
    OrderContext.setLoading, OrderContext.setError, OrderContext.setOrders,
    Store.send, Store.select_orders_by_customer,
    bind, gets, modify, try_catch, try_finally, throw_error, throw, ret.
  destruct (user w) as [u|]; [|split; reflexivity].
  cbn. destruct (rejects rt (remote w) _); cbn; split; reflexivity.
Qed.

(** The refresh after the insert returns and leaves the store alone. *)
Lemma refresh_quiet rt (customer : bool) w :
  exists w1,
    (if customer then OrderContext.getCustomerOrders rt
     else fun w0 : World => (Return tt, w0)) w = (Return tt, w1)
    /\ remote w1 = remote w.
Proof.
  destruct customer.
  - destruct (getCustomerOrders_quiet rt w) as [H1 H2].
    destruct (OrderContext.getCustomerOrders rt w) as [out w1].
    cbn in H1, H2. subst out. exists w1. split; [reflexivity | exact H2].
  - eexists; split; reflexivity.
Qed.

(** A valid input and an accepted insert: the call returns the new id. *)
Lemma createOrder_accepted rt w u orderData :
  user w = Some u ->
  valid_order rt orderData ->
  rejects rt (remote w)
    (InsertOrder
       (orderService.order_body rt
          (OrderContext.order_request u orderData))) = None ->
  let o := created_order rt u orderData (remote w) in
  exists w',
    OrderContext.createOrder rt orderData w = (Return (OrderRow.id o), w')
    /\ remote w'
     = Store.written rt
         (DB.with_orders (DB.orders (remote w) ++ [o]) (remote w)).
Proof.
  intros Hu Hv Hacc o.
  unfold OrderContext.createOrder, orderService.createOrder,
    OrderContext.setLoading, OrderContext.setError,
    bind, gets, modify, try_catch, try_finally, throw_if, throw_error, ret,
    Store.send, Store.insert_order.
  cbv beta iota. rewrite Hu. cbv beta iota.
  rewrite (order_errors_valid _ _ _ Hv). cbv beta iota.
  cbn [length Nat.eqb negb remote with_orderState log_request].
  rewrite Hacc. cbv beta iota. cbn [error data].
  match goal with
  | |- context [(if ?c then _ else _) ?W] =>
      destruct (refresh_quiet rt c W) as [w1 [Hrun Hrem]]
  end.
  rewrite Hrun.
  eexists. split; [reflexivity|].
  cbn [remote with_orderState]. rewrite Hrem. reflexivity.
Qed.

(** A normal return: the insert was accepted and the new row is there. *)
Lemma createOrder_returned rt w w' u orderData id :
  user w = Some u ->
  OrderContext.createOrder rt orderData w = (Return id, w') ->
  let o := created_order rt u orderData (remote w) in
  id = OrderRow.id o
  /\ remote w'
     = Store.written rt
         (DB.with_orders (DB.orders (remote w) ++ [o]) (remote w)).
Proof.
  intros Hu.
  unfold OrderContext.createOrder, orderService.createOrder,
    OrderContext.setLoading, OrderContext.setError,
    bind, gets, modify, try_catch, try_finally, throw_if, throw_error, ret,
    throw, Store.send, Store.insert_order.
  cbv beta iota. rewrite Hu. cbv beta iota.
  match goal with
  | |- context [OrderContext.order_errors rt orderData ?W] =>
      pose proof (order_errors_world rt orderData W) as Hw;
      destruct (OrderContext.order_errors rt orderData W) as [[errors|e] w1]
  end; cbn [snd] in Hw; subst w1; [|discriminate].
  destruct errors as [|x xs]; cbn [length Nat.eqb negb]; [|discriminate].
  cbn [remote with_orderState log_request].
  destruct (rejects rt (remote w) _); cbv beta iota; cbn [error data];
    [discriminate|].
  match goal with
  | |- context [(if ?c then _ else _) ?W] =>
      destruct (refresh_quiet rt c W) as [w1 [Hrun Hrem]]
  end.
  rewrite Hrun.
  intros H. injection H as <- <-. split; [reflexivity|].
  cbn [remote with_orderState]. rewrite Hrem. reflexivity.
Qed.

(** C4.  For a signed-in user, every normal return of [createOrder]
    yields the id of a new order appended to the store whose status is
    "pending", whose customer is the user, and whose items, subtotal,
    delivery_fee and total are the caller's values after [parseFloat]
    (an amount supplied as a number is stored as that number: 13, 2 and
    15 in the scenario); and the call does return when the input passes
    the presence checks and the store accepts the insert. *)
Theorem createOrder_stores_supplied_values (rt : Runtime) (w : World)
    (u : User.t) (orderData : Js.object)
    (Huser : user w = Some u) :
  (forall id w',
      OrderContext.createOrder rt orderData w = (Return id, w') ->
      exists o,
        DB.orders (remote w') = (DB.orders (remote w) ++ [o])%list
        /\ OrderRow.id o = id
        /\ OrderRow.status o = status_name pending
        /\ OrderRow.customer_id o = Js.String (User.id u)
        /\ OrderRow.items o = Js.get orderData "items"
        /\ OrderRow.subtotal o = parseFloat rt (Js.get orderData "subtotal")
        /\ OrderRow.delivery_fee o
           = parseFloat rt (Js.get orderData "delivery_fee")
        /\ OrderRow.total o = parseFloat rt (Js.get orderData "total")
        /\ (forall n, Js.get orderData "subtotal" = Js.Number n ->
              OrderRow.subtotal o = n)
        /\ (forall n, Js.get orderData "delivery_fee" = Js.Number n ->
              OrderRow.delivery_fee o = n)
        /\ (forall n, Js.get orderData "total" = Js.Number n ->
              OrderRow.total o = n))
  /\ (valid_order rt orderData ->
      rejects rt (remote w)
        (InsertOrder
           (orderService.order_body rt
              (OrderContext.order_request u orderData))) = None ->
      exists id w',
        OrderContext.createOrder rt orderData w = (Return id, w')).
Proof.
  split.
  - intros id w' Hrun.
    destruct (createOrder_returned rt w w' u orderData id Huser Hrun)
      as [Hid Hrem].
    exists (created_order rt u orderData (remote w)).
    rewrite Hrem, Hid. split; [reflexivity|]. split; [reflexivity|].
    cbn. repeat split; intros n ->; reflexivity.
  - intros Hvalid Haccept.
    destruct (createOrder_accepted rt w u orderData Huser Hvalid Haccept)
      as [w' [Hrun _]].
    eexists; eexists; exact Hrun.
Qed.

Lemma scenario_order_valid total :
  valid_order accepting (scenario_order total).
Proof.
  repeat split; try reflexivity;
    eexists; (split; [reflexivity | discriminate]).
Qed.

Lemma createOrder_stores_supplied_values_witness :
  let w := sample_world (Some alice) [] in
  exists id w' o,
    OrderContext.createOrder accepting (scenario_order 15) w
    = (Return id, w')
    /\ DB.orders (remote w') = [order1; order2; o]
    /\ OrderRow.id o = id
    /\ OrderRow.status o = "pending"
    /\ OrderRow.items o = scenario_items
    /\ OrderRow.subtotal o = Js.Fin 13
    /\ OrderRow.delivery_fee o = Js.Fin 2
    /\ OrderRow.total o = Js.Fin 15.
Proof.
  intros w.
  destruct (createOrder_stores_supplied_values accepting w alice
              (scenario_order 15) eq_refl) as [Hstored Hreturns].
  destruct (Hreturns (scenario_order_valid 15) eq_refl) as [id [w' Hrun]].
  destruct (Hstored id w' Hrun)
    as [o [Hdb [Hid [Hst [_ [Hit [_ [_ [_ [Hsub [Hfee Htot]]]]]]]]]]].
  exists id, w', o. split; [exact Hrun|]. split; [exact Hdb|].
  split; [exact Hid|]. split; [exact Hst|]. split; [exact Hit|].
  split; [exact (Hsub _ eq_refl)|].
  split; [exact (Hfee _ eq_refl) | exact (Htot _ eq_refl)].
Defined.

(** C5 as stated fails: an order of subtotal 13 and delivery fee 2 is
    created, without any error recorded, with the total 99 the caller
    supplied. *)
Lemma total_is_checked_counterexample :
  (let w := sample_world (Some alice) [] in
   let result := OrderContext.createOrder accepting (scenario_order 99) w in
   exists o,
     fst result = Return (OrderRow.id o)
     /\ In o (DB.orders (remote (snd result)))
     /\ OrderRow.subtotal o = Js.Fin 13
     /\ OrderRow.delivery_fee o = Js.Fin 2
     /\ OrderRow.total o = Js.Fin 99
     /\ OrderState.error (orderState (snd result)) = None)
  /\ ~ total_is_checked.
Proof.
  split.
  - eexists. split; [reflexivity|].
    split; [right; right; left; reflexivity|].
    repeat split.
  - intros H.
    assert (E : 99 == 13 + 2).
    { eapply (H accepting (sample_world (Some alice) []) _
                (scenario_order 99) _ 13 2 99); reflexivity. }
    discriminate E.
Qed.

Lemma get_other_key (key : string) (v : Js.value) (o : Js.object)
    (k : string) :
  key <> k -> Js.get ((key, v) :: o) k = Js.get o k.
Proof.
  intros H. cbn. destruct (String.eqb_spec key k); [contradiction|].
  reflexivity.
Qed.

(** C5 (amended).  The creation path checks only that restaurant, items,
    delivery address and phone are present.  Whatever value is supplied
    as [total], an input that passes those checks is created (when the
    store accepts the insert) and the stored total is that value after
    [parseFloat], with subtotal and delivery fee stored beside it as
    supplied: no comparison with [subtotal + delivery_fee] is made. *)
Theorem createOrder_total_as_supplied (rt : Runtime) (w : World)
    (u : User.t) (orderData : Js.object) (total : Js.value)
    (Huser : user w = Some u)
    (Hvalid : valid_order rt orderData)
    (Haccept :
       rejects rt (remote w)
         (InsertOrder
            (orderService.order_body rt
               (OrderContext.order_request u
                  (("total", total) :: orderData)))) = None) :
  let result :=
    OrderContext.createOrder rt (("total", total) :: orderData) w in
  exists o,
    fst result = Return (OrderRow.id o)
    /\ In o (DB.orders (remote (snd result)))
    /\ OrderRow.total o = parseFloat rt total
    /\ OrderRow.subtotal o = parseFloat rt (Js.get orderData "subtotal")
    /\ OrderRow.delivery_fee o
       = parseFloat rt (Js.get orderData "delivery_fee").
Proof.
  intros result. subst result.
  assert (Hvalid' : valid_order rt (("total", total) :: orderData)).
  { unfold valid_order in *.
    rewrite !get_other_key by discriminate. exact Hvalid. }
  destruct (createOrder_accepted rt w u _ Huser Hvalid' Haccept)
    as [w' [Hrun Hrem]].
  rewrite Hrun. cbn [fst snd]. rewrite Hrem.
  eexists. split; [reflexivity|].
  split; [cbn; apply in_or_app; right; left; reflexivity|].
  cbn. repeat split.
Qed.

Lemma createOrder_total_as_supplied_witness :
  let w := sample_world (Some alice) [] in
  let result :=
    OrderContext.createOrder accepting
      (("total", Js.Number (Js.Fin 99)) :: scenario_order 15) w in
  exists o,
    fst result = Return (OrderRow.id o)
    /\ In o (DB.orders (remote (snd result)))
    /\ OrderRow.total o = Js.Fin 99
    /\ OrderRow.subtotal o = Js.Fin 13
    /\ OrderRow.delivery_fee o = Js.Fin 2.
Proof.
  intros w result.
  exact (createOrder_total_as_supplied accepting w alice (scenario_order 15)
           (Js.Number (Js.Fin 99)) eq_refl (scenario_order_valid 15)
           eq_refl).
Defined.

(* ================================================================== *)
(** ** Validation before the write *)
(* ================================================================== *)

Lemma empty_field_missing v :
  empty_field v -> RestaurantContext.missing v = true.
Proof. intros [-> | [-> | [-> | ->]]]; reflexivity. Qed.

Lemma missing_field_missing rt v :
  missing_field v -> MenuContext.missing rt v = true.
Proof. intros [-> | [-> | ->]]; reflexivity. Qed.

Lemma negative_not_amount rt v :
  negative rt v -> RestaurantContext.not_amount rt v = true.
Proof.
  unfold negative, RestaurantContext.not_amount.
  intros ->. apply orb_true_r.
Qed.

Lemma non_positive_not_price rt v :
  non_positive rt v -> MenuContext.not_price rt v = true.
Proof.
  unfold non_positive, MenuContext.not_price.
  intros ->. apply orb_true_r.
Qed.

Lemma message_or_nonempty msg fallback :
  msg <> "" -> message_or (Js.Error msg) fallback = msg.
Proof.
  intros H. unfold message_or. cbn.
  destruct (String.eqb_spec msg ""); [contradiction | reflexivity].
Qed.

Lemma restaurant_messages_nonempty msg :
  In msg restaurant_messages -> msg <> "".
Proof.
  cbn. intros H.
  repeat (destruct H as [<- | H]; [discriminate|]). contradiction.
Qed.

Lemma menu_messages_nonempty msg :
  In msg menu_messages -> msg <> "".
Proof.
  cbn. intros H.
  repeat (destruct H as [<- | H]; [discriminate|]). contradiction.
Qed.

(** One turn of a required-fields loop: either this field stops the
    function with its message, or the loop goes on. *)
Ltac stops_here := eexists; split; [|reflexivity]; cbn; tauto.

Ltac required_field d f :=
  destruct (RestaurantContext.missing (Js.get d f)) eqn:?; [stops_here|].

Ltac required_item_field rt d f :=
  destruct (MenuContext.missing rt (Js.get d f)) eqn:?; [stops_here|].

(** The checks of [createRestaurant] stop an invalid input. *)
Lemma restaurant_validate_throws rt restaurantData w :
  invalid_restaurant rt restaurantData ->
  exists msg,
    In msg restaurant_messages
    /\ RestaurantContext.validate rt restaurantData w
       = (Throw (Js.Error msg), w).
Proof.
  intros Hbad.
  unfold RestaurantContext.validate, RestaurantContext.requiredFields,
    for_of, bind, throw_if, throw, ret.
  required_field restaurantData "name".
  required_field restaurantData "description".
  required_field restaurantData "town".
  required_field restaurantData "address".
  required_field restaurantData "phone".
  required_field restaurantData "delivery_time".
  required_field restaurantData "delivery_fee".
  required_field restaurantData "min_order".
  required_field restaurantData "categories".
  destruct (RestaurantContext.not_amount rt
              (Js.get restaurantData "delivery_fee")) eqn:Efee;
    [stops_here|].
  destruct (RestaurantContext.not_amount rt
              (Js.get restaurantData "min_order")) eqn:Emin;
    [stops_here|].
  exfalso.
  destruct Hbad as [H | [H | [field [Hin H]]]].
  - apply negative_not_amount in H. congruence.
  - apply negative_not_amount in H. congruence.
  - apply empty_field_missing in H.
    cbn in Hin.
    repeat (destruct Hin as [<- | Hin]; [congruence|]). contradiction.
Qed.

(** The checks of [addMenuItem] stop an invalid input. *)
Lemma menu_validate_throws rt itemData w :
  invalid_menu_item rt itemData ->
  exists msg,
    In msg menu_messages
    /\ MenuContext.validate rt itemData w = (Throw (Js.Error msg), w).
Proof.
  intros Hbad.
  unfold MenuContext.validate, MenuContext.requiredFields,
    for_of, bind, throw_if, throw, ret.
  required_item_field rt itemData "restaurant_id".
  required_item_field rt itemData "name".
  required_item_field rt itemData "description".
  required_item_field rt itemData "price".
  required_item_field rt itemData "category".
  destruct (MenuContext.not_price rt (Js.get itemData "price")) eqn:Eprice;
    [stops_here|].
  exfalso.
  destruct Hbad as [H | [field [Hin H]]].
  - apply non_positive_not_price in H. congruence.
  - apply (missing_field_missing rt) in H.
    cbn in Hin.
    repeat (destruct Hin as [<- | Hin]; [congruence|]). contradiction.
Qed.

(** C6.  A restaurant input with a negative delivery fee, a negative
    minimum order or an empty required field makes [createRestaurant]
    throw with the request log and the store untouched, the error being
    one of the validation messages when a user is signed in; a menu-item
    input with a non-positive price or a missing required field makes
    [addMenuItem] throw one of its validation messages, again with the
    request log and the store untouched. *)
Theorem invalid_input_throws_before_write (rt : Runtime) (w : World)
    (restaurantData itemData : Js.object)
    (Hrestaurant : invalid_restaurant rt restaurantData)
    (Hitem : invalid_menu_item rt itemData) :
  (exists msg w',
      RestaurantContext.createRestaurant rt restaurantData w
      = (Throw (Js.Error msg), w')
      /\ requests w' = requests w
      /\ remote w' = remote w
      /\ (user w <> None ->
            In msg restaurant_messages
            /\ RestaurantState.error (restaurantState w') = Some msg))
  /\ (exists msg w',
        MenuContext.addMenuItem rt itemData w = (Throw (Js.Error msg), w')
        /\ requests w' = requests w
        /\ remote w' = remote w
        /\ In msg menu_messages
        /\ MenuState.error (menuState w') = Some msg).
Proof.
  split.
  - unfold RestaurantContext.createRestaurant, bind at 1, gets at 1.
    destruct (user w) as [u|].
    + unfold try_finally, try_catch, bind, RestaurantContext.setLoading,
        RestaurantContext.setError, modify, throw.
      cbv beta iota.
      match goal with
      | |- context [RestaurantContext.validate rt restaurantData ?W] =>
          destruct (restaurant_validate_throws rt restaurantData W
                      Hrestaurant) as [msg [Hmsg Hrun]]
      end.
      rewrite Hrun. cbv beta iota.
      rewrite (message_or_nonempty _ _
                 (restaurant_messages_nonempty _ Hmsg)).
      eexists; eexists. split; [reflexivity|].
      repeat split. exact Hmsg.
    + eexists; eexists. split; [reflexivity|].
      split; [reflexivity|]. split; [reflexivity|]. congruence.
  - unfold MenuContext.addMenuItem, try_finally, try_catch, bind,
      MenuContext.setLoading, MenuContext.setError, modify, throw.
    cbv beta iota.
    match goal with
    | |- context [MenuContext.validate rt itemData ?W] =>
        destruct (menu_validate_throws rt itemData W Hitem)
          as [msg [Hmsg Hrun]]
    end.
    rewrite Hrun. cbv beta iota.
    rewrite (message_or_nonempty _ _ (menu_messages_nonempty _ Hmsg)).
    eexists; eexists. split; [reflexivity|].
    repeat split. exact Hmsg.
Qed.

Lemma invalid_input_throws_before_write_witness :
  let w := sample_world (Some alice) [] in
  (exists w',
      RestaurantContext.createRestaurant accepting negative_fee_bistro w
      = (Throw (Js.Error "Valid delivery fee is required"), w')
      /\ requests w' = [] /\ remote w' = remote w)
  /\ (exists w',
        MenuContext.addMenuItem accepting negative_price_ndole w
        = (Throw (Js.Error "Valid item price is required"), w')
        /\ requests w' = [] /\ remote w' = remote w).
Proof.
  intros w.
  assert (Hr : invalid_restaurant accepting negative_fee_bistro)
    by (left; reflexivity).
  assert (Hi : invalid_menu_item accepting negative_price_ndole)
    by (left; reflexivity).
  destruct (invalid_input_throws_before_write accepting w negative_fee_bistro
              negative_price_ndole Hr Hi)
    as [[m1 [w1 [E1 [L1 [D1 _]]]]] [m2 [w2 [E2 [L2 [D2 _]]]]]].
  split.
  - exists w1. split; [|split; assumption].
    rewrite E1. vm_compute in E1. injection E1 as <- _. reflexivity.
  - exists w2. split; [|split; assumption].
    rewrite E2. vm_compute in E2. injection E2 as <- _. reflexivity.
Defined.

(* ================================================================== *)
(** ** Login *)
(* ================================================================== *)

(** C10.  When the store answers the user query, [authService.login]
    throws an error with the message "Invalid credentials" both when no
    user has the email and when the user's password does not verify: the
    two failures throw the same error. *)
Theorem login_invalid_credentials (rt : Runtime) (w : World)
    (email password : string)
    (Hanswer : rejects rt (remote w) (SelectUserByEmail email) = None)
    (Hfail : unknown_email (remote w) email
             \/ wrong_password rt (remote w) email password) :
  fst (authService.login rt email password w)
  = Throw (Js.Error "Invalid credentials").
Proof.
  unfold authService.login, bind, Store.send, Store.select_user_by_email.
  rewrite Hanswer.
  destruct Hfail as [Hnone | [row [Hone Hbad]]].
  - unfold unknown_email in Hnone. rewrite Hnone. reflexivity.
  - rewrite Hone. unfold Store.reached. cbn [filter].
    destruct (hides rt (remote w) (SelectUserByEmail email)
                (UserRow.id row)); cbn; [|rewrite Hbad]; reflexivity.
Qed.

Lemma login_invalid_credentials_witness :
  let w := sample_world None [] in
  fst (authService.login accepting "nobody@example.com" "secret" w)
  = fst (authService.login accepting "alice@example.com" "guess" w)
  /\ fst (authService.login accepting "alice@example.com" "guess" w)
     = Throw (Js.Error "Invalid credentials").
Proof.
  intros w.
  assert (Hunknown :
    fst (authService.login accepting "nobody@example.com" "secret" w)
    = Throw (Js.Error "Invalid credentials")).
  { apply login_invalid_credentials; [reflexivity | left; reflexivity]. }
  assert (Hwrong :
    fst (authService.login accepting "alice@example.com" "guess" w)
    = Throw (Js.Error "Invalid credentials")).
  { apply login_invalid_credentials; [reflexivity|].
    right. exists alice_row. split; reflexivity. }
  split; [rewrite Hunknown, Hwrong; reflexivity | exact Hwrong].
Defined.

Example login_succeeds :
  fst (authService.login accepting "alice@example.com" "secret"
         (sample_world None []))
  = Return alice.
Proof. reflexivity. Qed.

(* ================================================================== *)
(** ** The INSERT policy of [reviews] *)
(* ================================================================== *)

Lemma references_In key ids k :
  key = Some k -> In k ids -> Schema.references key ids = true.
Proof.
  intros -> Hin. cbn. apply existsb_exists.
  exists k. split; [exact Hin | apply String.eqb_refl].
Qed.

Lemma is_true_and a b :
  Schema.is_true (Schema.sql_and a b) = true <->
  Schema.is_true a = true /\ Schema.is_true b = true.
Proof.
  destruct a as [[|]|], b as [[|]|]; cbn; intuition discriminate.
Qed.

Lemma is_true_eq a b :
  Schema.is_true (Schema.sql_eq a b) = true <->
  exists x, a = Some x /\ b = Some x.
Proof.
  destruct a as [x|], b as [y|]; cbn;
    try (split; [discriminate | intros [z [H1 H2]]; discriminate]).
  destruct (String.eqb_spec x y) as [<-|Hne]; cbn.
  - split; [intros _; exists x; split; reflexivity | reflexivity].
  - split; [discriminate|].
    intros [z [H1 H2]]. congruence.
Qed.

Lemma own_delivered_order_iff uid new o :
  Schema.is_true (Schema.own_delivered_order uid new o) = true <->
  Schema.order_id new = Some (Schema.o_id o)
  /\ Schema.o_customer_id o = uid
  /\ uid <> None
  /\ Schema.o_status o = "delivered".
Proof.
  unfold Schema.own_delivered_order.
  rewrite !is_true_and, !is_true_eq. split.
  - intros [[[x [H1 H2]] [y [H3 H4]]] [z [H5 H6]]].
    repeat split; congruence.
  - intros [H1 [H2 [H3 H4]]]. repeat split.
    + exists (Schema.o_id o). split; [reflexivity | exact H1].
    + destruct uid as [c|]; [|contradiction].
      exists c. split; [exact H2 | reflexivity].
    + exists "delivered". split; [rewrite H4|]; reflexivity.
Qed.

Lemma policy_allows_iff uid d new :
  Schema.policy_allows uid d new = true <->
  exists c,
    uid = Some c
    /\ Schema.customer_id new = Some c
    /\ exists o, In o (Schema.orders d)
                 /\ Schema.order_id new = Some (Schema.o_id o)
                 /\ Schema.o_customer_id o = Some c
                 /\ Schema.o_status o = "delivered".
Proof.
  unfold Schema.policy_allows, Schema.with_check.
  destruct uid as [c|].
  2:{ split; [discriminate | intros [c [H _]]; discriminate]. }
  rewrite is_true_and, is_true_eq. cbn [Schema.is_true].
  split.
  - intros [[x [Hx Hc]] Hex]. injection Hx as <-.
    destruct (existsb _ (Schema.orders d)) eqn:Ex; [|discriminate].
    apply existsb_exists in Ex. destruct Ex as [o [Hin Ho]].
    apply own_delivered_order_iff in Ho. destruct Ho as [H1 [H2 [_ H4]]].
    exists c. split; [reflexivity|]. split; [exact Hc|].
    exists o. repeat split; assumption.
  - intros [c' [Hc' [Hc [o [Hin [H1 [H2 H4]]]]]]]. injection Hc' as <-.
    split; [exists c; split; [reflexivity | exact Hc]|].
    replace (existsb _ (Schema.orders d)) with true; [reflexivity|].
    symmetry. apply existsb_exists. exists o. split; [exact Hin|].
    apply own_delivered_order_iff. repeat split; try assumption.
    discriminate.
Qed.

Lemma rating_checks_iff new :
  Schema.rating_not_null new = true /\ Schema.rating_check new = true <->
  exists z, Schema.rating new = Some z /\ (1 <= z <= 5)%Z.
Proof.
  unfold Schema.rating_not_null, Schema.rating_check.
  destruct (Schema.rating new) as [z|]; cbn.
  - split.
    + intros [_ H]. exists z. split; [reflexivity|].
      destruct (Z.leb_spec 1 z); destruct (Z.leb_spec z 5);
        cbn in H; try discriminate; lia.
    + intros [z' [E Hz]]. injection E as <-. split; [reflexivity|].
      destruct (Z.leb_spec 1 z); destruct (Z.leb_spec z 5);
        cbn; try reflexivity; lia.
  - split; [intros [H _]; discriminate | intros [z [H _]]; discriminate].
Qed.

Lemma permitted_iff uid d new :
  Schema.permitted uid d new = true <->
  Schema.policy_allows uid d new = true
  /\ Schema.rating_not_null new = true
  /\ Schema.rating_check new = true
  /\ Schema.foreign_keys d new = true.
Proof.
  unfold Schema.permitted, Schema.insert_review.
  destruct (Schema.policy_allows uid d new),
    (Schema.rating_not_null new), (Schema.rating_check new),
    (Schema.foreign_keys d new); cbn; intuition discriminate.
Qed.

Lemma one_user_consistent : Schema.consistent one_user.
Proof.
  intros o [<- | []]. repeat split.
Qed.

(** C8 as stated fails: Alice reviews her delivered order with 4 stars
    but names a restaurant that is not in the store; the four conditions
    hold and the insert is refused by the reference
    [restaurant_id -> restaurants(id)]. *)
Lemma permitted_iff_conditions_counterexample :
  Schema.consistent one_user
  /\ review_conditions (Some "u-alice") one_user
       dangling_review
  /\ Schema.insert_review (Some "u-alice") one_user
       dangling_review
     = Schema.ForeignKeyViolation
  /\ ~ permitted_iff_conditions.
Proof.
  assert (Hc : review_conditions (Some "u-alice")
                 one_user dangling_review).
  { exists "u-alice". split; [reflexivity|]. split; [reflexivity|]. split.
    - eexists. split; [left; reflexivity|]. repeat split.
    - exists 4%Z. split; [reflexivity | lia]. }
  split; [exact one_user_consistent|]. split; [exact Hc|].
  split; [reflexivity|].
  intros H.
  apply (H _ _ _ one_user_consistent) in Hc. discriminate Hc.
Qed.

(** C8 (amended).  In a store whose orders reference existing users, an
    insert into [reviews] is permitted if and only if the requester is
    the review's customer, the referenced order belongs to that customer
    and has status "delivered", the rating is between 1 and 5, and the
    review's [restaurant_id] is null or references an existing
    restaurant.  In particular a request that violates one of the first
    four conditions is rejected. *)
Theorem review_insert_permitted_iff (uid : Schema.actor)
    (d : Schema.database) (new : Schema.reviews_row)
    (Hd : Schema.consistent d) :
  Schema.permitted uid d new = true <->
  review_conditions uid d new
  /\ Schema.references (Schema.restaurant_id new) (Schema.restaurants d)
     = true.
Proof.
  rewrite permitted_iff, policy_allows_iff. unfold review_conditions.
  split.
  - intros [[c [Hu [Hc Ho]]] [Hn [Hr Hfk]]].
    split.
    + exists c. split; [exact Hu|]. split; [exact Hc|]. split; [exact Ho|].
      apply rating_checks_iff. split; assumption.
    + unfold Schema.foreign_keys in Hfk.
      apply andb_prop in Hfk. destruct Hfk as [Hfk _].
      apply andb_prop in Hfk. destruct Hfk as [Hfk _]. exact Hfk.
  - intros [[c [Hu [Hc [Ho Hz]]]] Hrest].
    apply rating_checks_iff in Hz. destruct Hz as [Hn Hr].
    split; [exists c; repeat split; assumption|].
    split; [exact Hn|]. split; [exact Hr|].
    destruct Ho as [o [Hin [Hoid [Hoc Hst]]]].
    unfold Schema.foreign_keys. rewrite Hrest. cbn [andb].
    apply andb_true_intro. split.
    + rewrite Hc, <- Hoc. apply (Hd o Hin).
    + apply (references_In _ _ (Schema.o_id o)); [exact Hoid|].
      apply in_map. exact Hin.
Qed.

Lemma review_insert_permitted_iff_witness :
  Schema.consistent one_user
  /\ Schema.insert_review (Some "u-alice") one_user
       good_review = Schema.Inserted
  /\ (Schema.permitted (Some "u-alice") one_user
        good_review = true <->
      review_conditions (Some "u-alice") one_user
        good_review
      /\ Schema.references (Schema.restaurant_id good_review)
           (Schema.restaurants one_user) = true).
Proof.
  split; [exact one_user_consistent|]. split; [reflexivity|].
  exact (review_insert_permitted_iff (Some "u-alice") one_user
           good_review one_user_consistent).
Defined.

(** Rejections the four conditions predict. *)
Example review_by_another_user :
  Schema.insert_review (Some "u-eve") one_user
    good_review = Schema.PolicyViolation.
Proof. reflexivity. Qed.

Example review_with_six_stars :
  Schema.insert_review (Some "u-alice") one_user
    (Schema.mkReview (Some "r-bistro") (Some "u-alice") (Some "o-1")
                     (Some 6%Z) None)
  = Schema.CheckViolation.
Proof. reflexivity. Qed.

Example review_of_undelivered_order :
  Schema.insert_review (Some "u-alice")
    (Schema.mkDatabase ["u-alice"] ["r-bistro"]
       [ Schema.mkOrder "o-1" (Some "u-alice") (Some "r-bistro") None
           "ready" ])
    good_review
  = Schema.PolicyViolation.
Proof. reflexivity. Qed.

(* ================================================================== *)
(** ** Fetching into the containers *)
(* ================================================================== *)

Lemma In_insert_sorted {A} (leb : A -> A -> bool) (x y : A) (l : list A) :
  In x (Store.insert_sorted leb y l) <-> x = y \/ In x l.
Proof.
  induction l as [|z l IH]; cbn.
  - intuition congruence.
  - destruct (leb y z); cbn; [intuition congruence|].
    rewrite IH. intuition congruence.
Qed.

Lemma In_order_by {A} (leb : A -> A -> bool) (x : A) (l : list A) :
  In x (Store.order_by leb l) <-> In x l.
Proof.
  unfold Store.order_by. induction l as [|y l IH]; cbn; [reflexivity|].
  rewrite In_insert_sorted, IH. intuition congruence.
Qed.

Lemma In_newest_first {A} rt (key : A -> timestamp) (x : A) (l : list A) :
  In x (Store.newest_first rt key l) <-> In x l.
Proof. apply In_order_by. Qed.

Lemma length_insert_sorted {A} (leb : A -> A -> bool) (y : A) (l : list A) :
  length (Store.insert_sorted leb y l) = S (length l).
Proof.
  induction l as [|z l IH]; cbn; [reflexivity|].
  destruct (leb y z); cbn; [reflexivity | rewrite IH; reflexivity].
Qed.

Lemma Permutation_insert_sorted {A} (leb : A -> A -> bool) (y : A)
    (l : list A) :
  Permutation (Store.insert_sorted leb y l) (y :: l).
Proof.
  induction l as [|z l IH]; cbn; [apply Permutation_refl|].
  destruct (leb y z); [apply Permutation_refl|].
  apply Permutation_trans with (z :: y :: l);
    [apply perm_skip; exact IH | apply perm_swap].
Qed.

(** Ordering moves the rows and neither drops nor repeats one. *)
Lemma Permutation_order_by {A} (leb : A -> A -> bool) (l : list A) :
  Permutation (Store.order_by leb l) l.
Proof.
  unfold Store.order_by. induction l as [|y l IH]; cbn;
    [apply Permutation_refl|].
  apply Permutation_trans with (y :: fold_right (Store.insert_sorted leb)
                                       [] l);
    [apply Permutation_insert_sorted | apply perm_skip; exact IH].
Qed.

Lemma length_order_by {A} (leb : A -> A -> bool) (l : list A) :
  length (Store.order_by leb l) = length l.
Proof.
  unfold Store.order_by. induction l as [|y l IH]; cbn; [reflexivity|].
  rewrite length_insert_sorted, IH. reflexivity.
Qed.

(** What [getAgentOrders] does for a signed-in user, by the store's
    answer. *)
Lemma getAgentOrders_run rt w u :
  user w = Some u ->
  OrderProvider.getAgentOrders rt w
  = (Return tt,
     with_orderState
       (match rejects rt (remote w) (SelectOrdersByDriver (User.id u)) with
        | Some _ => OrderState.Build [] false (Some "Failed to load orders")
        | None =>
            OrderState.Build
              (Store.newest_first rt Store.created_at_of
                 (map (Store.embed_restaurant rt
                         (SelectOrdersByDriver (User.id u)) (remote w))
                    (Store.reached rt (SelectOrdersByDriver (User.id u))
                       OrderRow.id (remote w)
                       (filter (Store.driver_is (User.id u))
                          (DB.orders (remote w))))))
              false None
        end)
       (log_request (SelectOrdersByDriver (User.id u)) w)).
Proof.
  intros Hu.
  unfold OrderProvider.getAgentOrders, orderService.getDriverOrders,
    OrderContext.setLoading, OrderContext.setError, OrderContext.setOrders,
    Store.send, Store.select_orders_by_driver,
    bind, gets, modify, try_catch, try_finally, throw_error, throw, ret.
  rewrite Hu. cbn.
  destruct (rejects rt (remote w) _); reflexivity.
Qed.

Lemma In_reached {A} rt req (id : A -> uuid) d (l : list A) (x : A) :
  In x (Store.reached rt req id d l) <->
  In x l /\ hides rt d req (id x) = false.
Proof.
  unfold Store.reached. rewrite filter_In.
  destruct (hides rt d req (id x)); cbn; intuition congruence.
Qed.

(** X1.  For a signed-in driver [getAgentOrders] never throws, sends one
    query and does not change the store.  When the store answers, the
    cached list holds exactly the stored orders whose [driver_id] is the
    user's id and which no policy keeps from the query (each as often as
    it is stored, with its restaurant embedded, or null for a restaurant
    kept from the query), loading is off and the error is cleared; when
    the store refuses, the cached list is emptied and the error reads
    "Failed to load orders". *)
Theorem getAgentOrders_loads_own_deliveries (rt : Runtime) (w : World)
    (u : User.t) (Huser : user w = Some u) :
  let query := SelectOrdersByDriver (User.id u) in
  let result := OrderProvider.getAgentOrders rt w in
  let s := orderState (snd result) in
  fst result = Return tt
  /\ remote (snd result) = remote w
  /\ requests (snd result) = (requests w ++ [query])%list
  /\ OrderState.loading s = false
  /\ (rejects rt (remote w) query = None ->
      OrderState.error s = None
      /\ Permutation (OrderState.orders s)
           (map (Store.embed_restaurant rt query (remote w))
              (Store.reached rt query OrderRow.id (remote w)
                 (filter (Store.driver_is (User.id u))
                    (DB.orders (remote w)))))
      /\ forall c,
           In c (OrderState.orders s) <->
           exists o,
             In o (DB.orders (remote w))
             /\ OrderRow.driver_id o = Some (User.id u)
             /\ hides rt (remote w) query (OrderRow.id o) = false
             /\ c = Store.embed_restaurant rt query (remote w) o)
  /\ (rejects rt (remote w) query <> None ->
      OrderState.error s = Some "Failed to load orders"
      /\ OrderState.orders s = []).
Proof.
  intros query result s. subst s result.
  rewrite (getAgentOrders_run rt w u Huser). fold query.
  destruct (rejects rt (remote w) query) as [e|];
    cbn [fst snd remote requests log_request with_orderState orderState
         OrderState.loading OrderState.error OrderState.orders];
    repeat (split; [reflexivity|]).
  - split; [intros H; discriminate | intros _; split; reflexivity].
  - split; [|intros H; contradiction]. intros _.
    split; [reflexivity|]. split.
    + unfold Store.newest_first. apply Permutation_order_by.
    + intros c. rewrite In_newest_first, in_map_iff. split.
      * intros [o [<- Hin]]. apply In_reached in Hin.
        destruct Hin as [Hin Hshown]. apply filter_In in Hin.
        destruct Hin as [Hin Hd]. exists o. split; [exact Hin|].
        split; [|split; [exact Hshown | reflexivity]].
        unfold Store.driver_is in Hd.
        destruct (OrderRow.driver_id o) as [x|]; [|discriminate].
        apply String.eqb_eq in Hd. subst x. reflexivity.
      * intros [o [Hin [Hd [Hshown ->]]]]. exists o.
        split; [reflexivity|]. apply In_reached. split; [|exact Hshown].
        apply filter_In. split; [exact Hin|].
        unfold Store.driver_is. rewrite Hd. apply String.eqb_refl.
Qed.

Lemma getAgentOrders_loads_own_deliveries_witness :
  let w := sample_world (Some eve) [] in
  let result := OrderProvider.getAgentOrders accepting w in
  fst result = Return tt
  /\ map (fun c => OrderRow.id (CachedOrder.row c))
         (OrderState.orders (orderState (snd result))) = ["o-2"]
  /\ length (OrderState.orders (orderState (snd result))) = 1%nat.
Proof.
  intros w result.
  destruct (getAgentOrders_loads_own_deliveries accepting w eve eq_refl)
    as [Hout [_ [_ [_ [Hok _]]]]].
  destruct (Hok eq_refl) as [_ [Hperm _]].
  split; [exact Hout|].
  split; [reflexivity | exact (Permutation_length Hperm)].
Defined.

(** With the key the client connects with, the same call caches
    nothing, and no error tells. *)
Example getAgentOrders_anonymous :
  let s := orderState
             (snd (OrderProvider.getAgentOrders anonymous
                     (sample_world (Some eve) []))) in
  OrderState.orders s = [] /\ OrderState.error s = None.
Proof. split; reflexivity. Qed.

Lemma getCustomerOrders_run rt w u :
  user w = Some u ->
  OrderContext.getCustomerOrders rt w
  = (Return tt,
     with_orderState
       (match rejects rt (remote w) (SelectOrdersByCustomer (User.id u)) with
        | Some _ => OrderState.Build [] false (Some "Failed to load orders")
        | None =>
            OrderState.Build
              (Store.newest_first rt Store.created_at_of
                 (map (Store.embed_restaurant rt
                         (SelectOrdersByCustomer (User.id u)) (remote w))
                    (Store.reached rt (SelectOrdersByCustomer (User.id u))
                       OrderRow.id (remote w)
                       (filter (fun o => Js.eqb (OrderRow.customer_id o)
                                                (Js.String (User.id u)))
                          (DB.orders (remote w))))))
              false None
        end)
       (log_request (SelectOrdersByCustomer (User.id u)) w)).
Proof.
  intros Hu.
  unfold OrderContext.getCustomerOrders, orderService.getMyOrders,
    OrderContext.setLoading, OrderContext.setError, OrderContext.setOrders,
    Store.send, Store.select_orders_by_customer,
    bind, gets, modify, try_catch, try_finally, throw_error, throw, ret.
  rewrite Hu. cbn.
  destruct (rejects rt (remote w) _); reflexivity.
Qed.

Lemma fetchRestaurants_run rt w :
  RestaurantContext.fetchRestaurants rt w
  = (Return tt,
     with_restaurantState
       (match rejects rt (remote w) SelectActiveRestaurants with
        | Some _ =>
            RestaurantState.Build []
              (RestaurantState.myRestaurant (restaurantState w)) false
              (Some "Failed to load restaurants")
        | None =>
            RestaurantState.Build
              (Store.newest_first rt RestaurantRow.created_at
                 (Store.reached rt SelectActiveRestaurants
                    RestaurantRow.id (remote w)
                    (filter RestaurantRow.is_active
                       (DB.restaurants (remote w)))))
              (RestaurantState.myRestaurant (restaurantState w)) false None
        end)
       (log_request SelectActiveRestaurants w)).
Proof.
  unfold RestaurantContext.fetchRestaurants,
    restaurantService.getRestaurants,
    RestaurantContext.setLoading, RestaurantContext.setError,
    RestaurantContext.setRestaurants,
    Store.send, Store.select_active_restaurants,
    bind, gets, modify, try_catch, try_finally, throw_error, throw, ret.
  cbn. destruct (rejects rt (remote w) _); reflexivity.
Qed.

Lemma fetchMyRestaurant_run rt w u :
  user w = Some u ->
  RestaurantContext.fetchMyRestaurant rt w
  = (Return tt,
     let s := restaurantState w in
     with_restaurantState
       (match error (my_restaurant_answer rt u (remote w)) with
        | Some _ =>
            RestaurantState.Build (RestaurantState.restaurants s) None
              (RestaurantState.loading s) (Some "Failed to load restaurant")
        | None =>
            RestaurantState.Build (RestaurantState.restaurants s)
              (data (my_restaurant_answer rt u (remote w)))
              (RestaurantState.loading s) None
        end)
       (log_request (SelectRestaurantByOwner (User.id u)) w)).
Proof.
  intros Hu.
  unfold RestaurantContext.fetchMyRestaurant,
    restaurantService.getMyRestaurant, my_restaurant_answer,
    RestaurantContext.setError, RestaurantContext.setMyRestaurant,
    Store.send, Store.select_restaurant_by_owner,
    bind, gets, modify, try_catch, throw_error, throw, ret.
  rewrite Hu. cbn.
  destruct (rejects rt (remote w) _); [reflexivity|].
  destruct (Store.reached rt _ _ _ _) as [|r [|r' l]]; reflexivity.
Qed.

Lemma fetchMenuItems_run rt w restaurantId :
  MenuContext.fetchMenuItems rt restaurantId w
  = (Return tt,
     with_menuState
       (match rejects rt (remote w) (SelectMenuItems restaurantId) with
        | Some _ => MenuState.Build [] false (Some "Failed to load menu items")
        | None =>
            MenuState.Build
              (Store.order_by
                 (fun x y => text_leb rt (MenuItemRow.category x)
                                         (MenuItemRow.category y))
                 (Store.reached rt (SelectMenuItems restaurantId)
                    MenuItemRow.id (remote w)
                    (filter (fun m => Js.eqb (MenuItemRow.restaurant_id m)
                                             restaurantId)
                       (DB.menu_items (remote w)))))
              false None
        end)
       (log_request (SelectMenuItems restaurantId) w)).
Proof.
  unfold MenuContext.fetchMenuItems, menuService.getMenuItems,
    MenuContext.setLoading, MenuContext.setError, MenuContext.setMenuItems,
    Store.send, Store.select_menu_items,
    bind, gets, modify, try_catch, try_finally, throw_error, throw, ret.
  cbn. destruct (rejects rt (remote w) _); reflexivity.
Qed.

(** X2.  No fetch of a container throws or changes the store, whatever
    the store answers and whether or not a user is signed in; the two
    fetches without a sign-in guard end with loading switched off, and
    [getMenuByRestaurant] leaves the container's state alone. *)
Theorem fetches_never_throw (rt : Runtime) (w : World)
    (restaurantId : Js.value) :
  (fst (OrderContext.getCustomerOrders rt w) = Return tt
   /\ remote (snd (OrderContext.getCustomerOrders rt w)) = remote w)
  /\ (fst (OrderProvider.getAgentOrders rt w) = Return tt
      /\ remote (snd (OrderProvider.getAgentOrders rt w)) = remote w)
  /\ (fst (RestaurantContext.fetchMyRestaurant rt w) = Return tt
      /\ remote (snd (RestaurantContext.fetchMyRestaurant rt w)) = remote w)
  /\ (fst (RestaurantContext.fetchRestaurants rt w) = Return tt
      /\ remote (snd (RestaurantContext.fetchRestaurants rt w)) = remote w
      /\ RestaurantState.loading
           (restaurantState (snd (RestaurantContext.fetchRestaurants rt w)))
         = false)
  /\ (fst (MenuContext.fetchMenuItems rt restaurantId w) = Return tt
      /\ remote (snd (MenuContext.fetchMenuItems rt restaurantId w))
         = remote w
      /\ MenuState.loading
           (menuState (snd (MenuContext.fetchMenuItems rt restaurantId w)))
         = false)
  /\ (exists items,
        fst (MenuProvider.getMenuByRestaurant rt restaurantId w)
        = Return items
        /\ (rejects rt (remote w) (SelectMenuItems restaurantId) <> None ->
            items = [])
        /\ remote (snd (MenuProvider.getMenuByRestaurant rt restaurantId w))
           = remote w
        /\ menuState (snd (MenuProvider.getMenuByRestaurant rt
                             restaurantId w))
           = menuState w).
Proof.
  split; [apply getCustomerOrders_quiet|].
  split.
  { destruct (user w) as [u|] eqn:Hu.
    - rewrite (getAgentOrders_run rt w u Hu). split; reflexivity.
    - unfold OrderProvider.getAgentOrders, bind, gets. rewrite Hu.
      split; reflexivity. }
  split.
  { destruct (user w) as [u|] eqn:Hu.
    - rewrite (fetchMyRestaurant_run rt w u Hu). split; reflexivity.
    - unfold RestaurantContext.fetchMyRestaurant, bind, gets. rewrite Hu.
      split; reflexivity. }
  split.
  { rewrite fetchRestaurants_run.
    destruct (rejects rt (remote w) _); repeat split. }
  split.
  { rewrite fetchMenuItems_run.
    destruct (rejects rt (remote w) _); repeat split. }
  unfold MenuProvider.getMenuByRestaurant, menuService.getMenuItems,
    Store.send, Store.select_menu_items,
    bind, try_catch, throw_error, throw, ret.
  destruct (rejects rt (remote w) _); cbn; eexists;
    (split; [reflexivity|]); repeat split; congruence.
Qed.

(** X3.  [fetchRestaurants] caches exactly the active restaurants of the
    store that no policy keeps from the query, each as often as it is
    stored, when the store answers; when it refuses, the list is emptied
    and the error reads "Failed to load restaurants".  The user's own
    restaurant cell is not touched. *)
Theorem fetchRestaurants_caches_active (rt : Runtime) (w : World) :
  let s := restaurantState (snd (RestaurantContext.fetchRestaurants rt w)) in
  RestaurantState.myRestaurant s
  = RestaurantState.myRestaurant (restaurantState w)
  /\ (rejects rt (remote w) SelectActiveRestaurants = None ->
      RestaurantState.error s = None
      /\ Permutation (RestaurantState.restaurants s)
           (Store.reached rt SelectActiveRestaurants
              RestaurantRow.id (remote w)
              (filter RestaurantRow.is_active (DB.restaurants (remote w))))
      /\ forall r,
           In r (RestaurantState.restaurants s) <->
           In r (DB.restaurants (remote w))
           /\ RestaurantRow.is_active r = true
           /\ hides rt (remote w) SelectActiveRestaurants
                (RestaurantRow.id r) = false)
  /\ (rejects rt (remote w) SelectActiveRestaurants <> None ->
      RestaurantState.restaurants s = []
      /\ RestaurantState.error s = Some "Failed to load restaurants").
Proof.
  intros s. subst s. rewrite fetchRestaurants_run.
  destruct (rejects rt (remote w) SelectActiveRestaurants) as [e|];
    cbn [snd restaurantState with_restaurantState
         RestaurantState.myRestaurant RestaurantState.error
         RestaurantState.restaurants].
  - split; [reflexivity|].
    split; [intros H; discriminate | intros _; split; reflexivity].
  - split; [reflexivity|]. split; [|intros H; contradiction].
    intros _. split; [reflexivity|]. split.
    + unfold Store.newest_first. apply Permutation_order_by.
    + intros r. rewrite In_newest_first, In_reached, filter_In. tauto.
Qed.

(** X4.  For a signed-in owner whose query the store answers,
    [fetchMyRestaurant] goes by the restaurants of that user which the
    query reaches: it sets the owner's cell to the restaurant when there
    is exactly one and to null when there is none; when there are
    several the cell is null and the error reads "Failed to load
    restaurant". *)
Theorem fetchMyRestaurant_by_count (rt : Runtime) (w : World) (u : User.t)
    (Huser : user w = Some u)
    (Hanswer :
       rejects rt (remote w) (SelectRestaurantByOwner (User.id u)) = None) :
  let mine :=
    Store.reached rt (SelectRestaurantByOwner (User.id u))
      RestaurantRow.id (remote w)
      (filter (fun r => String.eqb (RestaurantRow.user_id r) (User.id u))
              (DB.restaurants (remote w))) in
  let s := restaurantState (snd (RestaurantContext.fetchMyRestaurant rt w)) in
  (mine = [] ->
     RestaurantState.myRestaurant s = None
     /\ RestaurantState.error s = None)
  /\ (forall r, mine = [r] ->
        RestaurantState.myRestaurant s = Some r
        /\ RestaurantState.error s = None)
  /\ ((2 <= length mine)%nat ->
      RestaurantState.myRestaurant s = None
      /\ RestaurantState.error s = Some "Failed to load restaurant").
Proof.
  intros mine s. subst s.
  rewrite (fetchMyRestaurant_run rt w u Huser).
  unfold my_restaurant_answer. rewrite Hanswer. fold mine.
  destruct mine as [|r [|r' l]]; cbn.
  - split; [intros _; split; reflexivity|].
    split; [intros r H; discriminate | intros H; lia].
  - split; [intros H; discriminate|].
    split; [intros r0 H; injection H as <-; split; reflexivity|].
    intros H; lia.
  - split; [intros H; discriminate|].
    split; [intros r0 H; discriminate | intros _; split; reflexivity].
Qed.

Lemma fetchMyRestaurant_by_count_witness :
  let w := sample_world (Some owner) [] in
  let s := restaurantState
             (snd (RestaurantContext.fetchMyRestaurant accepting w)) in
  RestaurantState.myRestaurant (restaurantState w) = None
  /\ RestaurantState.myRestaurant s = Some bistro
  /\ RestaurantState.error s = None.
Proof.
  intros w s.
  destruct (fetchMyRestaurant_by_count accepting w owner eq_refl eq_refl)
    as [_ [Hone _]].
  split; [reflexivity|]. exact (Hone bistro eq_refl).
Defined.

(** With the key the client connects with, the owner's restaurant is
    kept from the query: the cell is null, and no error tells. *)
Example fetchMyRestaurant_anonymous :
  let s := restaurantState
             (snd (RestaurantContext.fetchMyRestaurant anonymous
                     (sample_world (Some owner) []))) in
  RestaurantState.myRestaurant s = None /\ RestaurantState.error s = None.
Proof. split; reflexivity. Qed.

(* ================================================================== *)
(** ** Order creation: the failing paths and the refresh *)
(* ================================================================== *)

Lemma join_nonempty (msg : string) (more : list string) :
  msg <> "" -> Js.join ", " (msg :: more) <> "".
Proof.
  intros H. unfold Js.join. cbn.
  destruct more; [exact H|].
  destruct msg; [contradiction | discriminate].
Qed.

(** The checks of [createOrder] on an input that is not valid: a
    non-empty list of messages, or a throw of [trim]. *)
Lemma order_errors_invalid rt orderData w :
  ~ valid_order rt orderData ->
  (exists msg more,
      OrderContext.order_errors rt orderData w = (Return (msg :: more), w)
      /\ Js.join ", " (msg :: more) <> "")
  \/ (exists msg,
        OrderContext.order_errors rt orderData w = (Throw (Js.Error msg), w)
        /\ msg <> "").
Proof.
  intros Hbad.
  unfold valid_order in Hbad.
  unfold OrderContext.order_errors, OrderContext.blank, OrderContext.push_if,
    bind, ret, throw.
  destruct (Js.truthy (Js.get orderData "restaurant_id")) eqn:Er;
    destruct (OrderContext.no_items (Js.get orderData "items")) eqn:Ei;
    destruct (Js.get orderData "delivery_address") as [| |b|n|a|l|p] eqn:Ea;
    destruct (Js.get orderData "customer_phone") as [| |b'|n'|a'|l'|p'] eqn:Ep;
    cbn;
    try (right; eexists; split; [reflexivity | discriminate]);
    try (destruct (String.eqb_spec (trim rt a) ""));
    try (destruct (String.eqb_spec (trim rt a') ""));
    cbn;
    try (left; eexists; eexists; split;
         [reflexivity | apply join_nonempty; discriminate]).
  exfalso. apply Hbad. repeat split; eauto.
Qed.

(** X5.  For a signed-in user an input that fails a presence check
    (restaurant, non-empty items array, non-blank delivery address and
    phone) makes [createOrder] throw an error with a non-empty message
    before anything is sent: request log, store and cached orders are as
    before, the message is recorded as the container's error and loading
    is switched off. *)
Theorem createOrder_invalid_sends_nothing (rt : Runtime) (w : World)
    (u : User.t) (orderData : Js.object)
    (Huser : user w = Some u)
    (Hbad : ~ valid_order rt orderData) :
  exists msg w',
    OrderContext.createOrder rt orderData w = (Throw (Js.Error msg), w')
    /\ msg <> ""
    /\ requests w' = requests w
    /\ remote w' = remote w
    /\ OrderState.orders (orderState w') = OrderState.orders (orderState w)
    /\ OrderState.error (orderState w') = Some msg
    /\ OrderState.loading (orderState w') = false.
Proof.
  unfold OrderContext.createOrder,
    OrderContext.setLoading, OrderContext.setError,
    bind, gets, modify, try_catch, try_finally, throw_if, ret, throw.
  cbv beta iota. rewrite Huser. cbv beta iota.
  match goal with
  | |- context [OrderContext.order_errors rt orderData ?W] =>
      destruct (order_errors_invalid rt orderData W Hbad)
        as [[m [more [Hrun Hmsg]]] | [m [Hrun Hmsg]]]
  end; rewrite Hrun; cbn [length Nat.eqb negb]; cbv beta iota;
    rewrite (message_or_nonempty _ _ Hmsg);
    eexists; eexists; (split; [reflexivity|]);
    (split; [exact Hmsg|]); repeat split.
Qed.

Lemma createOrder_invalid_sends_nothing_witness :
  let w := sample_world (Some alice) [] in
  exists w',
    OrderContext.createOrder accepting [] w
    = (Throw (Js.Error
         ("Restaurant is required, Order items are required, "
          ++ "Delivery address is required, Phone number is required")),
       w')
    /\ requests w' = []
    /\ remote w' = remote w.
Proof.
  intros w.
  assert (Hbad : ~ valid_order accepting []).
  { intros [H _]. discriminate H. }
  destruct (createOrder_invalid_sends_nothing accepting w alice [] eq_refl
              Hbad) as [msg [w' [Hrun [_ [Hreq [Hrem _]]]]]].
  exists w'. split; [|split; assumption].
  rewrite Hrun. vm_compute in Hrun. injection Hrun as <- _. reflexivity.
Defined.

(** X6.  When the input is valid and the store refuses the insert,
    [createOrder] throws an error carrying the store's message (or
    "Failed to create order" when that message is empty); the insert is
    the only request sent, the store and the cached orders are as
    before, the message is recorded and loading is switched off. *)
Theorem createOrder_refused (rt : Runtime) (w : World) (u : User.t)
    (orderData : Js.object) (e : Js.error)
    (Huser : user w = Some u)
    (Hvalid : valid_order rt orderData)
    (Hrefuse :
       rejects rt (remote w)
         (InsertOrder
            (orderService.order_body rt
               (OrderContext.order_request u orderData))) = Some e) :
  let msg := message_or e "Failed to create order" in
  exists w',
    OrderContext.createOrder rt orderData w = (Throw (Js.Error msg), w')
    /\ requests w'
       = (requests w
          ++ [InsertOrder
                (orderService.order_body rt
                   (OrderContext.order_request u orderData))])%list
    /\ remote w' = remote w
    /\ OrderState.orders (orderState w') = OrderState.orders (orderState w)
    /\ OrderState.error (orderState w') = Some msg
    /\ OrderState.loading (orderState w') = false.
Proof.
  intros msg. subst msg.
  unfold OrderContext.createOrder, orderService.createOrder,
    OrderContext.setLoading, OrderContext.setError,
    bind, gets, modify, try_catch, try_finally, throw_if, throw_error, ret,
    throw, Store.send, Store.insert_order.
  cbv beta iota. rewrite Huser. cbv beta iota.
  rewrite (order_errors_valid _ _ _ Hvalid). cbv beta iota.
  cbn [length Nat.eqb negb remote with_orderState log_request].
  rewrite Hrefuse. cbv beta iota. cbn [error data].
  eexists. split; [reflexivity|]. repeat split.
Qed.

Lemma createOrder_refused_witness :
  let w := sample_world (Some alice) [] in
  exists w',
    OrderContext.createOrder refusing (scenario_order 15) w
    = (Throw (Js.Error "permission denied"), w')
    /\ length (requests w') = 1%nat
    /\ remote w' = remote w
    /\ OrderState.error (orderState w') = Some "permission denied".
Proof.
  intros w.
  assert (Hv : valid_order refusing (scenario_order 15)).
  { repeat split; try reflexivity;
      eexists; (split; [reflexivity | discriminate]). }
  destruct (createOrder_refused refusing w alice (scenario_order 15)
              (Js.Error "permission denied") eq_refl Hv eq_refl)
    as [w' [Hrun [Hreq [Hrem [_ [Herr _]]]]]].
  exists w'. split; [exact Hrun|].
  split; [rewrite Hreq; reflexivity|]. split; [exact Hrem | exact Herr].
Defined.

Lemma eqb_String (v : Js.value) (s : string) :
  Js.eqb v (Js.String s) = true <-> v = Js.String s.
Proof.
  destruct v; cbn; try (split; [discriminate | discriminate]).
  rewrite String.eqb_eq. split; congruence.
Qed.

(** X7.  After a valid order is accepted, a user of role "customer" has
    the cached list replaced by the answer to one query for their
    orders: when the store answers it, the list holds exactly the
    stored orders of that customer which no policy keeps from the
    query, each as often as it is stored, the new one among them if it
    is not kept from the query; when the store refuses it, the list is
    emptied.  For any other role the cached list is left as it was and
    no query is sent. *)
Theorem createOrder_refreshes_customer (rt : Runtime) (w : World)
    (u : User.t) (orderData : Js.object)
    (Huser : user w = Some u)
    (Hvalid : valid_order rt orderData)
    (Haccept :
       rejects rt (remote w)
         (InsertOrder
            (orderService.order_body rt
               (OrderContext.order_request u orderData))) = None) :
  let insert :=
    InsertOrder
      (orderService.order_body rt (OrderContext.order_request u orderData)) in
  let query := SelectOrdersByCustomer (User.id u) in
  let o := created_order rt u orderData (remote w) in
  let d' :=
    Store.written rt
      (DB.with_orders (DB.orders (remote w) ++ [o]) (remote w)) in
  exists w',
    OrderContext.createOrder rt orderData w = (Return (OrderRow.id o), w')
    /\ remote w' = d'
    /\ (User.role u = "customer" ->
        requests w' = (requests w ++ [insert; query])%list
        /\ (rejects rt d' query = None ->
            Permutation (OrderState.orders (orderState w'))
              (map (Store.embed_restaurant rt query d')
                 (Store.reached rt query OrderRow.id d'
                    (filter (fun x => Js.eqb (OrderRow.customer_id x)
                                             (Js.String (User.id u)))
                            (DB.orders d'))))
            /\ (forall c,
                  In c (OrderState.orders (orderState w')) <->
                  exists x,
                    In x (DB.orders d')
                    /\ OrderRow.customer_id x = Js.String (User.id u)
                    /\ hides rt d' query (OrderRow.id x) = false
                    /\ c = Store.embed_restaurant rt query d' x)
            /\ (hides rt d' query (OrderRow.id o) = false ->
                In (Store.embed_restaurant rt query d' o)
                   (OrderState.orders (orderState w'))))
        /\ (rejects rt d' query <> None ->
            OrderState.orders (orderState w') = []))
    /\ (User.role u <> "customer" ->
        requests w' = (requests w ++ [insert])%list
        /\ OrderState.orders (orderState w')
           = OrderState.orders (orderState w)).
Proof.
  intros insert query o d'.
  unfold OrderContext.createOrder, orderService.createOrder,
    OrderContext.setLoading, OrderContext.setError,
    bind, gets, modify, try_catch, try_finally, throw_if, throw_error, ret,
    Store.send, Store.insert_order.
  cbv beta iota. rewrite Huser. cbv beta iota.
  rewrite (order_errors_valid _ _ _ Hvalid). cbv beta iota.
  cbn [length Nat.eqb negb remote with_orderState log_request].
  rewrite Haccept. cbv beta iota. cbn [error data].
  fold insert. fold (created_order rt u orderData (remote w)). fold o.
  fold d'.
  assert (Hcustomer : forall x,
    In x (Store.reached rt query OrderRow.id d'
            (filter (fun x => Js.eqb (OrderRow.customer_id x)
                                     (Js.String (User.id u)))
                    (DB.orders d')))
    <-> In x (DB.orders d')
        /\ OrderRow.customer_id x = Js.String (User.id u)
        /\ hides rt d' query (OrderRow.id x) = false).
  { intros x. rewrite In_reached, filter_In, eqb_String. tauto. }
  destruct (String.eqb_spec (User.role u) "customer") as [Hrole|Hrole].
  - match goal with
    | |- context [OrderContext.getCustomerOrders rt ?W] =>
        rewrite (getCustomerOrders_run rt W u Huser)
    end.
    cbn [remote with_remote with_orderState log_request]. fold query.
    eexists. split; [reflexivity|].
    split; [reflexivity|].
    split; [|intros H; contradiction]. intros _.
    split; [cbn; rewrite <- app_assoc; reflexivity|].
    split.
    + intros Hsel. rewrite Hsel.
      cbn [orderState with_orderState OrderState.orders].
      split; [|split].
      * unfold Store.newest_first. apply Permutation_order_by.
      * intros c. rewrite In_newest_first, in_map_iff. split.
        -- intros [x [<- Hx]]. apply Hcustomer in Hx.
           destruct Hx as [H1 [H2 H3]]. exists x. auto.
        -- intros [x [H1 [H2 [H3 ->]]]]. exists x.
           split; [reflexivity|]. apply Hcustomer. auto.
      * intros Hshown. apply In_newest_first. apply in_map.
        apply Hcustomer. split; [|split; [reflexivity | exact Hshown]].
        cbn. apply in_or_app; right; left; reflexivity.
    + intros Hsel.
      destruct (rejects rt d' query); [reflexivity | contradiction].
  - eexists. split; [reflexivity|]. split; [reflexivity|].
    split; [intros H; contradiction|]. intros _.
    split; reflexivity.
Qed.

Lemma createOrder_refreshes_customer_witness :
  let w := sample_world (Some alice) [] in
  exists w',
    OrderContext.createOrder accepting (scenario_order 15) w
    = (Return "row-ii", w')
    /\ map (fun c => OrderRow.id (CachedOrder.row c))
           (OrderState.orders (orderState w'))
       = ["row-ii"; "o-2"; "o-1"].
Proof.
  intros w.
  destruct (createOrder_refreshes_customer accepting w alice
              (scenario_order 15) eq_refl (scenario_order_valid 15) eq_refl)
    as [w' [Hrun _]].
  exists w'. split; [exact Hrun|].
  vm_compute in Hrun. injection Hrun as <-. reflexivity.
Defined.

(* ================================================================== *)
(** ** Accepting a delivery: failures, and the driver's list afterwards *)
(* ================================================================== *)

(** X8.  [acceptDelivery] without a signed-in user throws "User not
    authenticated" and touches nothing.  With a signed-in user whose
    update the store refuses, it throws the store's message (or "Failed
    to accept delivery" when that is empty), records it as the
    container's error and leaves the store and the cached orders as they
    were. *)
Theorem acceptDelivery_failures (rt : Runtime) (w : World)
    (orderId : uuid) :
  (user w = None ->
     OrderContext.acceptDelivery rt orderId w
     = (Throw (Js.Error "User not authenticated"), w))
  /\ (forall u e,
        user w = Some u ->
        rejects rt (remote w)
          (UpdateOrder orderId
             (OrderUpdate.Build "delivering"
                (orderService.given (Some (User.id u))))) = Some e ->
        let msg := message_or e "Failed to accept delivery" in
        exists w',
          OrderContext.acceptDelivery rt orderId w
          = (Throw (Js.Error msg), w')
          /\ remote w' = remote w
          /\ OrderState.orders (orderState w')
             = OrderState.orders (orderState w)
          /\ OrderState.error (orderState w') = Some msg).
Proof.
  split.
  - intros Hu. unfold OrderContext.acceptDelivery, bind, gets.
    rewrite Hu. reflexivity.
  - intros u e Hu Hrefuse msg. subst msg.
    unfold OrderContext.acceptDelivery, OrderContext.setError,
      OrderContext.setOrders, bind, gets, modify, try_catch, throw.
    cbv beta iota. rewrite Hu. cbv beta iota.
    rewrite updateOrderStatus_run.
    cbn [remote with_orderState]. rewrite Hrefuse.
    eexists. split; [reflexivity|]. repeat split.
Qed.

(** An accepted [acceptDelivery], step by step. *)
Lemma acceptDelivery_accepted rt w u orderId :
  user w = Some u ->
  User.id u <> "" ->
  rejects rt (remote w)
    (UpdateOrder orderId
       (OrderUpdate.Build "delivering" (Some (User.id u)))) = None ->
  exists w1,
    OrderContext.acceptDelivery rt orderId w = (Return tt, w1)
    /\ user w1 = Some u
    /\ remote w1
       = orders_updated rt orderId
           (OrderUpdate.Build "delivering" (Some (User.id u))) (remote w).
Proof.
  intros Hu Hid Hacc.
  rewrite (acceptDelivery_run rt w u orderId Hu Hid). cbv zeta.
  rewrite Hacc.
  eexists. split; [reflexivity|]. split; [exact Hu | reflexivity].
Qed.

(** X9.  Accept, then list.  A signed-in driver with a non-empty id
    accepts a stored order; the store answers the update and the
    following query without an error.  If the update reached the order
    and the query reaches it, [getAgentOrders] shows the order in the
    cached list with status "delivering" and the driver's id.  If a
    policy kept the order from the update, and the order was not that
    driver's before, [getAgentOrders] does not show it: the list
    [acceptDelivery] had patched is replaced by one without it. *)
Theorem accepted_delivery_is_listed (rt : Runtime) (w : World)
    (u : User.t) (o : OrderRow.t)
    (Huser : user w = Some u)
    (Hid : User.id u <> "")
    (Hin : In o (DB.orders (remote w)))
    (Haccept :
       rejects rt (remote w)
         (UpdateOrder (OrderRow.id o)
            (OrderUpdate.Build "delivering" (Some (User.id u)))) = None) :
  let update :=
    UpdateOrder (OrderRow.id o)
      (OrderUpdate.Build "delivering" (Some (User.id u))) in
  let query := SelectOrdersByDriver (User.id u) in
  let w1 := snd (OrderContext.acceptDelivery rt (OrderRow.id o) w) in
  let w2 := snd (OrderProvider.getAgentOrders rt w1) in
  rejects rt (remote w1) query = None ->
  (hides rt (remote w) update (OrderRow.id o) = false ->
   hides rt (remote w1) query (OrderRow.id o) = false ->
   exists c,
     In c (OrderState.orders (orderState w2))
     /\ OrderRow.id (CachedOrder.row c) = OrderRow.id o
     /\ OrderRow.status (CachedOrder.row c) = "delivering"
     /\ OrderRow.driver_id (CachedOrder.row c) = Some (User.id u))
  /\ (hides rt (remote w) update (OrderRow.id o) = true ->
      (forall x, In x (DB.orders (remote w)) ->
         OrderRow.id x = OrderRow.id o ->
         OrderRow.driver_id x <> Some (User.id u)) ->
      forall c, In c (OrderState.orders (orderState w2)) ->
        OrderRow.id (CachedOrder.row c) <> OrderRow.id o).
Proof.
  intros update query w1 w2 Hsel. subst w2.
  destruct (acceptDelivery_accepted rt w u (OrderRow.id o) Huser Hid Haccept)
    as [w1' [Hrun [Hu1 Hdb]]].
  assert (E : w1 = w1') by (subst w1; rewrite Hrun; reflexivity).
  clearbody w1. subst w1'.
  rewrite (getAgentOrders_run rt w1 u Hu1). fold query. rewrite Hsel.
  cbn [snd orderState with_orderState OrderState.orders].
  split.
  - intros Hreached Hshown.
    set (o' := OrderRow.with_status "delivering" (Some (User.id u))
                 (DB.now (remote w)) o).
    exists (Store.embed_restaurant rt query (remote w1) o').
    split; [|repeat split].
    apply In_newest_first. apply in_map. apply In_reached.
    split; [|exact Hshown]. apply filter_In. split.
    + rewrite Hdb.
      apply (orders_updated_reached rt (OrderRow.id o)
               (OrderUpdate.Build "delivering" (Some (User.id u)))
               (remote w) o Hin eq_refl Hreached).
    + unfold Store.driver_is. cbn. apply String.eqb_refl.
  - intros Hhidden Hnot c Hc Hsame.
    apply In_newest_first in Hc. apply in_map_iff in Hc.
    destruct Hc as [x [<- Hx]]. apply In_reached in Hx.
    destruct Hx as [Hx _]. apply filter_In in Hx. destruct Hx as [Hx Hd].
    rewrite Hdb, (orders_updated_hidden _ _ _ _ Hhidden) in Hx.
    apply (Hnot x Hx Hsame).
    unfold Store.driver_is in Hd.
    destruct (OrderRow.driver_id x) as [y|]; [|discriminate].
    apply String.eqb_eq in Hd. subst y. reflexivity.
Qed.

Lemma accepted_delivery_is_listed_witness :
  let w := sample_world (Some dan) [] in
  let w1 := snd (OrderContext.acceptDelivery accepting "o-1" w) in
  let w2 := snd (OrderProvider.getAgentOrders accepting w1) in
  exists c,
    In c (OrderState.orders (orderState w2))
    /\ OrderRow.id (CachedOrder.row c) = "o-1"
    /\ OrderRow.status (CachedOrder.row c) = "delivering"
    /\ OrderRow.driver_id (CachedOrder.row c) = Some "u-dan".
Proof.
  intros w w1 w2.
  assert (Hid : User.id dan <> "") by discriminate.
  exact (proj1 (accepted_delivery_is_listed accepting w dan order1 eq_refl
                  Hid (or_introl eq_refl) eq_refl eq_refl)
               eq_refl eq_refl).
Defined.

(** With the key the client connects with: the store answers both
    requests without an error, the order stays unassigned, and the list
    that showed it as accepted is replaced by an empty one. *)
Example accepted_delivery_not_listed :
  let w := sample_world (Some dan) [] in
  let w1 := snd (OrderContext.acceptDelivery anonymous "o-1" w) in
  let w2 := snd (OrderProvider.getAgentOrders anonymous w1) in
  OrderState.error (orderState w1) = None
  /\ map (fun c => OrderRow.status (CachedOrder.row c))
         (OrderState.orders (orderState w1)) = ["delivering"; "delivering"]
  /\ DB.orders (remote w1) = [order1; order2]
  /\ OrderState.error (orderState w2) = None
  /\ OrderState.orders (orderState w2) = [].
Proof. repeat split. Qed.

Example acceptDelivery_refused :
  let w := sample_world (Some dan) [] in
  let result := OrderContext.acceptDelivery refusing "o-1" w in
  fst result = Throw (Js.Error "permission denied")
  /\ OrderState.orders (orderState (snd result))
     = OrderState.orders (orderState w)
  /\ OrderState.error (orderState (snd result)) = Some "permission denied".
Proof. repeat split. Qed.

(* ================================================================== *)
(** ** The cached orders mirror the store *)
(* ================================================================== *)

Lemma forget_updated_at_id a b :
  forget_updated_at a = forget_updated_at b -> OrderRow.id a = OrderRow.id b.
Proof.
  intros H. apply (f_equal OrderRow.id) in H. exact H.
Qed.

Lemma forget_updated_at_driver a b :
  forget_updated_at a = forget_updated_at b ->
  OrderRow.driver_id a = OrderRow.driver_id b.
Proof.
  intros H. apply (f_equal OrderRow.driver_id) in H. exact H.
Qed.

Lemma forget_with_status s d t t' a b :
  forget_updated_at a = forget_updated_at b ->
  forget_updated_at (OrderRow.with_status s d t a)
  = forget_updated_at (OrderRow.with_status s d t' b).
Proof.
  destruct a, b. unfold forget_updated_at. cbn.
  intros H. injection H as -> -> -> -> -> -> -> -> -> -> -> -> ->.
  reflexivity.
Qed.

(** One order, patched in the cache and updated in the store. *)
Lemma patch_mirrors_update rt d orderId status driverId now c o :
  hides rt d
    (UpdateOrder orderId
       (OrderUpdate.Build status (orderService.given driverId))) orderId
  = false ->
  forget_updated_at (CachedOrder.row c) = forget_updated_at o ->
  forget_updated_at
    (CachedOrder.row
       (if String.eqb (OrderRow.id (CachedOrder.row c)) orderId
        then OrderContext.patch_status status driverId now c
        else c))
  = forget_updated_at
      (Store.where_reached rt
         (UpdateOrder orderId
            (OrderUpdate.Build status (orderService.given driverId)))
         OrderRow.id d
         (Store.apply_order_update orderId
            (OrderUpdate.Build status (orderService.given driverId))
            (DB.now d)) o).
Proof.
  intros Hshown H. unfold Store.where_reached, Store.apply_order_update.
  rewrite <- (forget_updated_at_id _ _ H).
  destruct (String.eqb_spec (OrderRow.id (CachedOrder.row c)) orderId)
    as [E|E].
  - rewrite E, Hshown. cbn. rewrite (forget_updated_at_driver _ _ H).
    apply forget_with_status. exact H.
  - destruct (hides rt d _ (OrderRow.id (CachedOrder.row c))); exact H.
Qed.

(** What the container's [updateOrderStatus] does, by the store's
    answer. *)
Lemma updateOrderStatus_container_run rt w orderId status driverId :
  let update :=
    UpdateOrder orderId
      (OrderUpdate.Build (status_name status)
         (orderService.given driverId)) in
  OrderContext.updateOrderStatus rt orderId status driverId w
  = match rejects rt (remote w) update with
    | Some e =>
        let msg := message_or e "Failed to update order status" in
        (Throw (Js.Error msg),
         with_orderState
           (OrderState.Build (OrderState.orders (orderState w))
              (OrderState.loading (orderState w)) (Some msg))
           (log_request update w))
    | None =>
        (Return tt,
         with_orderState
           (OrderState.Build
              (map (fun order =>
                      if String.eqb (OrderRow.id (CachedOrder.row order))
                                    orderId
                      then OrderContext.patch_status (status_name status)
                             driverId (clock w) order
                      else order)
                   (OrderState.orders (orderState w)))
              (OrderState.loading (orderState w)) None)
           (with_remote
              (orders_updated rt orderId
                 (OrderUpdate.Build (status_name status)
                    (orderService.given driverId)) (remote w))
              (log_request update w)))
    end.
Proof.
  intros update.
  unfold OrderContext.updateOrderStatus, OrderContext.setError,
    OrderContext.setOrders, bind, gets, modify, try_catch, throw.
  cbv beta iota. rewrite updateOrderStatus_run.
  cbn [remote with_orderState]. fold update.
  destruct (rejects rt (remote w) update); reflexivity.
Qed.

(** X10.  The optimistic patch and the store.  Let every cached order
    be a copy of a stored order up to [updated_at] before a call of the
    container's [updateOrderStatus].  The same holds after the call
    when the store refuses the update (neither side changes) and when
    the update reaches the order (both sides get the same status and
    driver).  When a policy keeps the order from the update, the store
    answers without an error, the stored orders are as before and the
    cached order shows the new status: if the order was cached and not
    stored with that status, the cache is no copy of the store any
    more. *)
Theorem updateOrderStatus_keeps_mirror (rt : Runtime) (w : World)
    (orderId : uuid) (status : OrderStatus) (driverId : option uuid)
    (Hmirror : cache_mirrors_store w) :
  let update :=
    UpdateOrder orderId
      (OrderUpdate.Build (status_name status)
         (orderService.given driverId)) in
  let result := OrderContext.updateOrderStatus rt orderId status driverId w in
  (rejects rt (remote w) update <> None
   \/ hides rt (remote w) update orderId = false ->
   cache_mirrors_store (snd result))
  /\ (rejects rt (remote w) update = None ->
      hides rt (remote w) update orderId = true ->
      fst result = Return tt
      /\ OrderState.error (orderState (snd result)) = None
      /\ DB.orders (remote (snd result)) = DB.orders (remote w)
      /\ (forall c, In c (OrderState.orders (orderState (snd result))) ->
            OrderRow.id (CachedOrder.row c) = orderId ->
            OrderRow.status (CachedOrder.row c) = status_name status)
      /\ ((exists c, In c (OrderState.orders (orderState w))
                     /\ OrderRow.id (CachedOrder.row c) = orderId) ->
          (forall o, In o (DB.orders (remote w)) ->
             OrderRow.id o = orderId ->
             OrderRow.status o <> status_name status) ->
          ~ cache_mirrors_store (snd result))).
Proof.
  intros update result. subst result.
  rewrite updateOrderStatus_container_run. cbv zeta. fold update.
  destruct (rejects rt (remote w) update) as [e|].
  - split; [intros _; exact Hmirror | intros H; discriminate].
  - split.
    + intros [H | Hshown]; [contradiction|].
      intros c' Hc'. unfold cache_mirrors_store in Hmirror.
      cbn in Hc' |- *. apply in_map_iff in Hc'.
      destruct Hc' as [c [<- Hc]].
      destruct (Hmirror c Hc) as [o [Ho Hsame]].
      eexists. split; [apply in_map; exact Ho|].
      apply patch_mirrors_update; [exact Hshown | exact Hsame].
    + intros _ Hhidden.
      cbn [fst snd remote orderState with_orderState with_remote
           OrderState.error OrderState.orders].
      rewrite (orders_updated_hidden _ _ _ _ Hhidden).
      split; [reflexivity|]. split; [reflexivity|].
      split; [reflexivity|]. split.
      * intros c' Hc' Hid. apply in_map_iff in Hc'.
        destruct Hc' as [c [<- Hc]].
        destruct (String.eqb (OrderRow.id (CachedOrder.row c)) orderId)
          eqn:E; [reflexivity|].
        apply String.eqb_neq in E. contradiction.
      * intros [c [Hc Hid]] Hstored Hm.
        destruct (Hm (OrderContext.patch_status (status_name status)
                        driverId (clock w) c)) as [o [Ho Hsame]].
        { cbn. apply in_map_iff. exists c. split; [|exact Hc].
          rewrite Hid, String.eqb_refl. reflexivity. }
        cbn [remote with_orderState with_remote] in Ho.
        rewrite (orders_updated_hidden _ _ _ _ Hhidden) in Ho.
        apply (Hstored o Ho).
        -- rewrite <- (forget_updated_at_id _ _ Hsame). exact Hid.
        -- apply (f_equal OrderRow.status) in Hsame. cbn in Hsame.
           symmetry. exact Hsame.
Qed.

Lemma sample_world_mirrors u reviews :
  cache_mirrors_store (sample_world u reviews).
Proof.
  intros c [<- | [<- | []]]; eexists;
    (split; [|reflexivity]); cbn; tauto.
Qed.

Lemma updateOrderStatus_keeps_mirror_witness :
  let w := sample_world (Some alice) [] in
  let w' := snd (OrderContext.updateOrderStatus accepting "o-1" delivering
                   (Some "u-dan") w) in
  let w'' := snd (OrderContext.updateOrderStatus anonymous "o-1" cancelled
                    None w) in
  cache_mirrors_store w' /\ ~ cache_mirrors_store w''.
Proof.
  intros w w' w''. split.
  - apply (proj1 (updateOrderStatus_keeps_mirror accepting w "o-1"
                    delivering (Some "u-dan")
                    (sample_world_mirrors (Some alice) []))).
    right. reflexivity.
  - destruct (proj2 (updateOrderStatus_keeps_mirror anonymous w "o-1"
                       cancelled None
                       (sample_world_mirrors (Some alice) []))
                    eq_refl eq_refl) as [_ [_ [_ [_ H]]]].
    apply H.
    + exists (CachedOrder.Build order1 None).
      split; [left; reflexivity | reflexivity].
    + intros o [<- | [<- | []]]; discriminate.
Defined.

(** X11.  [acceptDelivery] by a signed-in driver with a non-empty id:
    when the store refuses the update, or the update reaches the order,
    the cache stays a copy of the store up to [updated_at].  When a
    policy keeps the order from the update, the function returns, the
    stored orders are as before, and every cached order with that id
    shows "delivering" and the driver: the cache tells of an assignment
    the store does not hold. *)
Theorem acceptDelivery_keeps_mirror (rt : Runtime) (w : World) (u : User.t)
    (orderId : uuid)
    (Huser : user w = Some u)
    (Hid : User.id u <> "")
    (Hmirror : cache_mirrors_store w) :
  let update :=
    UpdateOrder orderId
      (OrderUpdate.Build "delivering" (Some (User.id u))) in
  let result := OrderContext.acceptDelivery rt orderId w in
  (rejects rt (remote w) update <> None
   \/ hides rt (remote w) update orderId = false ->
   cache_mirrors_store (snd result))
  /\ (rejects rt (remote w) update = None ->
      hides rt (remote w) update orderId = true ->
      fst result = Return tt
      /\ OrderState.error (orderState (snd result)) = None
      /\ DB.orders (remote (snd result)) = DB.orders (remote w)
      /\ (forall c, In c (OrderState.orders (orderState (snd result))) ->
            OrderRow.id (CachedOrder.row c) = orderId ->
            OrderRow.status (CachedOrder.row c) = "delivering"
            /\ OrderRow.driver_id (CachedOrder.row c) = Some (User.id u))).
Proof.
  intros update result. subst result.
  rewrite (acceptDelivery_run rt w u orderId Huser Hid). cbv zeta.
  fold update.
  destruct (rejects rt (remote w) update) as [e|].
  - split; [intros _; exact Hmirror | intros H; discriminate].
  - split.
    + intros [H | Hshown]; [contradiction|].
      intros c' Hc'. unfold cache_mirrors_store in Hmirror.
      cbn in Hc' |- *. apply in_map_iff in Hc'.
      destruct Hc' as [c [<- Hc]].
      destruct (Hmirror c Hc) as [o [Ho Hsame]].
      eexists. split; [apply in_map; exact Ho|].
      unfold Store.where_reached, Store.apply_order_update.
      rewrite <- (forget_updated_at_id _ _ Hsame).
      destruct (String.eqb_spec (OrderRow.id (CachedOrder.row c)) orderId)
        as [E|E].
      * rewrite E. fold update. rewrite Hshown. cbn.
        apply forget_with_status. exact Hsame.
      * destruct (hides rt (remote w) _ (OrderRow.id (CachedOrder.row c)));
          exact Hsame.
    + intros _ Hhidden.
      cbn [fst snd remote orderState with_orderState with_remote
           OrderState.error OrderState.orders].
      rewrite (orders_updated_hidden _ _ _ _ Hhidden).
      split; [reflexivity|]. split; [reflexivity|].
      split; [reflexivity|].
      intros c' Hc' Hsame. apply in_map_iff in Hc'.
      destruct Hc' as [c [<- Hc]].
      destruct (String.eqb (OrderRow.id (CachedOrder.row c)) orderId)
        eqn:E; [split; reflexivity|].
      apply String.eqb_neq in E. contradiction.
Qed.

Lemma acceptDelivery_keeps_mirror_witness :
  let w := sample_world (Some dan) [] in
  let w' := snd (OrderContext.acceptDelivery accepting "o-2" w) in
  cache_mirrors_store w'
  /\ map OrderRow.driver_id (DB.orders (remote w')) = [None; Some "u-dan"].
Proof.
  intros w w'. split; [|reflexivity].
  assert (Hid : User.id dan <> "") by discriminate.
  apply (proj1 (acceptDelivery_keeps_mirror accepting w dan "o-2" eq_refl
                  Hid (sample_world_mirrors (Some dan) []))).
  right. reflexivity.
Defined.

(** After [getCustomerOrders] or [getAgentOrders] the cache is a
    mirror of the store, whatever was cached before and whatever the
    store answered (a refused fetch leaves the cache empty). *)
Theorem fetched_orders_mirror_store (rt : Runtime) (w : World) (u : User.t)
    (Huser : user w = Some u) :
  cache_mirrors_store (snd (OrderContext.getCustomerOrders rt w))
  /\ cache_mirrors_store (snd (OrderProvider.getAgentOrders rt w)).
Proof.
  split.
  - rewrite (getCustomerOrders_run rt w u Huser).
    destruct (rejects rt (remote w) _); intros c Hc; cbn in Hc;
      [contradiction|].
    apply In_newest_first in Hc. apply in_map_iff in Hc.
    destruct Hc as [o [<- Ho]]. apply In_reached in Ho.
    destruct Ho as [Ho _]. apply filter_In in Ho.
    exists o. split; [exact (proj1 Ho) | reflexivity].
  - rewrite (getAgentOrders_run rt w u Huser).
    destruct (rejects rt (remote w) _); intros c Hc; cbn in Hc;
      [contradiction|].
    apply In_newest_first in Hc. apply in_map_iff in Hc.
    destruct Hc as [o [<- Ho]]. apply In_reached in Ho.
    destruct Ho as [Ho _]. apply filter_In in Ho.
    exists o. split; [exact (proj1 Ho) | reflexivity].
Qed.

Lemma fetched_orders_mirror_store_witness :
  let w := sample_world (Some alice) [] in
  cache_mirrors_store (snd (OrderContext.getCustomerOrders accepting w))
  /\ length (OrderState.orders
               (orderState (snd (OrderContext.getCustomerOrders accepting w))))
     = 2%nat.
Proof.
  intros w. split; [|reflexivity].
  exact (proj1 (fetched_orders_mirror_store accepting w alice eq_refl)).
Defined.

(* ================================================================== *)
(** ** Rating aggregation: bounds and frame *)
(* ================================================================== *)

Lemma sum_bounds (lo hi : Z) (l : list Z) :
  (forall z, In z l -> (lo <= z <= hi)%Z) ->
  (lo * Z.of_nat (length l) <= sum l <= hi * Z.of_nat (length l))%Z.
Proof.
  induction l as [|z l IH]; intros H.
  - cbn. lia.
  - assert (Hz : (lo <= z <= hi)%Z) by (apply H; left; reflexivity).
    assert (Hl : forall x, In x l -> (lo <= x <= hi)%Z)
      by (intros x Hx; apply H; right; exact Hx).
    specialize (IH Hl).
    change (sum (z :: l)) with (z + sum l)%Z.
    change (length (z :: l)) with (S (length l)).
    rewrite Nat2Z.inj_succ. lia.
Qed.

(** The mean of ratings between two positive integers below [2^53] is
    rounded to a number between them. *)
Lemma round_mean_between (lo hi : Z) (R : list Z) :
  R <> [] ->
  (forall z, In z R -> (lo <= z <= hi)%Z) ->
  (0 < lo)%Z -> (hi < 2 ^ 53)%Z ->
  exists q,
    Js.round (mean R) = Js.Fin q
    /\ inject_Z lo <= q /\ q <= inject_Z hi.
Proof.
  intros Hne Hb Hlo Hhi. pose proof (sum_bounds lo hi R Hb) as [H1 H2].
  unfold mean.
  destruct (length R) as [|k] eqn:El;
    [destruct R; [contradiction | discriminate]|].
  change (Z.of_nat (S k)) with (Zpos (Pos.of_succ_nat k)) in *.
  pose proof (Pos2Z.is_pos (Pos.of_succ_nat k)) as Hk.
  destruct (sum R) as [|s|s] eqn:Es; try nia.
  change (inject_Z (Zpos s) / inject_Z (Zpos (Pos.of_succ_nat k)))
    with (Zpos (s * 1) # (1 * Pos.of_succ_nat k)).
  unfold Js.round. cbn [Qnum Qden].
  apply round_positive_between; rewrite ?Pos.mul_1_r, ?Pos.mul_1_l;
    [exact Hlo | exact Hhi | split; assumption].
Qed.

Lemma all_from_one (lo hi : Z) (R : list Z) :
  (0 < lo)%Z ->
  (forall z, In z R -> (lo <= z <= hi)%Z) ->
  Forall (fun z => (1 <= z)%Z) R.
Proof.
  intros Hlo H. apply Forall_forall. intros z Hz.
  specialize (H z Hz). lia.
Qed.

(** X12.  If the ratings the read returns lie between two positive
    integers [lo] and [hi] (1 and 5 by the table's CHECK constraint),
    there is at least one and they add up below [2^53], then the rating
    [updateRestaurantRating] asks the store to set is a finite number
    between [lo] and [hi]: rounding does not take the average out of
    the range; and every restaurant row with that id which the update
    reaches carries it afterwards. *)
Theorem updateRestaurantRating_within_bounds (rt : Runtime) (w : World)
    (restaurantId : uuid) (lo hi : Z)
    (Hread : rejects rt (remote w) (SelectRatings restaurantId) = None)
    (Hwrite : forall x,
        rejects rt (remote w) (UpdateRating restaurantId x) = None)
    (Hsome : Store.ratings_of rt restaurantId (remote w) <> [])
    (Hbounds : forall z,
        In z (Store.ratings_of rt restaurantId (remote w)) ->
        (lo <= z <= hi)%Z)
    (Hlo : (0 < lo)%Z)
    (Hhi : (hi < 2 ^ 53)%Z)
    (Hsum : (sum (Store.ratings_of rt restaurantId (remote w)) < 2 ^ 53)%Z) :
  let w' := snd (reviewService.updateRestaurantRating rt restaurantId w) in
  exists q,
    inject_Z lo <= q /\ q <= inject_Z hi
    /\ requests w'
       = (requests w
          ++ [SelectRatings restaurantId;
              UpdateRating restaurantId (Js.Fin q)])%list
    /\ (hides rt (remote w) (UpdateRating restaurantId (Js.Fin q))
          restaurantId = false ->
        forall r, In r (DB.restaurants (remote w')) ->
          RestaurantRow.id r = restaurantId ->
          RestaurantRow.rating r = Js.Fin q).
Proof.
  intros w'. subst w'.
  pose proof (all_from_one lo hi _ Hlo Hbounds) as Hpos.
  destruct (round_mean_between lo hi _ Hsome Hbounds Hlo Hhi)
    as [q [Hq [Hq1 Hq2]]].
  assert (Hx : reviewService.average
                 (map Js.ofZ (Store.ratings_of rt restaurantId (remote w)))
               = Js.Fin q).
  { rewrite average_is_rounded_mean;
      [exact Hq | exact Hsome | rewrite (abs_from_one _ Hpos); exact Hsum]. }
  rewrite updateRestaurantRating_run. cbv zeta. rewrite Hread.
  destruct (Store.ratings_of rt restaurantId (remote w)) as [|z l] eqn:ER;
    [contradiction|].
  rewrite Hx, Hwrite.
  exists q. split; [exact Hq1|]. split; [exact Hq2|]. split.
  - cbn. rewrite <- app_assoc. reflexivity.
  - intros Hshown r Hin Hid. cbn in Hin. apply in_map_iff in Hin.
    destruct Hin as [r0 [<- _]].
    unfold Store.where_reached, Store.apply_rating in Hid |- *.
    destruct (String.eqb_spec (RestaurantRow.id r0) restaurantId) as [E|E].
    + rewrite E, Hshown. reflexivity.
    + destruct (hides rt (remote w) _ (RestaurantRow.id r0));
        contradiction.
Qed.

Lemma updateRestaurantRating_within_bounds_witness :
  let w := sample_world (Some alice) [review "v-1" 5; review "v-2" 2] in
  let w' := snd (reviewService.updateRestaurantRating accepting
                   "r-bistro" w) in
  exists q,
    1 <= q /\ q <= 5
    /\ requests w'
       = [SelectRatings "r-bistro"; UpdateRating "r-bistro" (Js.Fin q)].
Proof.
  intros w w'.
  assert (Hb : forall z,
             In z (Store.ratings_of accepting "r-bistro" (remote w)) ->
             (1 <= z <= 5)%Z).
  { intros z Hz. vm_compute in Hz.
    destruct Hz as [<- | [<- | []]]; lia. }
  assert (Hsome : Store.ratings_of accepting "r-bistro" (remote w) <> [])
    by discriminate.
  destruct (updateRestaurantRating_within_bounds accepting w "r-bistro" 1 5
              eq_refl (fun _ => eq_refl) Hsome Hb eq_refl eq_refl eq_refl)
    as [q [H1 [H2 [H3 _]]]].
  exists q. split; [exact H1|]. split; [exact H2 | exact H3].
Defined.

(** X13.  Whatever the store answers, [updateRestaurantRating] leaves
    users, menu items, orders and reviews as they were, keeps the number
    and the order of the restaurant rows, and changes no column of a
    restaurant but [rating] and [updated_at]. *)
Theorem updateRestaurantRating_frame (rt : Runtime) (w : World)
    (restaurantId : uuid) :
  let d := remote w in
  let d' :=
    remote (snd (reviewService.updateRestaurantRating rt restaurantId w)) in
  DB.users d' = DB.users d
  /\ DB.menu_items d' = DB.menu_items d
  /\ DB.orders d' = DB.orders d
  /\ DB.reviews d' = DB.reviews d
  /\ map (RestaurantRow.with_rating Js.zero "") (DB.restaurants d')
     = map (RestaurantRow.with_rating Js.zero "") (DB.restaurants d).
Proof.
  intros d d'. subst d d'.
  rewrite updateRestaurantRating_run. cbv zeta.
  destruct (rejects rt (remote w) (SelectRatings restaurantId));
    [repeat split|].
  destruct (Store.ratings_of rt restaurantId (remote w)) as [|z l];
    [repeat split|].
  destruct (rejects rt (remote w) _); [repeat split|].
  cbn. repeat split.
  rewrite map_map. apply map_ext. intros r.
  unfold Store.where_reached, Store.apply_rating.
  destruct (hides rt (remote w) _ (RestaurantRow.id r)); [reflexivity|].
  destruct (String.eqb (RestaurantRow.id r) restaurantId); reflexivity.
Qed.

(* ================================================================== *)
(** ** Login: when it succeeds *)
(* ================================================================== *)

(** X14.  [authService.login] returns a user exactly when the store
    answers the query, exactly one of the rows it lets the request see
    has the email and the password verifies against that row's hash; the
    user returned is that row without its hash (so it carries the
    requested email), one query has been sent and the store is
    unchanged.  A row the store hides from the request does not count:
    with the only matching row hidden, login throws. *)
Theorem login_returns_iff (rt : Runtime) (w : World)
    (email password : string) :
  forall (u : User.t) (w' : World),
    authService.login rt email password w = (Return u, w') <->
    rejects rt (remote w) (SelectUserByEmail email) = None
    /\ (exists row,
          Store.reached rt (SelectUserByEmail email) UserRow.id (remote w)
            (filter (fun r => String.eqb (UserRow.email r) email)
                    (DB.users (remote w))) = [row]
          /\ bcrypt_compare rt password (UserRow.password_hash row) = true
          /\ u = user_of_row row
          /\ User.email u = email)
    /\ w' = log_request (SelectUserByEmail email) w.
Proof.
  intros u w'.
  unfold authService.login, bind, throw_error, throw, ret, Store.send,
    Store.select_user_by_email.
  destruct (rejects rt (remote w) (SelectUserByEmail email)) as [e|].
  { cbn. split; [discriminate | intros [H _]; discriminate]. }
  destruct (Store.reached rt (SelectUserByEmail email) UserRow.id (remote w)
              (filter (fun r => String.eqb (UserRow.email r) email)
                      (DB.users (remote w))))
    as [|row [|row' l]] eqn:Ef; cbn.
  - split; [discriminate|]. intros [_ [[r [H _]] _]]. discriminate.
  - assert (Hmail : UserRow.email row = email).
    { assert (Hin : In row (Store.reached rt (SelectUserByEmail email)
                              UserRow.id (remote w)
                              (filter (fun r => String.eqb (UserRow.email r)
                                                  email)
                                      (DB.users (remote w)))))
        by (rewrite Ef; left; reflexivity).
      unfold Store.reached in Hin.
      apply filter_In in Hin. destruct Hin as [Hin _].
      apply filter_In in Hin. apply String.eqb_eq. exact (proj2 Hin). }
    destruct (bcrypt_compare rt password (UserRow.password_hash row)) eqn:Eb;
      cbn.
    + split.
      * intros H. injection H as <- <-. split; [reflexivity|].
        split; [|destruct w as [[]]; reflexivity].
        exists row. repeat split; assumption.
      * intros [_ [[r [Hr [_ [-> _]]]] ->]]. injection Hr as <-.
        destruct w as [[]]; reflexivity.
    + split; [discriminate|].
      intros [_ [[r [Hr [Hb _]]] _]]. injection Hr as <-. congruence.
  - split; [discriminate|]. intros [_ [[r [H _]] _]]. discriminate.
Qed.

Example login_returns_alice :
  let w := sample_world None [] in
  authService.login accepting "alice@example.com" "secret" w
  = (Return alice, log_request (SelectUserByEmail "alice@example.com") w).
Proof.
  reflexivity.
Qed.

Example login_anonymous :
  let w := sample_world None [] in
  authService.login anonymous "alice@example.com" "secret" w
  = (Throw (Js.Error "Invalid credentials"),
     log_request (SelectUserByEmail "alice@example.com") w).
Proof.
  reflexivity.
Qed.

(* ================================================================== *)
(** ** Creating a restaurant: what the owner sees afterwards *)
(* ================================================================== *)

Lemma restaurant_validate_ok rt restaurantData w :
  valid_restaurant rt restaurantData ->
  RestaurantContext.validate rt restaurantData w = (Return tt, w).
Proof.
  intros [Hreq [Hfee Hmin]].
  unfold RestaurantContext.validate, RestaurantContext.requiredFields,
    for_of, bind, throw_if, throw, ret.
  rewrite !Hreq by (cbn; tauto). rewrite Hfee, Hmin. reflexivity.
Qed.

(** [Promise.all] of the two fetches on a store that accepts both reads
    and hides no row: whichever answer comes first, the owner's cell and
    the list are filled from the store, and [loading] is off. *)
Lemma refetchBoth_accepted rt w u :
  user w = Some u ->
  (forall d r, rejects rt d r = None) ->
  (forall d r i, hides rt d r i = false) ->
  exists w',
    RestaurantContext.refetchBoth rt w = (Return tt, w')
    /\ remote w' = remote w
    /\ requests w'
       = (requests w ++ [SelectRestaurantByOwner (User.id u);
                         SelectActiveRestaurants])%list
    /\ RestaurantState.restaurants (restaurantState w')
       = Store.newest_first rt RestaurantRow.created_at
           (filter RestaurantRow.is_active (DB.restaurants (remote w)))
    /\ RestaurantState.myRestaurant (restaurantState w')
       = data (Store.maybeSingle (restaurants_of (User.id u) (remote w)))
    /\ RestaurantState.loading (restaurantState w') = false.
Proof.
  intros Hu Hacc Hshown.
  unfold RestaurantContext.refetchBoth,
    RestaurantContext.askMyRestaurant, RestaurantContext.askRestaurants,
    RestaurantContext.gotMyRestaurant, RestaurantContext.gotRestaurants,
    RestaurantContext.settled,
    restaurantService.getMyRestaurant, restaurantService.getRestaurants,
    RestaurantContext.setLoading, RestaurantContext.setError,
    RestaurantContext.setRestaurants, RestaurantContext.setMyRestaurant,
    Store.send, Store.select_restaurant_by_owner,
    Store.select_active_restaurants,
    bind, gets, modify, throw_error, throw, ret.
  rewrite Hu. cbn. rewrite !Hacc. cbn.
  rewrite !reached_all by (intros; apply Hshown).
  unfold restaurants_of.
  destruct (filter _ (DB.restaurants (remote w))) as [|x [|y l]] eqn:EL;
    cbn; rewrite ?Hacc; cbn;
    rewrite ?reached_all by (intros; apply Hshown);
    destruct (overtakes rt _ _); cbn;
    (eexists; split; [reflexivity|]; cbn; rewrite <- app_assoc;
     repeat split).
Qed.

(** An accepted [createRestaurant], step by step: the insert, then the
    two fetches on the store that holds the new row. *)
Lemma createRestaurant_accepted rt w u restaurantData :
  user w = Some u ->
  valid_restaurant rt restaurantData ->
  (forall d r, rejects rt d r = None) ->
  (forall d r i, hides rt d r i = false) ->
  let r := created_restaurant rt u restaurantData (remote w) in
  let d' := DB.with_restaurants (DB.restaurants (remote w) ++ [r])
              (remote w) in
  exists w',
    RestaurantContext.createRestaurant rt restaurantData w
    = (Return (RestaurantRow.id r), w')
    /\ remote w' = Store.written rt d'
    /\ RestaurantState.restaurants (restaurantState w')
       = Store.newest_first rt RestaurantRow.created_at
           (filter RestaurantRow.is_active (DB.restaurants d'))
    /\ RestaurantState.myRestaurant (restaurantState w')
       = data (Store.maybeSingle (restaurants_of (User.id u) d'))
    /\ RestaurantState.loading (restaurantState w') = false.
Proof.
  intros Hu Hv Hacc Hshown r d'. subst d' r.
  unfold created_restaurant.
  unfold RestaurantContext.createRestaurant,
    restaurantService.createRestaurant.
  unfold bind at 1. unfold gets at 1. rewrite Hu.
  unfold try_finally, try_catch.
  unfold bind at 1. unfold RestaurantContext.setLoading at 1.
  unfold modify at 1.
  unfold bind at 1. unfold RestaurantContext.setError at 1.
  unfold modify at 1.
  unfold bind at 1. rewrite (restaurant_validate_ok _ _ _ Hv).
  unfold bind at 1. unfold bind at 1. unfold bind at 1.
  unfold Store.send, Store.insert_restaurant. rewrite Hacc.
  cbn [remote with_restaurantState log_request throw_error error data ret].
  unfold bind at 1.
  match goal with
  | |- context [RestaurantContext.refetchBoth rt ?W] =>
      destruct (refetchBoth_accepted rt W u Hu Hacc Hshown)
        as [w1 [Hrun [Hrem [_ [Hlist [Hmine Hload]]]]]]; rewrite Hrun
  end.
  cbn in Hrem, Hlist, Hmine.
  unfold RestaurantContext.setLoading, modify, ret.
  eexists. split; [reflexivity|]. cbn.
  repeat split; assumption.
Qed.

Lemma restaurants_of_created rt u restaurantData d :
  let r := created_restaurant rt u restaurantData d in
  restaurants_of (User.id u)
    (DB.with_restaurants (DB.restaurants d ++ [r]) d)
  = (restaurants_of (User.id u) d ++ [r])%list.
Proof.
  intros r. unfold restaurants_of. cbn [DB.restaurants DB.with_restaurants].
  rewrite filter_app. cbn. rewrite String.eqb_refl. reflexivity.
Qed.

(** X15.  The first restaurant of an owner: when the input is valid, the
    store accepts every request, hides no row from a read and holds no
    restaurant of the signed-in user, [createRestaurant] returns the id
    of the new row, and afterwards the owner's cell holds that row and
    the cached list of active restaurants contains it; the row is active
    with rating 0.  This holds in whichever order the answers of the two
    fetches arrive. *)
Theorem createRestaurant_first (rt : Runtime) (w : World) (u : User.t)
    (restaurantData : Js.object)
    (Huser : user w = Some u)
    (Hvalid : valid_restaurant rt restaurantData)
    (Haccept : forall d r, rejects rt d r = None)
    (Hshown : forall d r i, hides rt d r i = false)
    (Hnone : restaurants_of (User.id u) (remote w) = []) :
  let r := created_restaurant rt u restaurantData (remote w) in
  exists w',
    RestaurantContext.createRestaurant rt restaurantData w
    = (Return (RestaurantRow.id r), w')
    /\ DB.restaurants (remote w') = (DB.restaurants (remote w) ++ [r])%list
    /\ RestaurantState.myRestaurant (restaurantState w') = Some r
    /\ In r (RestaurantState.restaurants (restaurantState w'))
    /\ RestaurantRow.is_active r = true
    /\ RestaurantRow.rating r = Js.zero.
Proof.
  intros r.
  destruct (createRestaurant_accepted rt w u restaurantData Huser Hvalid
              Haccept Hshown) as [w' [Hrun [Hrem [Hlist [Hmine _]]]]].
  exists w'. split; [exact Hrun|].
  split; [rewrite Hrem; reflexivity|].
  split.
  - rewrite Hmine, restaurants_of_created, Hnone. reflexivity.
  - split; [|split; reflexivity].
    rewrite Hlist. apply In_newest_first. apply filter_In.
    split; [cbn; apply in_or_app; right; left; reflexivity | reflexivity].
Qed.

(** X16.  Nothing stops an owner who already has a restaurant from
    creating another: with a valid input and a store that accepts every
    request and hides no row from a read, [createRestaurant] returns the
    new id, the store then holds one more restaurant of that user, and
    the owner's cell is left null, because the query for "my restaurant"
    fails on several rows. *)
Theorem createRestaurant_second (rt : Runtime) (w : World) (u : User.t)
    (restaurantData : Js.object)
    (Huser : user w = Some u)
    (Hvalid : valid_restaurant rt restaurantData)
    (Haccept : forall d r, rejects rt d r = None)
    (Hshown : forall d r i, hides rt d r i = false)
    (Hsome : restaurants_of (User.id u) (remote w) <> []) :
  let r := created_restaurant rt u restaurantData (remote w) in
  exists w',
    RestaurantContext.createRestaurant rt restaurantData w
    = (Return (RestaurantRow.id r), w')
    /\ length (restaurants_of (User.id u) (remote w'))
       = S (length (restaurants_of (User.id u) (remote w)))
    /\ RestaurantState.myRestaurant (restaurantState w') = None.
Proof.
  intros r.
  destruct (createRestaurant_accepted rt w u restaurantData Huser Hvalid
              Haccept Hshown) as [w' [Hrun [Hrem [_ [Hmine _]]]]].
  exists w'. split; [exact Hrun|].
  rewrite Hmine, Hrem.
  change (restaurants_of (User.id u) (Store.written rt ?d))
    with (restaurants_of (User.id u) d).
  rewrite restaurants_of_created. split.
  - rewrite length_app. cbn. lia.
  - destruct (restaurants_of (User.id u) (remote w)) as [|x l];
      [contradiction|].
    destruct l; reflexivity.
Qed.

Lemma second_bistro_valid : valid_restaurant accepting second_bistro.
Proof.
  split; [|split; reflexivity].
  intros field Hin. cbn in Hin.
  repeat (destruct Hin as [<- | Hin]; [reflexivity|]). contradiction.
Qed.

Lemma createRestaurant_first_witness :
  let w := sample_world (Some alice) [] in
  exists w' r,
    RestaurantContext.createRestaurant accepting second_bistro w
    = (Return (RestaurantRow.id r), w')
    /\ DB.restaurants (remote w') = [bistro; r]
    /\ RestaurantRow.user_id r = "u-alice"
    /\ RestaurantState.myRestaurant (restaurantState w') = Some r.
Proof.
  intros w.
  destruct (createRestaurant_first accepting w alice second_bistro eq_refl
              second_bistro_valid (fun _ _ => eq_refl)
              (fun _ _ _ => eq_refl) eq_refl)
    as [w' [Hrun [Hdb [Hmine _]]]].
  exists w'. eexists. split; [exact Hrun|].
  split; [exact Hdb|]. split; [reflexivity | exact Hmine].
Defined.

Lemma createRestaurant_second_witness :
  let w := sample_world (Some owner) [] in
  exists w' id,
    RestaurantContext.createRestaurant accepting second_bistro w
    = (Return id, w')
    /\ length (restaurants_of "u-owner" (remote w')) = 2%nat
    /\ RestaurantState.myRestaurant (restaurantState w') = None.
Proof.
  intros w.
  assert (Hsome : restaurants_of (User.id owner) (remote w) <> [])
    by discriminate.
  destruct (createRestaurant_second accepting w owner second_bistro eq_refl
              second_bistro_valid (fun _ _ => eq_refl)
              (fun _ _ _ => eq_refl) Hsome)
    as [w' [Hrun [Hlen Hmine]]].
  exists w'. eexists. split; [exact Hrun|].
  split; [exact Hlen | exact Hmine].
Defined.

(** X17.  A delivery fee or a minimum order of 0, supplied as a number,
    is taken for a missing field: although 0 is not negative, and every
    other field is valid, [createRestaurant] throws "delivery fee is
    required" (or "min order is required") and sends nothing. *)
Theorem zero_amount_is_refused (rt : Runtime) (w : World) (u : User.t)
    (restaurantData : Js.object) (field : string) (q : Q)
    (Huser : user w = Some u)
    (Hvalid : valid_restaurant rt restaurantData)
    (Hfield : field = "delivery_fee" \/ field = "min_order")
    (Hzero : q == 0) :
  let zero := Js.Number (Js.Fin q) in
  RestaurantContext.not_amount rt zero = false
  /\ exists w',
       RestaurantContext.createRestaurant rt
         ((field, zero) :: restaurantData) w
       = (Throw (Js.Error (is_required field)), w')
       /\ requests w' = requests w
       /\ remote w' = remote w.
Proof.
  intros zero.
  assert (Hq : Qeq_bool q 0 = true) by (apply Qeq_bool_iff; exact Hzero).
  split.
  { unfold RestaurantContext.not_amount, zero. cbn.
    apply Bool.negb_false_iff. apply Qle_bool_iff. rewrite Hzero.
    apply Qle_refl. }
  destruct Hvalid as [Hreq _].
  assert (Hrun : RestaurantContext.validate rt
                   ((field, zero) :: restaurantData)
                 = throw (Js.Error (is_required field))).
  { unfold RestaurantContext.validate, RestaurantContext.requiredFields,
      for_of.
    destruct Hfield as [-> | ->]; cbn [Js.get String.eqb Ascii.eqb Bool.eqb];
      rewrite !Hreq by (cbn; tauto);
      unfold zero, RestaurantContext.missing; cbn; rewrite Hq;
      reflexivity. }
  unfold RestaurantContext.createRestaurant, bind at 1, gets at 1.
  rewrite Huser.
  unfold try_finally, try_catch, bind, RestaurantContext.setLoading,
    RestaurantContext.setError, modify.
  cbv beta iota. rewrite Hrun. unfold throw. cbv beta iota.
  rewrite message_or_nonempty
    by (destruct Hfield as [-> | ->]; discriminate).
  eexists. split; [reflexivity|]. split; reflexivity.
Qed.

Lemma zero_amount_is_refused_witness :
  let w := sample_world (Some owner) [] in
  exists w',
    RestaurantContext.createRestaurant accepting
      (("delivery_fee", Js.Number (Js.Fin 0)) :: second_bistro) w
    = (Throw (Js.Error "delivery fee is required"), w')
    /\ requests w' = [].
Proof.
  intros w.
  destruct (zero_amount_is_refused accepting w owner second_bistro
              "delivery_fee" 0 eq_refl second_bistro_valid
              (or_introl eq_refl) (Qeq_refl 0))
    as [_ [w' [Hrun [Hreq _]]]].
  exists w'. split; [exact Hrun | exact Hreq].
Defined.

(* ================================================================== *)
(** ** Adding a menu item: what the menu shows afterwards *)
(* ================================================================== *)

Lemma menu_validate_ok rt itemData w :
  valid_menu_item rt itemData ->
  MenuContext.validate rt itemData w = (Return tt, w).
Proof.
  intros [Hreq Hprice].
  unfold MenuContext.validate, MenuContext.requiredFields,
    for_of, bind, throw_if, throw, ret.
  rewrite !Hreq by (cbn; tauto). rewrite Hprice. reflexivity.
Qed.

(** X18.  When the input is valid, its restaurant id is a string and the
    store accepts every request and hides no row from a read,
    [addMenuItem] returns the id of the new row and afterwards the
    cached menu is the menu of that restaurant: it contains the new
    item, available unless the input said [available: false], and only
    items of that restaurant. *)
Theorem addMenuItem_shows_item (rt : Runtime) (w : World)
    (itemData : Js.object) (restaurantId : uuid)
    (Hvalid : valid_menu_item rt itemData)
    (Hrestaurant : Js.get itemData "restaurant_id" = Js.String restaurantId)
    (Haccept : forall d r, rejects rt d r = None)
    (Hshown : forall d r i, hides rt d r i = false) :
  let item := created_menu_item rt itemData (remote w) in
  exists w',
    MenuContext.addMenuItem rt itemData w
    = (Return (MenuItemRow.id item), w')
    /\ DB.menu_items (remote w') = (DB.menu_items (remote w) ++ [item])%list
    /\ In item (MenuState.menuItems (menuState w'))
    /\ (forall m, In m (MenuState.menuItems (menuState w')) ->
          MenuItemRow.restaurant_id m = Js.String restaurantId)
    /\ (MenuItemRow.available item = false <->
        Js.get itemData "available" = Js.Boolean false)
    /\ MenuState.loading (menuState w') = false
    /\ MenuState.error (menuState w') = None.
Proof.
  intros item. subst item. unfold created_menu_item.
  unfold MenuContext.addMenuItem, menuService.createMenuItem.
  unfold try_finally, try_catch.
  unfold bind at 1. unfold MenuContext.setLoading at 1. unfold modify at 1.
  unfold bind at 1. unfold MenuContext.setError at 1. unfold modify at 1.
  unfold bind at 1. rewrite (menu_validate_ok _ _ _ Hvalid).
  unfold bind at 1. unfold bind at 1. unfold bind at 1.
  unfold Store.send, Store.insert_menu_item. rewrite Haccept.
  cbn [remote with_menuState log_request throw_error error data ret].
  unfold bind at 1. rewrite fetchMenuItems_run. rewrite Haccept.
  unfold MenuContext.setLoading, modify, ret.
  cbn [remote with_remote with_menuState log_request].
  eexists. split; [reflexivity|]. cbn.
  split; [reflexivity|]. split.
  - apply In_order_by. apply In_reached. split; [|apply Hshown].
    apply filter_In.
    split; [apply in_or_app; right; left; reflexivity|].
    cbn. rewrite Hrestaurant. cbn. apply String.eqb_refl.
  - split.
    + intros m Hm. apply In_order_by in Hm. apply In_reached in Hm.
      destruct Hm as [Hm _]. apply filter_In in Hm.
      destruct Hm as [_ Hm]. rewrite Hrestaurant in Hm.
      apply eqb_String. exact Hm.
    + split; [|split; reflexivity].
      unfold menuService.not_false.
      destruct (Js.get itemData "available") as [| |[|]| | | |];
        split; congruence.
Qed.

Lemma ndole_valid : valid_menu_item accepting ndole.
Proof.
  split; [|reflexivity].
  intros field Hin. cbn in Hin.
  repeat (destruct Hin as [<- | Hin]; [reflexivity|]). contradiction.
Qed.

Lemma addMenuItem_shows_item_witness :
  let w := sample_world (Some owner) [] in
  exists w' item,
    MenuContext.addMenuItem accepting ndole w
    = (Return (MenuItemRow.id item), w')
    /\ MenuState.menuItems (menuState w') = [item]
    /\ MenuItemRow.price item = Js.Fin 4
    /\ MenuItemRow.available item = true.
Proof.
  intros w.
  destruct (addMenuItem_shows_item accepting w ndole "r-bistro" ndole_valid
              eq_refl (fun _ _ => eq_refl) (fun _ _ _ => eq_refl))
    as [w' [Hrun _]].
  exists w'. eexists. split; [exact Hrun|].
  vm_compute in Hrun. injection Hrun as <-. repeat split.
Defined.

(* ================================================================== *)
(** ** The policies and checks of [orders] *)
(* ================================================================== *)

Lemma is_true_or a b :
  Schema.is_true (OrderPolicy.sql_or a b) = true <->
  Schema.is_true a = true \/ Schema.is_true b = true.
Proof.
  destruct a as [[|]|], b as [[|]|]; cbn; intuition discriminate.
Qed.

Lemma owns_restaurant_iff c d o :
  Schema.is_true (OrderPolicy.owns_restaurant (Some c) d o) = true <->
  owner_of c d o.
Proof.
  unfold OrderPolicy.owns_restaurant, owner_of. cbn [Schema.is_true].
  split.
  - intros H.
    destruct (existsb _ (OrderPolicy.restaurants d)) eqn:Ex;
      [|discriminate].
    apply existsb_exists in Ex. destruct Ex as [r [Hin Hr]].
    apply is_true_and in Hr. destruct Hr as [H1 H2].
    apply is_true_eq in H1. apply is_true_eq in H2.
    destruct H1 as [x [Hx1 Hx2]]. destruct H2 as [y [Hy1 Hy2]].
    exists r. repeat split; congruence.
  - intros [r [Hin [H1 H2]]].
    replace (existsb _ (OrderPolicy.restaurants d)) with true;
      [reflexivity|].
    symmetry. apply existsb_exists. exists r. split; [exact Hin|].
    apply is_true_and. split; apply is_true_eq.
    + exists (OrderPolicy.r_id r). split; [reflexivity | exact H1].
    + exists c. split; [exact H2 | reflexivity].
Qed.

Lemma update_condition_iff c d o :
  OrderPolicy.granted (Some c) (OrderPolicy.update_condition (Some c) d o)
  = true <->
  Schema.o_driver_id o = Some c \/ owner_of c d o.
Proof.
  unfold OrderPolicy.granted, OrderPolicy.update_condition.
  rewrite is_true_or, is_true_eq, owns_restaurant_iff. split.
  - intros [[x [H1 H2]] | H]; [left; congruence | right; exact H].
  - intros [H | H]; [left; exists c; split; [reflexivity | exact H]
                    | right; exact H].
Qed.

Lemma visible_iff c d o :
  OrderPolicy.visible (Some c) d o = true <->
  Schema.o_customer_id o = Some c
  \/ Schema.o_driver_id o = Some c
  \/ owner_of c d o.
Proof.
  unfold OrderPolicy.visible, OrderPolicy.granted, OrderPolicy.select_using.
  rewrite !is_true_or, !is_true_eq, owns_restaurant_iff. split.
  - intros [[[x [H1 H2]] | [x [H1 H2]]] | H];
      [left; congruence | right; left; congruence | right; right; exact H].
  - intros [H | [H | H]].
    + left; left. exists c. split; [reflexivity | exact H].
    + left; right. exists c. split; [reflexivity | exact H].
    + right. exact H.
Qed.


Lemma same_iff (a b : option uuid) :
  OrderPolicy.same a b = true <-> b = a.
Proof.
  destruct a as [x|], b as [y|]; cbn; split; try congruence.
  - intros H. apply String.eqb_eq in H. congruence.
  - intros H. injection H as ->. apply String.eqb_refl.
Qed.




Example owner_hands_order_to_driver :
  OrderPolicy.update_row (Some "u-owner") policy_db ready_order
    (OrderPolicy.set_status "delivering" (Some "u-dan") ready_order)
  = OrderPolicy.Updated
  /\ OrderPolicy.update_row (Some "u-owner") policy_db ready_order
       (OrderPolicy.set_status "delivering" (Some "u-nobody") ready_order)
     = OrderPolicy.ForeignKeyViolation.
Proof. split; reflexivity. Qed.

(** X20.  A requester who is neither the driver of an order nor the
    owner of its restaurant changes nothing: whatever new row is asked
    for, the row is left out without an error.  This is the case of the
    update [acceptDelivery] sends for a driver not yet assigned to the
    order, and of a customer updating their own order. *)
Theorem outsider_update_is_skipped (c : uuid) (d : OrderPolicy.database)
    (old new : Schema.orders_row)
    (Hdriver : Schema.o_driver_id old <> Some c)
    (Howner : ~ owner_of c d old) :
  OrderPolicy.update_row (Some c) d old new = OrderPolicy.Skipped.
Proof.
  unfold OrderPolicy.update_row.
  pose proof (update_condition_iff c d old) as Hold.
  destruct (OrderPolicy.granted (Some c)
              (OrderPolicy.update_condition (Some c) d old)).
  - exfalso. destruct (proj1 Hold eq_refl); contradiction.
  - rewrite Bool.andb_false_r. reflexivity.
Qed.

Lemma not_owner_of_policy_db c :
  c <> "u-owner" -> ~ owner_of c policy_db ready_order.
Proof.
  intros Hc [r [[<- | []] [_ H]]]. cbn in H. congruence.
Qed.

Lemma outsider_update_is_skipped_witness :
  OrderPolicy.update_row (Some "u-dan") policy_db ready_order
    (OrderPolicy.set_status "delivering" (Some "u-dan") ready_order)
  = OrderPolicy.Skipped
  /\ OrderPolicy.update_row (Some "u-alice") policy_db ready_order
       (OrderPolicy.set_status "cancelled" None ready_order)
     = OrderPolicy.Skipped.
Proof.
  split.
  - apply outsider_update_is_skipped; [discriminate|].
    apply not_owner_of_policy_db. discriminate.
  - apply outsider_update_is_skipped; [discriminate|].
    apply not_owner_of_policy_db. discriminate.
Defined.

Lemma references_kept_status d status o :
  OrderPolicy.references_kept d o (OrderPolicy.set_status status None o)
  = true.
Proof.
  unfold OrderPolicy.references_kept. cbn.
  rewrite !(proj2 (same_iff _ _) eq_refl). reflexivity.
Qed.

Lemma owner_of_set_status c d status driver o :
  owner_of c d (OrderPolicy.set_status status driver o) <-> owner_of c d o.
Proof. unfold owner_of. cbn. reflexivity. Qed.

(** X21.  The driver of an order who does not own its restaurant can
    set it to any of the seven statuses, but cannot pass it on: an
    update that names another driver is refused by the policy's
    WITH CHECK. *)
Theorem driver_keeps_order (c other : uuid) (d : OrderPolicy.database)
    (old : Schema.orders_row) (s : OrderStatus)
    (Hdriver : Schema.o_driver_id old = Some c)
    (Howner : ~ owner_of c d old)
    (Hother : other <> c) :
  OrderPolicy.update_row (Some c) d old
    (OrderPolicy.set_status (status_name s) None old)
  = OrderPolicy.Updated
  /\ OrderPolicy.update_row (Some c) d old
       (OrderPolicy.set_status (status_name s) (Some other) old)
     = OrderPolicy.PolicyViolation.
Proof.
  assert (Hvis : OrderPolicy.visible (Some c) d old = true)
    by (apply visible_iff; tauto).
  assert (Hold : OrderPolicy.granted (Some c)
                   (OrderPolicy.update_condition (Some c) d old) = true)
    by (apply update_condition_iff; tauto).
  unfold OrderPolicy.update_row. rewrite Hvis, Hold. cbn [andb negb].
  split.
  - replace (OrderPolicy.granted (Some c)
               (OrderPolicy.update_condition (Some c) d
                  (OrderPolicy.set_status (status_name s) None old)))
      with true
      by (symmetry; apply update_condition_iff; left; exact Hdriver).
    cbn [negb]. rewrite references_kept_status.
    destruct s; reflexivity.
  - destruct (OrderPolicy.granted (Some c)
                (OrderPolicy.update_condition (Some c) d
                   (OrderPolicy.set_status (status_name s) (Some other)
                      old))) eqn:E; [|reflexivity].
    exfalso. apply update_condition_iff in E. destruct E as [E | E].
    + cbn in E. congruence.
    + apply owner_of_set_status in E. contradiction.
Qed.

Lemma driver_keeps_order_witness :
  let mine := OrderPolicy.set_status "delivering" (Some "u-dan")
                ready_order in
  OrderPolicy.update_row (Some "u-dan") policy_db mine
    (OrderPolicy.set_status "delivered" None mine)
  = OrderPolicy.Updated
  /\ OrderPolicy.update_row (Some "u-dan") policy_db mine
       (OrderPolicy.set_status "delivered" (Some "u-eve") mine)
     = OrderPolicy.PolicyViolation.
Proof.
  intros mine.
  assert (Howner : ~ owner_of "u-dan" policy_db mine).
  { intros H. apply owner_of_set_status in H.
    revert H. apply not_owner_of_policy_db. discriminate. }
  assert (Hother : "u-eve" <> "u-dan") by discriminate.
  exact (driver_keeps_order "u-dan" "u-eve" policy_db mine delivered
           eq_refl Howner Hother).
Defined.

(** X22.  An order is visible to a requester exactly when the requester
    is signed in and is the order's customer, its driver or the owner of
    its restaurant; a request without user sees no order, not even one
    whose driver is null.  Whoever may update an order may see it. *)
Theorem order_visible_iff (uid : Schema.actor) (d : OrderPolicy.database)
    (o : Schema.orders_row) :
  (OrderPolicy.visible uid d o = true <->
   exists c,
     uid = Some c
     /\ (Schema.o_customer_id o = Some c
         \/ Schema.o_driver_id o = Some c
         \/ owner_of c d o))
  /\ (OrderPolicy.granted uid (OrderPolicy.update_condition uid d o) = true
      -> OrderPolicy.visible uid d o = true).
Proof.
  destruct uid as [c|].
  - split.
    + rewrite visible_iff. split.
      * intros H. exists c. split; [reflexivity | exact H].
      * intros [c' [E H]]. injection E as <-. exact H.
    + intros H. apply update_condition_iff in H. apply visible_iff. tauto.
  - split; [|discriminate].
    split; [discriminate | intros [c [E _]]; discriminate].
Qed.

Example unassigned_order_hidden_from_anonymous :
  Schema.o_driver_id ready_order = None
  /\ OrderPolicy.visible None policy_db ready_order = false
  /\ OrderPolicy.visible (Some "u-dan") policy_db ready_order = false
  /\ OrderPolicy.visible (Some "u-alice") policy_db ready_order = true.
Proof. repeat split. Qed.

(* ================================================================== *)
(** ** Creating a review *)
(* ================================================================== *)

(** A refused insert leaves the store alone. *)
Lemma insert_review_refused rt b d :
  error (fst (Store2.insert_review rt b d)) <> None ->
  snd (Store2.insert_review rt b d) = d.
Proof.
  unfold Store2.insert_review, Store2.failed.
  destruct (Store2.reference (ReviewInsert.restaurant_id b));
    [|reflexivity].
  destruct (Store2.reference (ReviewInsert.customer_id b)); [|reflexivity].
  destruct (Store2.reference (ReviewInsert.order_id b)); [|reflexivity].
  destruct (Store2.integer_of (ReviewInsert.rating b)); [|reflexivity].
  destruct (negb _); [reflexivity|].
  destruct (negb _); [reflexivity|].
  cbn. congruence.
Qed.

(** Every answer of the insert carries an error or a row. *)
Lemma insert_review_answer rt b d :
  error (fst (Store2.insert_review rt b d)) = None ->
  exists row, data (fst (Store2.insert_review rt b d)) = Some row.
Proof.
  unfold Store2.insert_review, Store2.failed.
  destruct (Store2.reference (ReviewInsert.restaurant_id b));
    [|discriminate].
  destruct (Store2.reference (ReviewInsert.customer_id b)); [|discriminate].
  destruct (Store2.reference (ReviewInsert.order_id b)); [|discriminate].
  destruct (Store2.integer_of (ReviewInsert.rating b)); [|discriminate].
  destruct (negb _); [discriminate|].
  destruct (negb _); [discriminate|].
  cbn. intros _. eexists. reflexivity.
Qed.

(** A stored review: the row the insert answers with, and the store
    after it. *)
Lemma insert_review_stored rt b d row d1 :
  Store2.insert_review rt b d = (mkResponse (Some row) None, d1) ->
  Store2.reference (ReviewInsert.restaurant_id b)
  = Some (ReviewRow.restaurant_id row)
  /\ Store2.integer_of (ReviewInsert.rating b) = Some (ReviewRow.rating row)
  /\ (1 <= ReviewRow.rating row <= 5)%Z
  /\ Schema.references (ReviewRow.restaurant_id row)
       (map RestaurantRow.id (DB.restaurants d)) = true
  /\ ReviewRow.id row = gen_random_uuid rt d
  /\ d1 = Store.written rt (db_with_reviews (DB.reviews d ++ [row]) d).
Proof.
  unfold Store2.insert_review, Store2.failed.
  destruct (Store2.reference (ReviewInsert.restaurant_id b)) as [r|];
    [|discriminate].
  destruct (Store2.reference (ReviewInsert.customer_id b)) as [c|];
    [|discriminate].
  destruct (Store2.reference (ReviewInsert.order_id b)) as [o|];
    [|discriminate].
  destruct (Store2.integer_of (ReviewInsert.rating b)) as [z|];
    [|discriminate].
  destruct ((1 <=? z)%Z && (z <=? 5)%Z) eqn:Ez; cbn [negb];
    [|discriminate].
  destruct (Schema.references r _ && _ && _) eqn:Ef; cbn [negb];
    [|discriminate].
  intros H. injection H as <- <-. cbn.
  apply Bool.andb_true_iff in Ez. destruct Ez as [E1 E2].
  apply Z.leb_le in E1. apply Z.leb_le in E2.
  apply Bool.andb_true_iff in Ef. destruct Ef as [Ef _].
  apply Bool.andb_true_iff in Ef. destruct Ef as [Ef _].
  repeat split; assumption.
Qed.

Lemma reviews_of_new_review rt restaurantId row d :
  ReviewRow.restaurant_id row = Some restaurantId ->
  Store.reviews_of restaurantId
    (Store.written rt (db_with_reviews (DB.reviews d ++ [row]) d))
  = (Store.reviews_of restaurantId d ++ [row])%list.
Proof.
  intros H. unfold Store.reviews_of. cbn.
  rewrite filter_app. cbn. rewrite H, String.eqb_refl. reflexivity.
Qed.

(** X23.  Review, then rating: when the store accepts the insert of the
    review and stores it (its references name rows, its rating is an
    integer from 1 to 5), answers the read and the update of the
    aggregation and hides no review from the read, [createReview]
    returns the new row, the store holds it after the reviews it had,
    and the update that follows changes the restaurant rows it reaches
    to the average as JavaScript computes it: with ratings whose sizes
    add up below [2^53], the binary64 number nearest to the mean of the
    restaurant's earlier ratings and the new one.  Rows the update does
    not reach keep their rating. *)
Theorem createReview_updates_mean (rt : Runtime) (ex : Extras) (a : App)
    (reviewData : Js.object) (restaurantId : uuid) (row : ReviewRow.t)
    (d1 : DB.t)
    (Hid : Js.get reviewData "restaurant_id" = Js.String restaurantId)
    (Hinsert : refuses ex (remote (world a))
                 (InsertReview (Reviews.review_body ex reviewData)) = None)
    (Hstored : Store2.insert_review rt (Reviews.review_body ex reviewData)
                 (remote (world a))
               = (mkResponse (Some row) None, d1))
    (Hread : rejects rt d1 (SelectRatings restaurantId) = None)
    (Hwrite : forall x, rejects rt d1 (UpdateRating restaurantId x) = None)
    (Hshown : forall v, In v (DB.reviews d1) ->
                hides rt d1 (SelectRatings restaurantId) (ReviewRow.id v)
                = false) :
  let d := remote (world a) in
  let R := (map ReviewRow.rating (Store.reviews_of restaurantId d)
            ++ [ReviewRow.rating row])%list in
  let x := reviewService.average (map Js.ofZ R) in
  exists a',
    Reviews.createReview rt ex reviewData a = (Return (Some row), a')
    /\ DB.reviews (remote (world a')) = (DB.reviews d ++ [row])%list
    /\ (1 <= ReviewRow.rating row <= 5)%Z
    /\ requests (world a')
       = (requests (world a)
          ++ [SelectRatings restaurantId;
              UpdateRating restaurantId x])%list
    /\ ((sum (map Z.abs R) < 2 ^ 53)%Z -> x = Js.round (mean R))
    /\ Forall2 (rerated rt d1 restaurantId x)
         (DB.restaurants d) (DB.restaurants (remote (world a'))).
Proof.
  intros d R x.
  destruct (insert_review_stored _ _ _ _ _ Hstored)
    as [Hr [_ [Hz [_ [_ Hd1]]]]].
  assert (Hrow : ReviewRow.restaurant_id row = Some restaurantId).
  { unfold Reviews.review_body in Hr.
    cbn [ReviewInsert.restaurant_id] in Hr. rewrite Hid in Hr.
    cbn [Store2.reference] in Hr. injection Hr as Hr.
    symmetry. exact Hr. }
  assert (HR : Store.ratings_of rt restaurantId d1 = R).
  { unfold Store.ratings_of.
    rewrite reached_all
      by (intros v Hv; apply Hshown; unfold Store.reviews_of in Hv;
          apply filter_In in Hv; exact (proj1 Hv)).
    rewrite Hd1, (reviews_of_new_review _ _ _ _ Hrow), map_app.
    reflexivity. }
  unfold Reviews.createReview, Reviews.updateRestaurantRating,
    Page.bind, Page.throw_error, Page.ret, Page.lift, Store2.ask.
  rewrite Hinsert, Hstored. cbn [error data]. rewrite Hid.
  cbn [world with_world log_query remote with_remote].
  rewrite updateRestaurantRating_run. cbv zeta.
  cbn [remote with_remote log_request]. rewrite Hread, HR. fold x.
  destruct R as [|z l] eqn:ER.
  { destruct (map ReviewRow.rating (Store.reviews_of restaurantId d));
      discriminate. }
  rewrite Hwrite.
  eexists. split; [reflexivity|].
  cbn [world with_world remote with_remote snd requests log_request].
  split; [rewrite Hd1; reflexivity|].
  split; [exact Hz|].
  split; [cbn; rewrite <- app_assoc; reflexivity|].
  split.
  - intros Hsum. subst x. apply average_is_rounded_mean;
      [discriminate | exact Hsum].
  - replace (DB.restaurants d) with (DB.restaurants d1)
      by (rewrite Hd1; reflexivity).
    cbn. apply Forall2_map_self. intros r. apply where_reached_rerated.
Qed.

Lemma createReview_updates_mean_witness :
  let a := sample_app (Some alice) [review "v-1" 5] in
  exists a' row,
    Reviews.createReview accepting accepting_more (alice_review 3) a
    = (Return (Some row), a')
    /\ ReviewRow.rating row = 3%Z
    /\ map RestaurantRow.rating (DB.restaurants (remote (world a')))
       = [Js.Fin 4].
Proof.
  intros a.
  destruct (createReview_updates_mean accepting accepting_more a
              (alice_review 3) "r-bistro" _ _
              eq_refl eq_refl eq_refl eq_refl (fun _ => eq_refl)
              (fun _ _ => eq_refl))
    as [a' [Hrun _]].
  exists a'. eexists. split; [exact Hrun|].
  vm_compute in Hrun. injection Hrun as <-. split; reflexivity.
Defined.

Example createReview_rounds :
  let a := sample_app (Some alice) [review "v-1" 5; review "v-2" 4] in
  map RestaurantRow.rating
    (DB.restaurants
       (remote (world (snd (Reviews.createReview accepting accepting_more
                              (alice_review 4) a)))))
  = [Js.Fin (4878899596318037 # 1125899906842624)].
Proof.
  vm_compute. reflexivity.
Qed.

(** X24.  When the store refuses the insert, or answers it with an
    error because the review does not fit the table (a reference that is
    no uuid or names no row, a rating that [parseInt] reads as NaN, that
    is no integer or lies outside 1..5), [createReview] throws that
    error and the rating is not recomputed: no request of the
    aggregation is sent and the store is as before. *)
Theorem createReview_refused (rt : Runtime) (ex : Extras) (a : App)
    (reviewData : Js.object)
    (Hbad : refuses ex (remote (world a))
              (InsertReview (Reviews.review_body ex reviewData)) <> None
            \/ error (fst (Store2.insert_review rt
                             (Reviews.review_body ex reviewData)
                             (remote (world a)))) <> None) :
  exists e a',
    Reviews.createReview rt ex reviewData a = (Throw e, a')
    /\ requests (world a') = requests (world a)
    /\ remote (world a') = remote (world a)
    /\ queries a'
       = (queries a
          ++ [InsertReview (Reviews.review_body ex reviewData)])%list.
Proof.
  unfold Reviews.createReview, Page.bind, Page.throw_error, Page.throw,
    Page.ret, Store2.ask.
  destruct (refuses ex (remote (world a)) _) as [e|] eqn:Er.
  - cbn. eexists; eexists. split; [reflexivity|]. repeat split.
  - destruct Hbad as [H | H]; [congruence|].
    pose proof (insert_review_refused _ _ _ H) as Hd.
    destruct (Store2.insert_review rt _ (remote (world a))) as [r d'].
    cbn in H, Hd. subst d'.
    destruct (error r) as [e|]; [|contradiction].
    eexists; eexists. split; [reflexivity|]. cbn.
    destruct a as [[]]; repeat split.
Qed.

Lemma createReview_refused_witness :
  let a := sample_app (Some alice) [review "v-1" 5] in
  (exists a',
     Reviews.createReview accepting accepting_more (alice_review 6) a
     = (Throw (Js.Error "check constraint violated: reviews_rating_check"),
        a')
     /\ requests (world a') = []
     /\ remote (world a') = remote (world a))
  /\ (exists e a',
        Reviews.createReview accepting accepting_more
          [ ("restaurant_id", Js.String "r-bistro");
            ("customer_id", Js.String "u-alice");
            ("order_id", Js.String "o-1");
            ("rating", Js.String "five") ] a
        = (Throw e, a')
        /\ requests (world a') = []).
Proof.
  intros a. split.
  - assert (Hbad : error (fst (Store2.insert_review accepting
                                 (Reviews.review_body accepting_more
                                    (alice_review 6))
                                 (remote (world a)))) <> None)
      by discriminate.
    destruct (createReview_refused accepting accepting_more a
                (alice_review 6) (or_intror Hbad))
      as [e [a' [Hrun [Hreq [Hrem _]]]]].
    exists a'. split; [|split; assumption].
    rewrite Hrun. vm_compute in Hrun. injection Hrun as <- _. reflexivity.
  - assert (Hbad : error (fst (Store2.insert_review accepting
                                 (Reviews.review_body accepting_more
                                    [ ("restaurant_id",
                                       Js.String "r-bistro");
                                      ("customer_id", Js.String "u-alice");
                                      ("order_id", Js.String "o-1");
                                      ("rating", Js.String "five") ])
                                 (remote (world a)))) <> None)
      by discriminate.
    destruct (createReview_refused accepting accepting_more a _
                (or_intror Hbad))
      as [e [a' [Hrun [Hreq _]]]].
    exists e, a'. split; assumption.
Defined.

(** A review without restaurant is stored, as the table allows; the
    aggregation then asks for the ratings of [null], which the store
    answers with an error, and no rating is updated. *)
Example createReview_without_restaurant :
  let a := sample_app (Some alice) [review "v-1" 5] in
  let result :=
    Reviews.createReview accepting accepting_more
      [ ("customer_id", Js.String "u-alice");
        ("rating", Js.Number (Js.Fin 2)) ] a in
  (exists row,
     fst result = Return (Some row)
     /\ ReviewRow.restaurant_id row = None
     /\ DB.reviews (remote (world (snd result))) = [review "v-1" 5; row])
  /\ requests (world (snd result)) = []
  /\ DB.restaurants (remote (world (snd result))) = [bistro].
Proof.
  intros a result. vm_compute.
  split; [|split; reflexivity].
  eexists. split; [reflexivity|]. split; reflexivity.
Qed.

(* ================================================================== *)
(** ** Accounts and the session *)
(* ================================================================== *)

Lemma email_free_filter email d :
  Store2.email_taken email d = false ->
  filter (fun u => String.eqb (UserRow.email u) email) (DB.users d) = [].
Proof.
  unfold Store2.email_taken. induction (DB.users d) as [|u l IH]; cbn.
  - reflexivity.
  - destruct (String.eqb (UserRow.email u) email); cbn;
      [discriminate | exact IH].
Qed.

Lemma role_listed role :
  In role Store2.roles -> existsb (String.eqb role) Store2.roles = true.
Proof.
  intros H. apply existsb_exists. exists role.
  split; [exact H | apply String.eqb_refl].
Qed.

(** X25.  Register, then log in: when the email is not taken, the role
    is one of the six of the table, the store accepts both requests and
    hides no row from a read, and a password verifies against its own
    hash, [register] returns a user with the given email and a following
    [login] with the same email and password returns that same user. *)
Theorem register_then_login (rt : Runtime) (ex : Extras) (a : App)
    (userData : RegisterData.t)
    (Hfree : Store2.email_taken (RegisterData.email userData)
               (remote (world a)) = false)
    (Hrole : In (RegisterData.role userData) Store2.roles)
    (Hask : forall d q, refuses ex d q = None)
    (Haccept : forall d r, rejects rt d r = None)
    (Hshown : forall d r i, hides rt d r i = false)
    (Hhash : forall d p, bcrypt_compare rt p (bcrypt_hash ex d p) = true) :
  exists u a1,
    Accounts.register rt ex userData a = (Return u, a1)
    /\ User.email u = RegisterData.email userData
    /\ length (DB.users (remote (world a1)))
       = S (length (DB.users (remote (world a))))
    /\ fst (authService.login rt (RegisterData.email userData)
              (RegisterData.password userData) (world a1))
       = Return u.
Proof.
  unfold Accounts.register, Page.bind, Page.gets, Page.throw_error,
    Page.ret, Store2.ask, Store2.insert_user.
  rewrite Hask. cbn [UserInsert.email UserInsert.role].
  rewrite Hfree, (role_listed _ Hrole). cbn [negb error data].
  eexists; eexists. split; [reflexivity|].
  split; [reflexivity|].
  cbn [world with_world log_query remote with_remote].
  split; [cbn; rewrite length_app; cbn; lia|].
  unfold authService.login, bind, throw_error, ret, Store.send,
    Store.select_user_by_email.
  rewrite Haccept. rewrite reached_all by (intros; apply Hshown).
  cbn [remote with_remote DB.users db_with_users Store.written DB.with_now].
  rewrite filter_app, (email_free_filter _ _ Hfree). cbn.
  rewrite String.eqb_refl. cbn. rewrite Hhash. reflexivity.
Qed.

Lemma register_then_login_witness :
  let a := sample_app None [] in
  exists u a1,
    Accounts.register accepting accepting_more bob_data a = (Return u, a1)
    /\ User.email u = "bob@example.com"
    /\ fst (authService.login accepting "bob@example.com" "hunter2"
              (world a1)) = Return u
    /\ fst (authService.login accepting "bob@example.com" "hunter3"
              (world a1)) = Throw (Js.Error "Invalid credentials").
Proof.
  intros a.
  assert (Hrole : In (RegisterData.role bob_data) Store2.roles)
    by (left; reflexivity).
  assert (Hhash : forall (d : DB.t) p,
             bcrypt_compare accepting p (bcrypt_hash accepting_more d p)
             = true).
  { intros d p. cbn. apply String.eqb_refl. }
  destruct (register_then_login accepting accepting_more a bob_data
              eq_refl Hrole (fun _ _ => eq_refl) (fun _ _ => eq_refl)
              (fun _ _ _ => eq_refl) Hhash)
    as [u [a1 [Hrun [Hmail [_ Hlogin]]]]].
  exists u, a1. split; [exact Hrun|]. split; [exact Hmail|].
  split; [exact Hlogin|].
  vm_compute in Hrun. injection Hrun as <- <-. reflexivity.
Defined.

(** X26.  [register] with an email some user already has, or with a
    role outside the six of the table, throws the store's error and
    adds no user, even when the store's policies accept the insert. *)
Theorem register_refused_by_constraints (rt : Runtime) (ex : Extras)
    (a : App) (userData : RegisterData.t)
    (Hbad : Store2.email_taken (RegisterData.email userData)
              (remote (world a)) = true
            \/ ~ In (RegisterData.role userData) Store2.roles) :
  exists e a1,
    Accounts.register rt ex userData a = (Throw e, a1)
    /\ remote (world a1) = remote (world a).
Proof.
  unfold Accounts.register, Page.bind, Page.gets, Page.throw_error,
    Page.throw, Page.ret, Store2.ask, Store2.insert_user.
  destruct (refuses ex (remote (world a)) _) as [e|].
  { cbn. eexists; eexists. split; reflexivity. }
  cbn [UserInsert.email UserInsert.role].
  destruct (Store2.email_taken (RegisterData.email userData)
              (remote (world a))) eqn:Et.
  { cbn. eexists; eexists. split; [reflexivity|]. destruct a as [[]].
    reflexivity. }
  destruct Hbad as [H | H]; [discriminate|].
  destruct (existsb (String.eqb (RegisterData.role userData)) Store2.roles)
    eqn:Er.
  { exfalso. apply H. apply existsb_exists in Er.
    destruct Er as [x [Hin Hx]]. apply String.eqb_eq in Hx. subst x.
    exact Hin. }
  cbn. eexists; eexists. split; [reflexivity|]. destruct a as [[]].
  reflexivity.
Qed.

Lemma register_refused_by_constraints_witness :
  let a := sample_app None [] in
  exists e a1,
    Accounts.register accepting accepting_more
      (RegisterData.Build "alice@example.com" "pw" "Alice II" None None
                          "customer") a
    = (Throw e, a1)
    /\ remote (world a1) = remote (world a).
Proof.
  intros a.
  exact (register_refused_by_constraints accepting accepting_more a
           (RegisterData.Build "alice@example.com" "pw" "Alice II" None
                               None "customer")
           (or_introl eq_refl)).
Defined.

(** X27.  The container's [login] never throws.  It answers [true]
    exactly when [authService.login] returns a user, and then both the
    session and the stored item hold that user; it answers [false] when
    the service throws, and then session and stored item are as before.
    [logout] clears both, whatever they held. *)
Theorem session_login_logout (rt : Runtime) (a : App)
    (email password : string) :
  (exists ok a',
      AuthProvider.login rt email password a = (Return ok, a')
      /\ (ok = true ->
          exists u,
            fst (authService.login rt email password (world a)) = Return u
            /\ user (world a') = Some u
            /\ stored_user a' = Some u)
      /\ (ok = false ->
          (exists e,
              fst (authService.login rt email password (world a)) = Throw e)
          /\ user (world a') = user (world a)
          /\ stored_user a' = stored_user a))
  /\ (exists a',
        AuthProvider.logout a = (Return tt, a')
        /\ user (world a') = None
        /\ stored_user a' = None
        /\ remote (world a') = remote (world a)).
Proof.
  split.
  - unfold AuthProvider.login, AuthProvider.setItem, AuthProvider.setUser,
      Page.try_catch, Page.bind, Page.lift, Page.modify, Page.ret.
    destruct (authService.login rt email password (world a))
      as [[u|e] w'] eqn:E.
    + eexists; eexists. split; [reflexivity|]. split.
      * intros _. exists u. repeat split.
      * discriminate.
    + assert (Hw : user w' = user (world a)).
      { revert E. unfold authService.login, bind, throw_error, throw, ret,
          Store.send, Store.select_user_by_email.
        destruct (rejects rt (remote (world a)) _);
          [intros H; injection H as _ <-; reflexivity|].
        destruct (Store.reached rt _ _ _ _) as [|r [|]]; cbn;
          try (intros H; injection H as _ <-; reflexivity).
        destruct (bcrypt_compare rt password (UserRow.password_hash r));
          cbn; intros H; [discriminate|].
        injection H as _ <-. reflexivity. }
      eexists; eexists. split; [reflexivity|]. split; [discriminate|].
      intros _. split; [exists e; reflexivity|].
      split; [exact Hw | reflexivity].
  - eexists. split; [reflexivity|]. repeat split.
Qed.

(** X28.  The effect run on mount never throws and always switches the
    loading flag off.  With nothing stored it does nothing else.  With a
    stored user it asks the store for the row with that id: if the store
    answers and lets the query see exactly one such row, the session is
    set to that row (as the store holds it now) and the stored item is
    kept; otherwise (query refused, no such user or the row hidden from
    the query, several rows) the stored item is removed and the session
    is left as it was. *)
Theorem restore_session (rt : Runtime) (ex : Extras) (a : App) :
  let result := AuthProvider.restore ex a in
  let a' := snd result in
  fst result = Return tt
  /\ auth_loading a' = false
  /\ remote (world a') = remote (world a)
  /\ (stored_user a = None ->
      queries a' = queries a
      /\ user (world a') = user (world a)
      /\ stored_user a' = None)
  /\ (forall s, stored_user a = Some s ->
        let q := SelectUserById (User.id s) in
        let seen := Store2.reached ex q UserRow.id (remote (world a))
                      (users_with_id (User.id s) (remote (world a))) in
        queries a' = (queries a ++ [q])%list
        /\ (forall row,
              refuses ex (remote (world a)) q = None ->
              seen = [row] ->
              user (world a') = Some (verified_user row)
              /\ stored_user a' = Some s)
        /\ (refuses ex (remote (world a)) q <> None
            \/ length seen <> 1%nat
            ->
            user (world a') = user (world a)
            /\ stored_user a' = None)).
Proof.
  intros result a'. subst a' result.
  unfold AuthProvider.restore, Accounts.verify, AuthProvider.setUser,
    AuthProvider.setLoading, AuthProvider.removeItem,
    Page.try_finally, Page.try_catch, Page.bind, Page.gets, Page.modify,
    Page.throw_error, Page.throw, Page.ret,
    Store2.ask, Store2.select_user_by_id, users_with_id.
  destruct (stored_user a) as [s|] eqn:Es.
  2:{ cbn. rewrite ?Es. repeat (split; [reflexivity|]).
      split; [intros _; repeat split | intros s0 H; discriminate]. }
  destruct (refuses ex (remote (world a)) (SelectUserById (User.id s)))
    as [e|] eqn:Er.
  { cbn. repeat (split; [reflexivity|]).
    split; [discriminate|].
    intros s0 H. injection H as <-. cbn. rewrite Er.
    split; [reflexivity|]. split.
    - intros row H. discriminate.
    - intros _. split; reflexivity. }
  destruct (Store2.reached ex _ _ _ _) as [|r [|r' l]] eqn:Ef;
    cbn; repeat (split; [reflexivity|]);
    (split; [discriminate|]);
    intros s0 H; injection H as <-; rewrite Ef;
    (split; [reflexivity|]); split.
  - intros row _ H. discriminate.
  - intros _. split; reflexivity.
  - intros row _ H. injection H as <-. split; [reflexivity | exact Es].
  - intros [H | H]; [congruence | cbn in H; congruence].
  - intros row _ H. discriminate.
  - intros _. split; reflexivity.
Qed.

Example restore_known_user :
  let a := with_stored_user (Some alice) (sample_app None []) in
  let a' := snd (AuthProvider.restore accepting_more a) in
  user (world a') = Some alice /\ auth_loading a' = false.
Proof. split; reflexivity. Qed.

Example restore_unknown_user :
  let a := with_stored_user (Some dan) (sample_app None []) in
  let a' := snd (AuthProvider.restore accepting_more a) in
  user (world a') = None /\ stored_user a' = None.
Proof. split; reflexivity. Qed.

Example restore_hidden_user :
  let a := with_stored_user (Some alice) (sample_app None []) in
  let a' := snd (AuthProvider.restore anonymous_more a) in
  user (world a') = None /\ stored_user a' = None
  /\ queries a' = [SelectUserById "u-alice"].
Proof. repeat split. Qed.

(* ================================================================== *)
(** ** Editing the menu *)
(* ================================================================== *)

(** What the container's [updateMenuItem] does, by the store's answer. *)
Lemma updateMenuItem_run rt ex a itemId updates :
  let q := UpdateMenuItem itemId updates in
  let clear (w : World) :=
    with_menuState
      (MenuState.Build (MenuState.menuItems (menuState w))
         (MenuState.loading (menuState w)) None) w in
  MenuEditor.updateMenuItem rt ex itemId updates a
  = match refuses ex (remote (world a)) q with
    | Some e =>
        let msg := message_or e "Failed to update menu item" in
        (Throw (Js.Error msg),
         with_world
           (with_menuState
              (MenuState.Build (MenuState.menuItems (menuState (world a)))
                 (MenuState.loading (menuState (world a))) (Some msg))
              (world a))
           (log_query q a))
    | None =>
        let w1 :=
          with_remote
            (snd (Store2.update_menu_item rt ex itemId updates
                    (remote (world a))))
            (clear (world a)) in
        match cached_item itemId a with
        | Some i =>
            (Return tt,
             with_world
               (snd (MenuContext.fetchMenuItems rt
                       (MenuItemRow.restaurant_id i) w1))
               (log_query q a))
        | None => (Return tt, with_world w1 (log_query q a))
        end
    end.
Proof.
  intros q clear. subst q clear.
  unfold MenuEditor.updateMenuItem, MenuEditor.find_item,
    MenuItems.updateMenuItem, MenuContext.setError, cached_item,
    Page.try_catch, Page.bind, Page.lift, Page.gets, Page.throw_error,
    Page.throw, Page.ret, Store2.ask, Store2.update_menu_item, modify.
  cbn [world with_world remote with_menuState log_query].
  destruct (refuses ex (remote (world a)) _) as [e|]; [reflexivity|].
  cbn [error data world with_world log_query remote with_remote
       menuState with_menuState MenuState.menuItems].
  destruct (find _ (MenuState.menuItems (menuState (world a)))) as [i|];
    [|reflexivity].
  rewrite !fetchMenuItems_run. reflexivity.
Qed.

Lemma fetchMenuItems_remote rt restaurantId w :
  remote (snd (MenuContext.fetchMenuItems rt restaurantId w)) = remote w.
Proof. rewrite fetchMenuItems_run. reflexivity. Qed.

(** X29.  [toggleAvailability] looks the item up in the cached menu.  If
    it is not cached, nothing is sent and nothing changes.  If it is,
    one update is sent and, once the store answers it, the store holds
    as many items as before.  When the update reaches the item, every
    stored item with that id is available exactly when the cached copy
    was not (whatever the store held), with its other columns but
    [updated_at] as before, and items with another id are untouched.
    When the store keeps the item from the update, the call still
    returns and the stored items are all as they were. *)
Theorem toggleAvailability_negates_cached (rt : Runtime) (ex : Extras)
    (a : App) (itemId : uuid) :
  (cached_item itemId a = None ->
     MenuEditor.toggleAvailability rt ex itemId a = (Return tt, a))
  /\ (forall i,
        cached_item itemId a = Some i ->
        let q := UpdateMenuItem itemId
                   (MenuItemUpdate.only_available
                      (negb (MenuItemRow.available i))) in
        refuses ex (remote (world a)) q = None ->
        let result := MenuEditor.toggleAvailability rt ex itemId a in
        let stored := DB.menu_items (remote (world (snd result))) in
        fst result = Return tt
        /\ queries (snd result) = (queries a ++ [q])%list
        /\ length stored = length (DB.menu_items (remote (world a)))
        /\ (conceals ex (remote (world a)) q itemId = false ->
            (forall m, In m stored -> MenuItemRow.id m = itemId ->
               MenuItemRow.available m = negb (MenuItemRow.available i))
            /\ (forall m, In m (DB.menu_items (remote (world a))) ->
                  MenuItemRow.id m = itemId ->
                  exists m',
                    In m' stored
                    /\ MenuItemRow.id m' = itemId
                    /\ MenuItemRow.restaurant_id m'
                       = MenuItemRow.restaurant_id m
                    /\ MenuItemRow.name m' = MenuItemRow.name m
                    /\ MenuItemRow.description m'
                       = MenuItemRow.description m
                    /\ MenuItemRow.category m' = MenuItemRow.category m
                    /\ MenuItemRow.price m' = MenuItemRow.price m
                    /\ MenuItemRow.image m' = MenuItemRow.image m
                    /\ MenuItemRow.created_at m'
                       = MenuItemRow.created_at m)
            /\ (forall m, In m (DB.menu_items (remote (world a))) ->
                  MenuItemRow.id m <> itemId -> In m stored))
        /\ (conceals ex (remote (world a)) q itemId = true ->
            stored = DB.menu_items (remote (world a)))).
Proof.
  split.
  - intros Hc. unfold MenuEditor.toggleAvailability, MenuEditor.find_item,
      Page.try_catch, Page.bind, Page.gets, Page.ret.
    unfold cached_item in Hc. rewrite Hc. reflexivity.
  - intros i Hc q Hacc result stored. subst stored result.
    unfold MenuEditor.toggleAvailability, MenuEditor.find_item,
      Page.try_catch, Page.bind, Page.gets, Page.ret.
    pose proof Hc as Hc'. unfold cached_item in Hc'. rewrite Hc'.
    rewrite updateMenuItem_run. cbv zeta. fold q. rewrite Hacc, Hc.
    cbn [fst snd world with_world queries log_query].
    rewrite fetchMenuItems_remote. unfold Store2.update_menu_item.
    fold q.
    cbn [snd remote with_remote DB.menu_items DB.with_menu_items
         Store.written DB.with_now].
    split; [reflexivity|]. split; [reflexivity|].
    split; [apply length_map|]. split.
    + intros Hseen. split; [|split].
      * intros m Hm Hid. apply in_map_iff in Hm.
        destruct Hm as [m0 [<- _]].
        destruct (String.eqb_spec (MenuItemRow.id m0) itemId) as [E|E].
        -- rewrite E, Hseen. unfold Store2.apply_item_update.
           rewrite E, String.eqb_refl. reflexivity.
        -- exfalso. apply E. revert Hid.
           destruct (conceals ex (remote (world a)) q (MenuItemRow.id m0));
             [tauto|].
           unfold Store2.apply_item_update.
           destruct (String.eqb_spec (MenuItemRow.id m0) itemId);
             [contradiction | tauto].
      * intros m Hm Hid.
        exists (Store2.apply_item_update itemId
                  (MenuItemUpdate.only_available
                     (negb (MenuItemRow.available i)))
                  (DB.now (remote (world a))) m).
        split.
        -- apply in_map_iff. exists m. split; [|exact Hm].
           rewrite Hid, Hseen. reflexivity.
        -- unfold Store2.apply_item_update. rewrite Hid, String.eqb_refl.
           cbn. repeat split.
      * intros m Hm Hid. apply in_map_iff. exists m. split; [|exact Hm].
        destruct (conceals ex (remote (world a)) q (MenuItemRow.id m));
          [reflexivity|].
        unfold Store2.apply_item_update.
        destruct (String.eqb_spec (MenuItemRow.id m) itemId);
          [contradiction | reflexivity].
    + intros Hhidden. rewrite <- (map_id (DB.menu_items _)) at 2.
      apply map_ext. intros m.
      destruct (String.eqb_spec (MenuItemRow.id m) itemId) as [E|E].
      * rewrite E, Hhidden. reflexivity.
      * destruct (conceals ex (remote (world a)) q (MenuItemRow.id m));
          [reflexivity|].
        unfold Store2.apply_item_update.
        destruct (String.eqb_spec (MenuItemRow.id m) itemId);
          [contradiction | reflexivity].
Qed.

Example toggle_twice_restores :
  let a1 := snd (MenuEditor.toggleAvailability accepting accepting_more
                   "m-1" menu_app) in
  let a2 := snd (MenuEditor.toggleAvailability accepting accepting_more
                   "m-1" a1) in
  map MenuItemRow.available (DB.menu_items (remote (world a1))) = [false]
  /\ map MenuItemRow.available (MenuState.menuItems (menuState (world a1)))
     = [false]
  /\ map MenuItemRow.available (DB.menu_items (remote (world a2))) = [true].
Proof. repeat split. Qed.

(** What the container's [deleteMenuItem] does, by the store's answer. *)
Lemma deleteMenuItem_run rt ex a itemId :
  let q := DeleteMenuItem itemId in
  let cell e (w : World) :=
    with_menuState
      (MenuState.Build (MenuState.menuItems (menuState w))
         (MenuState.loading (menuState w)) e) w in
  MenuEditor.deleteMenuItem rt ex itemId a
  = match refuses ex (remote (world a)) q with
    | Some e =>
        let msg := message_or e "Failed to delete menu item" in
        (Throw (Js.Error msg),
         with_world (cell (Some msg) (world a)) (log_query q a))
    | None =>
        let w1 :=
          with_remote
            (snd (Store2.delete_menu_item rt ex itemId (remote (world a))))
            (cell None (world a)) in
        match cached_item itemId a with
        | Some i =>
            (Return tt,
             with_world
               (snd (MenuContext.fetchMenuItems rt
                       (MenuItemRow.restaurant_id i) w1))
               (log_query q a))
        | None => (Return tt, with_world w1 (log_query q a))
        end
    end.
Proof.
  cbv zeta.
  unfold MenuEditor.deleteMenuItem, MenuEditor.find_item,
    MenuItems.deleteMenuItem, Store2.ask, Store2.delete_menu_item,
    MenuContext.setError, cached_item,
    Page.try_catch, Page.bind, Page.lift, Page.gets, Page.throw_error,
    Page.throw, Page.ret, modify.
  cbn.
  destruct (refuses ex (remote (world a)) (DeleteMenuItem itemId)); cbn;
    [reflexivity|].
  destruct (find _ (MenuState.menuItems (menuState (world a)))); cbn;
    [|reflexivity].
  rewrite !fetchMenuItems_run. reflexivity.
Qed.

Lemma fetchMenuItems_cache_from_store rt restaurantId w m :
  In m (MenuState.menuItems
          (menuState (snd (MenuContext.fetchMenuItems rt restaurantId w)))) ->
  In m (DB.menu_items (remote w)).
Proof.
  rewrite fetchMenuItems_run. cbn.
  destruct (rejects rt (remote w) _); cbn; [contradiction|].
  rewrite In_order_by, In_reached, filter_In. tauto.
Qed.

Lemma find_none_id (itemId : uuid) (l : list MenuItemRow.t) m :
  find (fun item => String.eqb (MenuItemRow.id item) itemId) l = None ->
  In m l -> MenuItemRow.id m <> itemId.
Proof.
  intros Hf Hin E. apply (find_none _ _ Hf) in Hin. cbv beta in Hin.
  rewrite E, String.eqb_refl in Hin. discriminate.
Qed.

(** X30.  [deleteMenuItem] sends one delete.  When the store answers it,
    the call returns and the store holds exactly the items that have
    another id or that the store keeps from the delete: if the delete
    reaches the item, no item with that id is left in the store, nor in
    the cached menu afterwards, whether or not the item was cached and
    whatever the store answers to the refetch; if the store keeps the
    item from the delete, the stored items are all as they were.  A
    refused delete throws [error.message] (or the fallback text) and
    leaves both the store and the cached menu as they were. *)
Theorem deleteMenuItem_removes_item (rt : Runtime) (ex : Extras)
    (a : App) (itemId : uuid) :
  let q := DeleteMenuItem itemId in
  let result := MenuEditor.deleteMenuItem rt ex itemId a in
  let stored := DB.menu_items (remote (world (snd result))) in
  let cached := MenuState.menuItems (menuState (world (snd result))) in
  queries (snd result) = (queries a ++ [q])%list
  /\ (refuses ex (remote (world a)) q = None ->
        fst result = Return tt
        /\ (forall m, In m stored <->
              In m (DB.menu_items (remote (world a)))
              /\ (MenuItemRow.id m <> itemId
                  \/ conceals ex (remote (world a)) q itemId = true))
        /\ (conceals ex (remote (world a)) q itemId = false ->
            forall m, In m cached -> MenuItemRow.id m <> itemId)
        /\ (conceals ex (remote (world a)) q itemId = true ->
            stored = DB.menu_items (remote (world a))))
  /\ (forall e, refuses ex (remote (world a)) q = Some e ->
        fst result
        = Throw (Js.Error (message_or e "Failed to delete menu item"))
        /\ remote (world (snd result)) = remote (world a)
        /\ cached = MenuState.menuItems (menuState (world a))
        /\ MenuState.error (menuState (world (snd result)))
           = Some (message_or e "Failed to delete menu item")).
Proof.
  intros q result stored cached. subst stored cached result q.
  rewrite deleteMenuItem_run. cbv zeta.
  destruct (refuses ex (remote (world a)) (DeleteMenuItem itemId)) as [e|].
  - split; [reflexivity|]. split; [discriminate|].
    intros e' [= <-]. repeat split.
  - split; [|split; [|discriminate]].
    + destruct (cached_item itemId a); reflexivity.
    + intros _.
      set (kept := fun m : MenuItemRow.t =>
             negb (String.eqb (MenuItemRow.id m) itemId)
             || conceals ex (remote (world a)) (DeleteMenuItem itemId)
                  (MenuItemRow.id m)).
      assert (Hall : conceals ex (remote (world a)) (DeleteMenuItem itemId)
                       itemId = true ->
                     filter kept (DB.menu_items (remote (world a)))
                     = DB.menu_items (remote (world a))).
      { intros Hhidden.
        induction (DB.menu_items (remote (world a))) as [|m l IH];
          [reflexivity|].
        cbn. replace (kept m) with true; [rewrite IH; reflexivity|].
        unfold kept.
        destruct (String.eqb_spec (MenuItemRow.id m) itemId) as [E|E];
          cbn; [rewrite E, Hhidden|]; reflexivity. }
      assert (Hstore : forall m,
        In m (filter kept (DB.menu_items (remote (world a))))
        <-> In m (DB.menu_items (remote (world a)))
            /\ (MenuItemRow.id m <> itemId
                \/ conceals ex (remote (world a)) (DeleteMenuItem itemId)
                     itemId = true)).
      { intros m. rewrite filter_In. unfold kept.
        destruct (String.eqb_spec (MenuItemRow.id m) itemId) as [E|E];
          cbn; [rewrite E|]; intuition congruence. }
      unfold Store2.delete_menu_item. fold kept.
      destruct (cached_item itemId a) as [i|] eqn:Hc;
        cbn [fst snd world with_world].
      * rewrite fetchMenuItems_remote.
        cbn [snd remote with_remote DB.menu_items DB.with_menu_items
             Store.written DB.with_now].
        split; [reflexivity|]. split; [exact Hstore|]. split.
        -- intros Hseen m Hm. apply fetchMenuItems_cache_from_store in Hm.
           cbn in Hm. apply Hstore in Hm.
           destruct Hm as [_ [Hm | Hm]]; [exact Hm | congruence].
        -- exact Hall.
      * cbn [snd remote with_remote DB.menu_items DB.with_menu_items
             Store.written DB.with_now menuState with_menuState
             MenuState.menuItems].
        split; [reflexivity|]. split; [exact Hstore|]. split.
        -- intros _ m Hm. exact (find_none_id itemId _ m Hc Hm).
        -- exact Hall.
Qed.

Lemma deleteMenuItem_removes_item_witness :
  let result := MenuEditor.deleteMenuItem accepting accepting_more "m-1"
                  menu_app in
  fst result = Return tt
  /\ DB.menu_items (remote (world (snd result))) = []
  /\ (forall m, In m (MenuState.menuItems
                        (menuState (world (snd result)))) ->
        MenuItemRow.id m <> "m-1").
Proof.
  destruct (deleteMenuItem_removes_item accepting accepting_more menu_app
              "m-1") as [_ [H _]].
  destruct (H eq_refl) as [H1 [_ [H2 _]]].
  split; [exact H1|]. split; [reflexivity | exact (H2 eq_refl)].
Defined.

Lemma toggleAvailability_negates_cached_witness :
  let result := MenuEditor.toggleAvailability accepting accepting_more
                  "m-1" menu_app in
  cached_item "m-1" menu_app = Some stew
  /\ fst result = Return tt
  /\ (forall m, In m (DB.menu_items (remote (world (snd result)))) ->
        MenuItemRow.id m = "m-1" -> MenuItemRow.available m = false).
Proof.
  split; [reflexivity|].
  destruct (toggleAvailability_negates_cached accepting accepting_more
              menu_app "m-1") as [_ H].
  destruct (H stew eq_refl eq_refl) as [H1 [_ [_ [H2 _]]]].
  split; [exact H1 | exact (proj1 (H2 eq_refl))].
Defined.

(** Without a session the store answers both edits without an error and
    changes nothing: the item stays stored, and available. *)
Example menu_edits_anonymous :
  let toggled := MenuEditor.toggleAvailability anonymous anonymous_more
                   "m-1" menu_app in
  let deleted := MenuEditor.deleteMenuItem anonymous anonymous_more
                   "m-1" menu_app in
  fst toggled = Return tt
  /\ DB.menu_items (remote (world (snd toggled)))
     = DB.menu_items (remote (world menu_app))
  /\ fst deleted = Return tt
  /\ DB.menu_items (remote (world (snd deleted)))
     = DB.menu_items (remote (world menu_app)).
Proof. repeat split. Qed.
